(** * AutoDub Pro: the subtitle timeline, verified against its specification

    A shallow embedding of the subtitle logic of
    [autodub_pro/core/subtitle.py] (class [SubtitleProcessor]) and
    [autodub_pro/ui/subtitle_editor.py] (class [SubtitleEditorWidget]).

    Python values are modelled as follows.
    - [float] is IEEE 754 binary64: Rocq's primitive [float], whose
      subtraction, multiplication, division and comparison are the ones
      Python performs.
    - [int] is [Z].
    - [str] is [string]; a character is a code point below 256.
    - a list is a [list]; indexing follows Python (negative indices count
      from the end, an index out of range raises [IndexError]).
    - a call that may raise returns a [result]. *)

From Stdlib Require Import ZArith List String Ascii Bool Lia.
From Stdlib Require Import Floats QArith Qround Qabs.
From Stdlib Require Import DecimalString DecimalPos DecimalN.
From Stdlib Require Import Permutation.
Import ListNotations.

Set Warnings "-inexact-float".
Open Scope string_scope.
Open Scope list_scope.
Open Scope Z_scope.

(** ** Exceptions *)

Inductive exn : Type :=
| IndexError
| ValueError
| OverflowError
| AttributeError
| TypeError
| OtherError (msg : string).

Inductive result (A : Type) : Type :=
| Ok (a : A)
| Raise (e : exn).
Arguments Ok {A} a.
Arguments Raise {A} e.

Definition bind {A B} (r : result A) (k : A -> result B) : result B :=
  match r with
  | Ok a => k a
  | Raise e => Raise e
  end.

Notation "x <- r ;; k" := (bind r (fun x => k))
  (at level 61, r at next level, right associativity).

(** ** Binary64 *)

(** Spec floats that are not above zero: zeros, negative finite numbers
    and minus infinity. *)
Definition sf_nonpos (x : spec_float) : bool :=
  match x with
  | S754_zero _ => true
  | S754_infinity s => s
  | S754_finite s _ _ => s
  | S754_nan => false
  end.

(** ** Python built-ins *)

(** [l[i]]: a negative index counts from the end. *)
Definition py_index {A} (l : list A) (i : Z) : Z :=
  if i <? 0 then i + Z.of_nat (List.length l) else i.

Definition in_range {A} (l : list A) (j : Z) : bool :=
  (0 <=? j) && (j <? Z.of_nat (List.length l)).

Definition py_getitem {A} (l : list A) (i : Z) : result A :=
  let j := py_index l i in
  if in_range l j then
    match nth_error l (Z.to_nat j) with
    | Some a => Ok a
    | None => Raise IndexError
    end
  else Raise IndexError.

(** [l.insert(i, x)]: the index is clamped to the list. *)
Definition py_insert {A} (l : list A) (i : Z) (x : A) : list A :=
  let n := Z.of_nat (List.length l) in
  let j := if i <? 0 then Z.max 0 (i + n) else Z.min i n in
  firstn (Z.to_nat j) l ++ x :: skipn (Z.to_nat j) l.

(** [del l[i]] *)
Definition py_delitem {A} (l : list A) (i : Z) : result (list A) :=
  let j := py_index l i in
  if in_range l j
  then Ok (firstn (Z.to_nat j) l ++ skipn (S (Z.to_nat j)) l)
  else Raise IndexError.

(** [l[i] = x] *)
Definition py_setitem {A} (l : list A) (i : Z) (x : A) : result (list A) :=
  let j := py_index l i in
  if in_range l j
  then Ok (firstn (Z.to_nat j) l ++ x :: skipn (S (Z.to_nat j)) l)
  else Raise IndexError.

(** A comprehension or loop whose body may raise. *)
Fixpoint mapM {A B} (f : A -> result B) (l : list A) : result (list B) :=
  match l with
  | [] => Ok []
  | a :: rest => b <- f a ;; bs <- mapM f rest ;; Ok (b :: bs)
  end.

(** [sorted(l)] on a list of ints. *)
Fixpoint insert_sorted (x : Z) (l : list Z) : list Z :=
  match l with
  | [] => [x]
  | y :: l' => if x <=? y then x :: l else y :: insert_sorted x l'
  end.

Definition sorted (l : list Z) : list Z := fold_right insert_sorted [] l.

(** [sep.join(l)] *)
Definition join (sep : string) (l : list string) : string :=
  String.concat sep l.

(** [all(p(j) for j in range(k, k + fuel))] *)
Fixpoint all_from (fuel : nat) (k : Z) (p : Z -> bool) : bool :=
  match fuel with
  | O => true
  | S fuel' => p k && all_from fuel' (k + 1) p
  end.

(** *** Strings *)

(** [str.isspace] on code points below 256. *)
Definition is_space (c : ascii) : bool :=
  let n := Z.of_N (N_of_ascii c) in
  ((9 <=? n) && (n <=? 13)) || ((28 <=? n) && (n <=? 32))
  || (n =? 133) || (n =? 160).

(** The white space [int] skips around a number.  [int] turns the white
    space above 127 into spaces and then skips what C's [isspace] accepts:
    the code points 28 to 31 are white space for [str.strip] and not for
    [int]. *)
Definition is_int_space (c : ascii) : bool :=
  let n := Z.of_N (N_of_ascii c) in
  ((9 <=? n) && (n <=? 13)) || (n =? 32) || (n =? 133) || (n =? 160).

Fixpoint lstrip (space : ascii -> bool) (s : string) : string :=
  match s with
  | EmptyString => EmptyString
  | String c rest => if space c then lstrip space rest else s
  end.

Fixpoint rstrip (space : ascii -> bool) (s : string) : string :=
  match s with
  | EmptyString => EmptyString
  | String c rest =>
      match rstrip space rest with
      | EmptyString => if space c then EmptyString else String c EmptyString
      | rest' => String c rest'
      end
  end.

(** [s.strip()] *)
Definition strip (s : string) : string := rstrip is_space (lstrip is_space s).

(** [s[:n]] and [s[n:]] for [n >= 0]. *)
Fixpoint take (n : nat) (s : string) : string :=
  match n, s with
  | S n', String c rest => String c (take n' rest)
  | _, _ => EmptyString
  end.

Fixpoint drop (n : nat) (s : string) : string :=
  match n, s with
  | S n', String _ rest => drop n' rest
  | _, _ => s
  end.

Fixpoint string_repeat (c : ascii) (n : nat) : string :=
  match n with
  | O => EmptyString
  | S n' => String c (string_repeat c n')
  end.

(** [s.ljust(width, fill)] *)
Definition ljust (width : nat) (fill : ascii) (s : string) : string :=
  (s ++ string_repeat fill (width - String.length s))%string.

(** [s.replace(a, b)] for one-character [a] and [b]. *)
Fixpoint replace_char (a b : ascii) (s : string) : string :=
  match s with
  | EmptyString => EmptyString
  | String c rest =>
      String (if Ascii.eqb c a then b else c) (replace_char a b rest)
  end.

(** [s.split(sep)] for a one-character [sep]. *)
Fixpoint split_on (sep : ascii) (s : string) : list string :=
  match s with
  | EmptyString => [EmptyString]
  | String c rest =>
      if Ascii.eqb c sep then EmptyString :: split_on sep rest
      else
        match split_on sep rest with
        | w :: ws => String c w :: ws
        | [] => [String c EmptyString]
        end
  end.

Fixpoint count_char (a : ascii) (s : string) : nat :=
  match s with
  | EmptyString => O
  | String c rest =>
      if Ascii.eqb c a then S (count_char a rest) else count_char a rest
  end.

Fixpoint string_forallb (p : ascii -> bool) (s : string) : bool :=
  match s with
  | EmptyString => true
  | String c rest => p c && string_forallb p rest
  end.

(** *** [int(s)] and [format(n, '0wd')] *)

Definition digit_of (c : ascii) : option Z :=
  let n := Z.of_N (N_of_ascii c) in
  if (48 <=? n) && (n <=? 57) then Some (n - 48) else None.

Definition is_digit (c : ascii) : bool :=
  match digit_of c with Some _ => true | None => false end.

(** Decimal digits, where an underscore may stand between two digits. *)
Fixpoint parse_digits (acc : Z) (after_digit : bool) (s : string) : option Z :=
  match s with
  | EmptyString => if after_digit then Some acc else None
  | String c rest =>
      match digit_of c with
      | Some d => parse_digits (acc * 10 + d) true rest
      | None =>
          if Ascii.eqb c "_" && after_digit then parse_digits acc false rest
          else None
      end
  end.

(** [int(s)]: surrounding white space is dropped, a sign may come first. *)
Definition py_int (s : string) : result Z :=
  let body := rstrip is_int_space (lstrip is_int_space s) in
  let signed :=
    match body with
    | String "+" rest => parse_digits 0 false rest
    | String "-" rest => option_map Z.opp (parse_digits 0 false rest)
    | _ => parse_digits 0 false body
    end in
  match signed with
  | Some n => Ok n
  | None => Raise ValueError
  end.

(** [str(n)] for [n >= 0]. *)
Definition str_nonneg (n : Z) : string :=
  NilZero.string_of_uint (N.to_uint (Z.to_N n)).

Definition zfill (width : nat) (s : string) : string :=
  (string_repeat "0" (width - String.length s) ++ s)%string.

(** [format(n, '0wd')], as in [f"{n:02d}"]: the sign counts in the width. *)
Definition format_d (width : nat) (n : Z) : string :=
  if n <? 0 then ("-" ++ zfill (width - 1) (str_nonneg (- n)))%string
  else zfill width (str_nonneg n).

(** The number written by a string of decimal digits. *)
Definition digits_value (s : string) : Z :=
  match parse_digits 0 true s with
  | Some n => n
  | None => 0
  end.

(** *** [float(n)] and [int(x)]

    An int converts to the nearest binary64 number, ties to even, and
    [OverflowError] is raised beyond the largest one; [int] cuts a float
    towards zero and raises on infinities and NaN. *)

Definition float_of_int (z : Z) : result float :=
  match binary_normalize prec emax z 0 false with
  | S754_infinity _ => Raise OverflowError
  | x => Ok (SF2Prim x)
  end.

Definition int_of_float (x : float) : result Z :=
  match Prim2SF x with
  | S754_zero _ => Ok 0
  | S754_finite s m e =>
      Ok (cond_Zopp s (if 0 <=? e then Zpos m * 2 ^ e
                       else Zpos m / 2 ^ (- e)))
  | S754_infinity _ => Raise OverflowError
  | S754_nan => Raise ValueError
  end.

(** The exact value of a finite float; NaN and the infinities raise as
    they do in [int]. *)
Definition float_value (x : float) : result Q :=
  match Prim2SF x with
  | S754_zero _ => Ok 0%Q
  | S754_finite s m e =>
      Ok (inject_Z (cond_Zopp s (Zpos m)) * Qpower (2 # 1) e)%Q
  | S754_infinity _ => Raise OverflowError
  | S754_nan => Raise ValueError
  end.

(** [s.lower()] on code points below 256. *)
Definition lower_char (c : ascii) : ascii :=
  let n := N_of_ascii c in
  if ((65 <=? n) && (n <=? 90))%N
     || ((192 <=? n) && (n <=? 222) && negb (n =? 215))%N
  then ascii_of_N (n + 32) else c.

Fixpoint lower (s : string) : string :=
  match s with
  | EmptyString => EmptyString
  | String c rest => String (lower_char c) (lower rest)
  end.

(** [s.endswith(suffix)] *)
Definition endswith (s suffix : string) : bool :=
  (String.length suffix <=? String.length s)%nat
  && String.eqb (drop (String.length s - String.length suffix) s) suffix.

(** [range(r, r + n)] *)
Definition row_range (r : Z) (n : nat) : list Z :=
  map (fun i => r + Z.of_nat i) (seq 0 n).

(** ** [datetime.timedelta]

    [timedelta(seconds=x)] for a float [x], as CPython computes it.  The
    whole part of [x] counts 1000000 microseconds each, exactly.  The
    fractional part is multiplied by [1e6] in binary64, which rounds; the
    whole part of the product is added, and what is left of it is rounded
    to the nearest integer, a half to the even count.  The microseconds
    are then normalised into days, seconds below 86400 and microseconds
    below 1000000, and [OverflowError] is raised when the days leave
    [-999999999 .. 999999999].  NaN raises [ValueError] and an infinity
    [OverflowError]. *)

Record timedelta : Type := {
  td_days : Z;
  td_seconds : Z;
  td_microseconds : Z
}.

(** C's [modf]: the fractional part, and the whole part as the int that
    [PyLong_FromDouble] makes of it.  The whole part of a float is a float
    and the subtraction is exact. *)
Definition modf (x : float) : result (float * Z) :=
  intpart <- int_of_float x ;;
  whole <- float_of_int intpart ;;
  Ok ((x - whole)%float, intpart).

(** [accum(tag, sofar, num, factor, &leftover)] for a float [num]: the new
    sum and the new leftover. *)
Definition accum (sofar : Z) (num : float) (factor : Z) (leftover : float)
    : result (Z * float) :=
  parts <- modf num ;;
  let sum := sofar + snd parts * factor in
  if (fst parts =? 0)%float then Ok (sum, leftover)
  else
    dnum <- float_of_int factor ;;
    let dnum := (dnum * fst parts)%float in
    parts <- modf dnum ;;
    Ok (sum + snd parts, (leftover + fst parts)%float).

(** C's [round]: the nearest integer, a half away from zero. *)
Definition c_round (q : Q) : Z :=
  if Qle_bool 0 q then Qfloor (q + (1 # 2)) else - Qfloor (- q + (1 # 2)).

(** The end of [delta_new]: [x] microseconds and what is left over,
    rounded half to even.  The leftover is below one in size, so that the
    float operations of this step are exact; they are written on its exact
    value. *)
Definition add_leftover (x : Z) (leftover_us : float) : result Z :=
  leftover <- float_value leftover_us ;;
  if Qeq_bool leftover 0 then Ok x
  else
    let whole_us := c_round leftover in
    let whole_us :=
      if Qeq_bool (Qabs (inject_Z whole_us - leftover)) (1 # 2) then
        let x_is_odd := if Z.odd x then 1 else 0 in
        2 * c_round ((leftover + inject_Z x_is_odd) * (1 # 2)) - x_is_odd
      else whole_us in
    Ok (x + whole_us).

(** The microseconds of [timedelta(seconds=x)] before they are
    normalised. *)
Definition total_microseconds (seconds : float) : result Z :=
  acc <- accum 0 seconds 1000000 0%float ;;
  add_leftover (fst acc) (snd acc).

(** [microseconds_to_delta]: two [divmod]s and the check of the days. *)
Definition microseconds_to_delta (us : Z) : result timedelta :=
  let s := us / 1000000 in
  let d := s / 86400 in
  if Z.abs d >? 999999999 then Raise OverflowError
  else Ok {| td_days := d;
             td_seconds := s mod 86400;
             td_microseconds := us mod 1000000 |}.

Definition timedelta_of_seconds (seconds : float) : result timedelta :=
  us <- total_microseconds seconds ;;
  microseconds_to_delta us.

(** ** [pysrt]

    A [SubRipTime] stores its ordinal, the number of milliseconds; hours,
    minutes, seconds and milliseconds are read off the ordinal.  A
    [SubRipItem] has an index, two times, a position and a text. *)

Record SubRipTime : Type := { ordinal : Z }.

Definition HOURS_RATIO : Z := 3600000.
Definition MINUTES_RATIO : Z := 60000.
Definition SECONDS_RATIO : Z := 1000.

(** [pysrt.SubRipTime(hours, minutes, seconds, milliseconds)] *)
Definition mkSubRipTime (h m s ms : Z) : SubRipTime :=
  {| ordinal := h * HOURS_RATIO + m * MINUTES_RATIO + s * SECONDS_RATIO + ms |}.

Definition from_ordinal (o : Z) : SubRipTime := {| ordinal := o |}.

Definition hours (t : SubRipTime) : Z := ordinal t / HOURS_RATIO.
Definition minutes (t : SubRipTime) : Z :=
  (ordinal t mod HOURS_RATIO) / MINUTES_RATIO.
Definition seconds (t : SubRipTime) : Z :=
  (ordinal t mod MINUTES_RATIO) / SECONDS_RATIO.
Definition milliseconds (t : SubRipTime) : Z :=
  (ordinal t mod SECONDS_RATIO) / 1.

Record SubRipItem : Type := {
  index : Z;
  start : SubRipTime;
  end_ : SubRipTime;
  position : string;
  text : string
}.

(** [pysrt.SubRipItem(index=.., start=.., end=.., text=..)] *)
Definition mkSubRipItem (i : Z) (s e : SubRipTime) (t : string) : SubRipItem :=
  {| index := i; start := s; end_ := e; position := ""; text := t |}.

Definition set_index (sub : SubRipItem) (i : Z) : SubRipItem :=
  {| index := i; start := start sub; end_ := end_ sub;
     position := position sub; text := text sub |}.

Definition set_start (sub : SubRipItem) (t : SubRipTime) : SubRipItem :=
  {| index := index sub; start := t; end_ := end_ sub;
     position := position sub; text := text sub |}.

Definition set_end (sub : SubRipItem) (t : SubRipTime) : SubRipItem :=
  {| index := index sub; start := start sub; end_ := t;
     position := position sub; text := text sub |}.

Definition set_text (sub : SubRipItem) (t : string) : SubRipItem :=
  {| index := index sub; start := start sub; end_ := end_ sub;
     position := position sub; text := t |}.

(** A [SubRipItem] has no attribute [seconds]. *)
Definition SubRipItem_seconds (sub : SubRipItem) : result Z :=
  Raise AttributeError.

(** A [SubRipItem] has no method [copy] either: [sub.copy()] raises
    [AttributeError]. *)
Definition SubRipItem_copy (sub : SubRipItem) : result SubRipItem :=
  Raise AttributeError.

(** A subtitle from [s] to [e] milliseconds. *)
Definition sample_sub (i s e : Z) (t : string) : SubRipItem :=
  mkSubRipItem i (from_ordinal s) (from_ordinal e) t.

(** ** [core/subtitle.py]: class [SubtitleProcessor] *)

Module SubtitleProcessor.

(** What [_group_transcript_items] reads from one transcript item:
    [item.get('type')], [float(item.get('start_time', 0))],
    [float(item.get('end_time', 0))] and the content of the first
    alternative, [item.get('alternatives', [{}])[0].get('content', '')]. *)
Record item : Type := {
  type_ : string;
  start_time : float;
  end_time : float;
  content : string
}.

(** A segment dictionary with keys ['start_time'], ['end_time'], ['text']. *)
Record segment : Type := {
  seg_start_time : float;
  seg_end_time : float;
  seg_text : string
}.

Definition is_pronunciation (it : item) : bool :=
  String.eqb (type_ it) "pronunciation".

Definition new_segment (it : item) : segment :=
  {| seg_start_time := start_time it;
     seg_end_time := end_time it;
     seg_text := content it |}.

(** [start_time - current_segment['end_time'] < 0.5] *)
Definition within_gap (cur : segment) (it : item) : bool :=
  (start_time it - seg_end_time cur <? 0.5)%float.

(** [current_segment['text'] += ' ' + content;
    current_segment['end_time'] = end_time] *)
Definition extend_segment (cur : segment) (it : item) : segment :=
  {| seg_start_time := seg_start_time cur;
     seg_end_time := end_time it;
     seg_text := (seg_text cur ++ " " ++ content it)%string |}.

(** The loop state: the local variables [segments] and
    [current_segment]. *)
Definition group_state : Type := (list segment * option segment)%type.

(** One iteration of [for item in items]. *)
Definition group_step (st : group_state) (it : item) : group_state :=
  let '(segments, current_segment) := st in
  if negb (is_pronunciation it) then st
  else
    match current_segment with
    | None => (segments, Some (new_segment it))
    | Some cur =>
        if within_gap cur it
        then (segments, Some (extend_segment cur it))
        else (segments ++ [cur], Some (new_segment it))
    end.

Definition _group_transcript_items (items : list item) : list segment :=
  let '(segments, current_segment) := fold_left group_step items ([], None) in
  match current_segment with
  | Some cur => segments ++ [cur]
  | None => segments
  end.

(** The loop as a recursion over the kept items, from the first one on. *)
Fixpoint walk_from (acc : segment) (tokens : list item) : list segment :=
  match tokens with
  | [] => [acc]
  | tok :: rest =>
      if within_gap acc tok
      then walk_from (extend_segment acc tok) rest
      else acc :: walk_from (new_segment tok) rest
  end.

Definition walk_items (tokens : list item) : list segment :=
  match filter is_pronunciation tokens with
  | [] => []
  | tok :: rest => walk_from (new_segment tok) rest
  end.

(** The same walk, recording next to every segment the kept tokens that
    were grouped into it, in input order. *)
Fixpoint walk_members (acc : segment) (members : list item)
    (tokens : list item) : list (segment * list item) :=
  match tokens with
  | [] => [(acc, members)]
  | tok :: rest =>
      if within_gap acc tok
      then walk_members (extend_segment acc tok) (members ++ [tok]) rest
      else (acc, members) :: walk_members (new_segment tok) [tok] rest
  end.

Definition grouped_members (items : list item)
    : list (segment * list item) :=
  match filter is_pronunciation items with
  | [] => []
  | tok :: rest => walk_members (new_segment tok) [tok] rest
  end.

(** A segment paired with its members ends where its last member ends. *)
Definition ends_with_last (sm : segment * list item) : Prop :=
  exists (front : list item) (tok : item),
    snd sm = front ++ [tok] /\ seg_end_time (fst sm) = end_time tok.

(** A speech item, an item of another type and a segment, written
    positionally. *)
Definition token (c : string) (s e : float) : item :=
  {| type_ := "pronunciation"; start_time := s; end_time := e; content := c |}.

Definition marker (c : string) (s e : float) : item :=
  {| type_ := "punctuation"; start_time := s; end_time := e; content := c |}.

Definition seg (s e : float) (t : string) : segment :=
  {| seg_start_time := s; seg_end_time := e; seg_text := t |}.

(** *** The segmentation pass as the specification words it

    Tokens whose type is not speech content ('pronunciation') are
    discarded.  The first kept token opens an accumulator with its start,
    end and content.  Each later kept token whose start minus the
    accumulator's end is strictly less than the gap threshold, 0.5
    seconds, extends the accumulator: the text becomes the old text, a
    single space and the token's content, and the end becomes the token's
    end.  Otherwise the accumulator is emitted as a finished segment and a
    new accumulator opens from that token.  The final open accumulator, if
    any, is emitted last. *)
Definition gapThresholdSeconds : float := 0.5.

Definition spec_speech_content (tok : item) : bool :=
  if string_dec (type_ tok) "pronunciation" then true else false.

Definition spec_open (tok : item) : segment :=
  seg (start_time tok) (end_time tok) (content tok).

Definition spec_extends (acc : segment) (tok : item) : bool :=
  (start_time tok - seg_end_time acc <? gapThresholdSeconds)%float.

Definition spec_extend (acc : segment) (tok : item) : segment :=
  seg (seg_start_time acc) (end_time tok)
      (seg_text acc ++ " " ++ content tok)%string.

Fixpoint spec_walk (acc : segment) (kept : list item) : list segment :=
  match kept with
  | [] => [acc]
  | tok :: rest =>
      if spec_extends acc tok
      then spec_walk (spec_extend acc tok) rest
      else acc :: spec_walk (spec_open tok) rest
  end.

Definition spec_segment (tokens : list item) : list segment :=
  match filter spec_speech_content tokens with
  | [] => []
  | tok :: rest => spec_walk (spec_open tok) rest
  end.

(** *** [load_srt]

    [pysrt.open] reads and parses the file; what it returns or raises is
    given by [pysrt_open]. *)
Definition load_srt (pysrt_open : string -> result (list SubRipItem))
    (file_path : string) : result (list SubRipItem) :=
  match pysrt_open file_path with
  | Ok subs => Ok subs
  | Raise _ => Ok []
  end.

(** *** [_seconds_to_subrip_time]

    [td.seconds] is below 86400, so [hours] is below 24.  The float
    quotient [td.microseconds / 1000], truncated by [int], is the integer
    quotient for every microsecond count below 1000000. *)
Definition _seconds_to_subrip_time (seconds : float) : result SubRipTime :=
  td <- timedelta_of_seconds seconds ;;
  let hours := td_seconds td / 3600 in
  let remainder := td_seconds td mod 3600 in
  let minutes := remainder / 60 in
  let seconds := remainder mod 60 in
  let milliseconds := td_microseconds td / 1000 in
  Ok (mkSubRipTime hours minutes seconds milliseconds).

(** The time of day, in milliseconds, of a count of microseconds: whole
    days are dropped, then whole milliseconds are kept. *)
Definition wrapped_ms (us : Z) : Z := (us mod 86400000000) / 1000.

(** *** [merge_subtitles] *)
Definition merge_subtitles (subtitles : list SubRipItem) (indices : list Z)
    : result (option SubRipItem * list Z) :=
  if (Z.of_nat (List.length indices) <? 2) then Ok (None, [])
  else
    let indices := sorted indices in
    let to_merge :=
      flat_map (fun i => if in_range subtitles i
                         then match nth_error subtitles (Z.to_nat i) with
                              | Some sub => [sub]
                              | None => []
                              end
                         else []) indices in
    match to_merge with
    | [] => Ok (None, [])
    | first :: _ =>
        merged <- SubRipItem_copy first ;;
        let merged := set_end merged (end_ (last to_merge first)) in
        let merged := set_text merged (join " " (map text to_merge)) in
        Ok (Some merged, tl indices)
    end.

(** How many of the supplied indices address a subtitle of the list. *)
Definition valid_indices (subtitles : list SubRipItem) (indices : list Z)
    : nat :=
  List.length (filter (in_range subtitles) indices).

(** *** [split_subtitle] *)
Definition split_subtitle (subtitle : SubRipItem) (position : float)
    : result (SubRipItem * option SubRipItem) :=
  position_time <- _seconds_to_subrip_time position ;;
  (* Check if position is within subtitle duration *)
  if negb ((ordinal (start subtitle) <=? ordinal position_time)
           && (ordinal position_time <=? ordinal (end_ subtitle)))
  then Ok (subtitle, None)
  else
    first_part <- SubRipItem_copy subtitle ;;
    let first_part := set_end first_part position_time in
    second_part <- SubRipItem_copy subtitle ;;
    let second_part := set_start second_part position_time in
    Ok (first_part, Some second_part).

(** *** [save_srt]

    [pysrt.SubRipFile(items=subtitles).save(file_path)] writes the file;
    whether it raises is given by [pysrt_save]. *)
Definition save_srt (pysrt_save : list SubRipItem -> string -> result unit)
    (subtitles : list SubRipItem) (file_path : string) : bool :=
  match pysrt_save subtitles file_path with
  | Ok _ => true
  | Raise _ => false
  end.

(** *** [aws_result_to_srt]

    The result dictionary may lack the key ['results'], and that dictionary
    the key ['items']:
    [aws_result.get('results', {}).get('items', [])]. *)
Record transcript : Type := { transcript_items : option (list item) }.
Record aws_result : Type := { results : option transcript }.

Definition get_items (r : aws_result) : list item :=
  match results r with
  | Some t =>
      match transcript_items t with
      | Some l => l
      | None => []
      end
  | None => []
  end.

(** [for i, segment in enumerate(segments): ... items.append(item)] *)
Fixpoint convert_segments (i : Z) (segments : list segment)
    : result (list SubRipItem) :=
  match segments with
  | [] => Ok []
  | segment :: rest =>
      start_time <- _seconds_to_subrip_time (seg_start_time segment) ;;
      end_time <- _seconds_to_subrip_time (seg_end_time segment) ;;
      let item := mkSubRipItem (i + 1) start_time end_time (seg_text segment) in
      items <- convert_segments (i + 1) rest ;;
      Ok (item :: items)
  end.

Definition aws_result_to_srt (r : aws_result) : list SubRipItem :=
  match convert_segments 0 (_group_transcript_items (get_items r)) with
  | Ok items => items
  | Raise _ => []
  end.

(** *** [crop_subtitle] *)
Definition crop_subtitle (subtitle : SubRipItem) (is_end : bool)
    (position : option float) : result SubRipItem :=
  match position with
  | None => Ok subtitle
  | Some seconds =>
      position_time <- _seconds_to_subrip_time seconds ;;
      new_subtitle <- SubRipItem_copy subtitle ;;
      Ok (if is_end then set_end new_subtitle position_time
          else set_start new_subtitle position_time)
  end.

(** *** [set_subtitle_timing] *)
Definition set_subtitle_timing (subtitle : SubRipItem)
    (start_seconds end_seconds : option float) : result SubRipItem :=
  new_subtitle <- SubRipItem_copy subtitle ;;
  new_subtitle <-
    match start_seconds with
    | Some seconds =>
        t <- _seconds_to_subrip_time seconds ;; Ok (set_start new_subtitle t)
    | None => Ok new_subtitle
    end ;;
  match end_seconds with
  | Some seconds =>
      t <- _seconds_to_subrip_time seconds ;; Ok (set_end new_subtitle t)
  | None => Ok new_subtitle
  end.

End SubtitleProcessor.

(** ** [ui/subtitle_editor.py]: class [SubtitleEditorWidget] *)

Module SubtitleEditorWidget.

(** *** [format_timestamp] and [parse_timestamp] *)

Definition format_timestamp (timestamp : SubRipTime) : string :=
  (format_d 2 (hours timestamp) ++ ":" ++ format_d 2 (minutes timestamp)
   ++ ":" ++ format_d 2 (seconds timestamp)
   ++ "." ++ format_d 3 (milliseconds timestamp))%string.

Definition parse_timestamp (timestamp_str : string) : result SubRipTime :=
  let parts := split_on ":" (replace_char "," "." timestamp_str) in
  match parts with
  | [part0; part1; part2] =>
      hours <- py_int part0 ;;
      minutes <- py_int part1 ;;
      let seconds_parts := split_on "." part2 in
      seconds <- py_int (hd EmptyString seconds_parts) ;;
      milliseconds <-
        match seconds_parts with
        | _ :: fraction :: _ =>
            (* Ensure milliseconds are exactly 3 digits *)
            let ms_str := take 3 (ljust 3 "0" fraction) in
            py_int ms_str
        | _ => Ok 0
        end ;;
      Ok (mkSubRipTime hours minutes seconds milliseconds)
  | _ => Raise ValueError
  end.

(** *** The widget

    The instance variables [subtitles], [current_subtitle_index] and
    [modified].  The table, the text editor and the dialogs are Qt objects:
    what the user selected or typed is an argument of the operation.  The
    table has one row for every subtitle, and its signal
    [itemSelectionChanged] is connected to [selection_changed], which sets
    [current_subtitle_index] to the first selected row, or to [-1] when no
    row is selected. *)

Record editor : Type := {
  subtitles : option (list SubRipItem);
  current_subtitle_index : Z;
  modified : bool
}.

Definition has_subtitles (w : editor) : bool :=
  match subtitles w with
  | Some subs => 0 <? Z.of_nat (List.length subs)
  | None => false
  end.

(** The subtitles of the widget, none when nothing is loaded. *)
Definition timeline (w : editor) : list SubRipItem :=
  match subtitles w with
  | Some subs => subs
  | None => []
  end.

(** [for i, sub in enumerate(self.subtitles): sub.index = i + 1] *)
Fixpoint renumber (i : Z) (subs : list SubRipItem) : list SubRipItem :=
  match subs with
  | [] => []
  | sub :: rest => set_index sub (i + 1) :: renumber (i + 1) rest
  end.

Definition update_indices (subs : list SubRipItem) : list SubRipItem :=
  renumber 0 subs.

(** The widget after its list was changed: [self.modified = True], which
    is the last statement of an operation and is read by none of them. *)
Definition changed (w : editor) (subs : list SubRipItem) : editor :=
  {| subtitles := Some subs;
     current_subtitle_index := current_subtitle_index w;
     modified := true |}.

(** [selection_changed], when the first selected row of the table became
    [row], or [-1] for no row. *)
Definition selection_changed (w : editor) (row : Z) : editor :=
  {| subtitles := subtitles w;
     current_subtitle_index := row;
     modified := modified w |}.

(** [populate_table] starts with [setRowCount(0)]: the rows leave the
    table and the selection with them, and [selection_changed] runs with
    no row selected.  The rows are then filled in again, none selected. *)
Definition populate_table (w : editor) : editor :=
  selection_changed w (-1).

(** [select_subtitle]: [selectRow(index)] when the table has that row,
    upon which [selection_changed] runs. *)
Definition select_subtitle (w : editor) (index : Z) : editor :=
  if (0 <=? index) && (index <? Z.of_nat (List.length (timeline w)))
  then selection_changed w index
  else w.

(** A modified widget that shows [subs] with row [row] selected, [-1] for
    no row. *)
Definition refreshed (subs : list SubRipItem) (row : Z) : editor :=
  {| subtitles := Some subs; current_subtitle_index := row;
     modified := true |}.

(** *** [add_subtitle] *)
Definition add_subtitle (w : editor) : result editor :=
  if negb (has_subtitles w) then Ok w
  else
    let subs := timeline w in
    let n := Z.of_nat (List.length subs) in
    let idx := current_subtitle_index w in
    if 0 <=? idx then
      (* Add after current subtitle *)
      current_sub <- py_getitem subs idx ;;
      let new_start := end_ current_sub in
      let new_end := mkSubRipTime 0 0 5 0 in
      new_end <-
        (if idx <? n - 1 then
           next_sub <- py_getitem subs (idx + 1) ;;
           let lhs := hours new_start * 3600 + minutes new_start * 60
                      + seconds new_start + 5 in
           next_seconds <- SubRipItem_seconds next_sub ;;
           let rhs := hours (start next_sub) * 3600
                      + minutes (start next_sub) * 60 + next_seconds in
           Ok (if lhs >? rhs then start next_sub else new_end)
         else Ok new_end) ;;
      let new_sub := mkSubRipItem (n + 1) new_start new_end "" in
      let subs := py_insert subs (idx + 1) new_sub in
      let w := populate_table (changed w (update_indices subs)) in
      (* Select the new subtitle *)
      Ok (select_subtitle w (current_subtitle_index w + 1))
    else
      (* No subtitle selected, add at the end *)
      new_start <-
        (if 0 <? n then
           last_sub <- py_getitem subs (-1) ;; Ok (end_ last_sub)
         else Ok (mkSubRipTime 0 0 0 0)) ;;
      let new_end := mkSubRipTime (hours new_start) (minutes new_start)
                       (seconds new_start + 5) (milliseconds new_start) in
      let new_sub := mkSubRipItem (n + 1) new_start new_end "" in
      let subs := subs ++ [new_sub] in
      let w := populate_table (changed w subs) in
      (* Select the new subtitle *)
      Ok (select_subtitle w (Z.of_nat (List.length subs) - 1)).

(** *** [delete_subtitle]; [confirmed] is the answer to the question. *)
Definition delete_subtitle (w : editor) (confirmed : bool) : result editor :=
  if negb (has_subtitles w) || (current_subtitle_index w <? 0) then Ok w
  else if negb confirmed then Ok w
  else
    subs <- py_delitem (timeline w) (current_subtitle_index w) ;;
    let subs := update_indices subs in
    let w := populate_table (changed w subs) in
    (* Update selection *)
    let n := Z.of_nat (List.length subs) in
    let w :=
      if current_subtitle_index w >=? n
      then {| subtitles := subtitles w; current_subtitle_index := n - 1;
              modified := modified w |}
      else w in
    Ok (if current_subtitle_index w >=? 0
        then select_subtitle w (current_subtitle_index w)
        else w).

Fixpoint consecutive (rows : list Z) : bool :=
  match rows with
  | a :: (b :: _) as rest => (b =? a + 1) && consecutive rest
  | _ => true
  end.

Definition newline : string := String (ascii_of_nat 10) EmptyString.

(** *** [merge_subtitles]; [selected_rows] are the rows selected in the
    table. *)
Definition merge_subtitles (w : editor) (selected_rows : list Z)
    : result editor :=
  if Z.of_nat (List.length selected_rows) <? 2 then Ok w
  else
    let rows := sorted selected_rows in
    if negb (consecutive rows) then Ok w
    else
      match subtitles w with
      | None => Raise TypeError
      | Some subs =>
          first_sub <- py_getitem subs (hd 0 rows) ;;
          last_sub <- py_getitem subs (last rows 0) ;;
          texts <- mapM (fun row => sub <- py_getitem subs row ;;
                                    Ok (text sub)) rows ;;
          let merged_text := join newline texts in
          let merged_sub := mkSubRipItem (index first_sub) (start first_sub)
                              (end_ last_sub) merged_text in
          subs <- py_setitem subs (hd 0 rows) merged_sub ;;
          subs <- fold_left (fun acc row => l <- acc ;; py_delitem l row)
                    (rev (tl rows)) (Ok subs) ;;
          let w := populate_table (changed w (update_indices subs)) in
          (* Select the merged subtitle *)
          Ok (select_subtitle w (hd 0 rows))
      end.

(** *** [split_subtitle]; [text] and [cursor_pos] are the content of the
    text editor and the position of its cursor.  [cursor_pos / len(text)]
    is the binary64 quotient of the two ints, and [duration_ms] is
    converted to a float before it is multiplied. *)
Definition split_subtitle (w : editor) (text : string) (cursor_pos : Z)
    : result editor :=
  if negb (has_subtitles w) || (current_subtitle_index w <? 0) then Ok w
  else
    let len_text := Z.of_nat (String.length text) in
    if (cursor_pos <=? 0) || (cursor_pos >=? len_text) then Ok w
    else
      let subs := timeline w in
      let idx := current_subtitle_index w in
      current_sub <- py_getitem subs idx ;;
      let start_ms := ordinal (start current_sub) in
      let end_ms := ordinal (end_ current_sub) in
      let duration_ms := end_ms - start_ms in
      let text_before := strip (take (Z.to_nat cursor_pos) text) in
      let text_after := strip (drop (Z.to_nat cursor_pos) text) in
      if String.eqb text_before "" || String.eqb text_after "" then Ok w
      else
        cursor_f <- float_of_int cursor_pos ;;
        len_f <- float_of_int len_text ;;
        let split_ratio := (cursor_f / len_f)%float in
        duration_f <- float_of_int duration_ms ;;
        offset <- int_of_float (duration_f * split_ratio)%float ;;
        let split_ms := start_ms + offset in
        let split_time := from_ordinal split_ms in
        (* Update current subtitle *)
        let current_sub := set_text current_sub text_before in
        let current_sub := set_end current_sub split_time in
        (* Create new subtitle for second part *)
        let new_sub := mkSubRipItem (index current_sub + 1) split_time
                         (end_ current_sub) text_after in
        subs <- py_setitem subs idx current_sub ;;
        let subs := py_insert subs (idx + 1) new_sub in
        let w := populate_table (changed w (update_indices subs)) in
        (* Select the first part *)
        Ok (select_subtitle w (current_subtitle_index w)).

(** *** [edit_timing]; [dialog] is [None] when the dialog was rejected,
    and the two typed strings when it was accepted. *)
Definition edit_timing (w : editor) (dialog : option (string * string))
    : result editor :=
  if negb (has_subtitles w) || (current_subtitle_index w <? 0) then Ok w
  else
    let subs := timeline w in
    let idx := current_subtitle_index w in
    current_sub <- py_getitem subs idx ;;
    match dialog with
    | None => Ok w
    | Some (start_time_str, end_time_str) =>
        let parsed :=
          start_time <- parse_timestamp start_time_str ;;
          end_time <- parse_timestamp end_time_str ;;
          Ok (start_time, end_time) in
        match parsed with
        | Ok (start_time, end_time) =>
            let current_sub := set_start current_sub start_time in
            let current_sub := set_end current_sub end_time in
            subs <- py_setitem subs idx current_sub ;;
            Ok (changed w subs)
        | Raise _ => Ok w
        end
    end.

(** *** The mutating operations, with what the user supplied. *)
Inductive action : Type :=
| Add
| Delete (confirmed : bool)
| Merge (selected_rows : list Z)
| Split (text : string) (cursor_pos : Z)
| EditTiming (dialog : option (string * string)).

Definition run (w : editor) (a : action) : result editor :=
  match a with
  | Add => add_subtitle w
  | Delete confirmed => delete_subtitle w confirmed
  | Merge selected_rows => merge_subtitles w selected_rows
  | Split text cursor_pos => split_subtitle w text cursor_pos
  | EditTiming dialog => edit_timing w dialog
  end.

Fixpoint run_all (w : editor) (actions : list action) : result editor :=
  match actions with
  | [] => Ok w
  | a :: rest => w' <- run w a ;; run_all w' rest
  end.

(** *** The invariants of the timeline *)

(** The indices are [i], [i + 1], ... in list order. *)
Fixpoint indices_from (i : Z) (subs : list SubRipItem) : bool :=
  match subs with
  | [] => true
  | sub :: rest => (index sub =? i) && indices_from (i + 1) rest
  end.

(** The indices are [1 .. N], each at its 1-based position. *)
Definition indices_sequential (subs : list SubRipItem) : bool :=
  indices_from 1 subs.

Fixpoint ascending (l : list Z) : bool :=
  match l with
  | a :: (b :: _) as rest => (a <=? b) && ascending rest
  | _ => true
  end.

(** The starts never decrease along the list. *)
Definition ascending_start (subs : list SubRipItem) : bool :=
  ascending (map (fun sub => ordinal (start sub)) subs).

Definition timeline_ok (w : editor) : bool :=
  indices_sequential (timeline w) && ascending_start (timeline w).

(** A widget showing [subs] with row [idx] current. *)
Definition editing (subs : list SubRipItem) (idx : Z) : editor :=
  {| subtitles := Some subs; current_subtitle_index := idx;
     modified := false |}.

(** *** [set_subtitles] *)
Definition set_subtitles (w : editor) (subs : list SubRipItem) : editor :=
  {| subtitles := Some subs; current_subtitle_index := -1;
     modified := false |}.

(** *** The text shown in the table, in [populate_table] and
    [text_edited]: the first line, and three points when there are more. *)
Definition preview_text (text : string) : string :=
  let lines := split_on (ascii_of_nat 10) text in
  let first := hd EmptyString lines in
  if (1 <? List.length lines)%nat then (first ++ "...")%string else first.

(** *** [text_edited]; [new_text] is the content of the text editor. *)
Definition text_edited (w : editor) (new_text : string) : result editor :=
  if negb (has_subtitles w) || (current_subtitle_index w <? 0) then Ok w
  else
    let subs := timeline w in
    let idx := current_subtitle_index w in
    current_sub <- py_getitem subs idx ;;
    subs <- py_setitem subs idx (set_text current_sub new_text) ;;
    Ok (changed w subs).

(** *** [highlight_subtitle_at_position]

    [t.hours * 3600 + t.minutes * 60 + t.seconds + t.milliseconds / 1000]:
    the sum of ints is converted to a float and added to the float
    quotient. *)
Definition time_seconds (t : SubRipTime) : result float :=
  whole <- float_of_int (hours t * 3600 + minutes t * 60 + seconds t) ;;
  ms <- float_of_int (milliseconds t) ;;
  thousand <- float_of_int 1000 ;;
  Ok (whole + ms / thousand)%float.

(** [start_seconds <= position_seconds <= end_seconds] *)
Definition covers (sub : SubRipItem) (position_seconds : float)
    : result bool :=
  start_seconds <- time_seconds (start sub) ;;
  end_seconds <- time_seconds (end_ sub) ;;
  Ok ((start_seconds <=? position_seconds)%float
      && (position_seconds <=? end_seconds)%float).

(** The loop with its [break]; [-1] when no subtitle is found. *)
Fixpoint find_subtitle_at (i : Z) (subs : list SubRipItem)
    (position_seconds : float) : result Z :=
  match subs with
  | [] => Ok (-1)
  | sub :: rest =>
      inside <- covers sub position_seconds ;;
      if inside then Ok i
      else find_subtitle_at (i + 1) rest position_seconds
  end.

(** The row handed to [select_subtitle], if any. *)
Definition highlight_subtitle_at_position (w : editor)
    (position_seconds : float) : result (option Z) :=
  if negb (has_subtitles w) then Ok None
  else
    found_index <- find_subtitle_at 0 (timeline w) position_seconds ;;
    Ok (if (0 <=? found_index)
           && negb (found_index =? current_subtitle_index w)
        then Some found_index else None).

End SubtitleEditorWidget.

(** ** [ui/main_window.py]: class [MainWindow]

    The subtitle editor of the window and [current_subtitle_path]; the
    path chosen in the file dialog is an argument, empty when the dialog was
    cancelled. *)

Module MainWindow.

Record window : Type := {
  subtitle_editor : SubtitleEditorWidget.editor;
  current_subtitle_path : option string
}.

(** *** [load_subtitles] *)
Definition load_subtitles
    (pysrt_open : string -> result (list SubRipItem))
    (mw : window) (file_path : string) : result window :=
  if String.eqb file_path "" then Ok mw
  else
    subtitles <- SubtitleProcessor.load_srt pysrt_open file_path ;;
    match subtitles with
    | [] => Ok mw
    | _ =>
        Ok {| subtitle_editor :=
                SubtitleEditorWidget.set_subtitles (subtitle_editor mw)
                  subtitles;
              current_subtitle_path := Some file_path |}
    end.

(** *** [save_subtitles]; the second component is the call of [save_srt]
    that was made, if any: its subtitles and its path. *)
Definition save_subtitles
    (pysrt_save : list SubRipItem -> string -> result unit)
    (mw : window) (file_path : string)
    : window * option (list SubRipItem * string) :=
  if negb (SubtitleEditorWidget.has_subtitles (subtitle_editor mw))
  then (mw, None)
  else if String.eqb file_path "" then (mw, None)
  else
    let file_path :=
      if negb (endswith (lower file_path) ".srt")
      then (file_path ++ ".srt")%string else file_path in
    let subtitles := SubtitleEditorWidget.timeline (subtitle_editor mw) in
    if SubtitleProcessor.save_srt pysrt_save subtitles file_path
    then ({| subtitle_editor := subtitle_editor mw;
             current_subtitle_path := Some file_path |},
          Some (subtitles, file_path))
    else (mw, Some (subtitles, file_path)).

End MainWindow.

(* ================================================================== *)
(** * Theorems *)
(* ================================================================== *)

Import SubtitleProcessor.

(** ** Binary64 facts used by the segmentation pass *)

Module FloatFacts.

Lemma sf_nonpos_lt_half (x : spec_float) :
  sf_nonpos x = true -> SFltb x (Prim2SF 0.5%float) = true.
Proof.
  replace (Prim2SF 0.5%float) with (S754_finite false 4503599627370496 (-53))
    by (vm_compute; reflexivity).
  destruct x as [s|[]| |[] m e]; intros H; try reflexivity;
  cbv [sf_nonpos] in H; discriminate H.
Qed.

Lemma shr_1_nonneg (mrs : shr_record) :
  0 <= shr_m mrs -> 0 <= shr_m (shr_1 mrs).
Proof.
  destruct mrs as [m r s]. cbn [shr_m].
  destruct m as [|p|p]; [| |lia]; intros _.
  - cbn. lia.
  - destruct p; cbn; lia.
Qed.

Lemma iter_pos_inv {A} (P : A -> Prop) (f : A -> A) :
  (forall x, P x -> P (f x)) ->
  forall n x, P x -> P (SpecFloat.iter_pos f n x).
Proof.
  intros Hf. induction n as [n IH|n IH|]; intros x Hx; cbn; auto.
Qed.

Lemma shr_fexp_nonneg (m e : Z) (l : location) :
  0 <= m -> 0 <= shr_m (fst (shr_fexp prec emax m e l)).
Proof.
  intros Hm. unfold shr_fexp, shr.
  assert (H0 : 0 <= shr_m (shr_record_of_loc m l))
    by (destruct l as [|[]]; exact Hm).
  destruct (fexp prec emax (Zdigits2 m + e) - e) as [|p|p]; cbn [fst];
    try exact H0.
  apply (iter_pos_inv (fun r => 0 <= shr_m r)); [apply shr_1_nonneg|exact H0].
Qed.

Lemma round_nearest_even_nonneg (m : Z) (l : location) :
  0 <= m -> 0 <= round_nearest_even m l.
Proof.
  intros Hm. destruct l as [|[]]; cbn; try lia.
  destruct (Z.even m); lia.
Qed.

Lemma binary_round_aux_sign (m e : Z) (l : location) :
  0 <= m -> sf_nonpos (binary_round_aux prec emax true m e l) = true.
Proof.
  intros Hm. unfold binary_round_aux.
  pose proof (shr_fexp_nonneg m e l Hm) as H1.
  destruct (shr_fexp prec emax m e l) as [mrs' e'] eqn:E1. cbn [fst] in H1.
  pose proof (shr_fexp_nonneg _ e' loc_Exact
                (round_nearest_even_nonneg _ (loc_of_shr_record mrs') H1)) as H2.
  destruct (shr_fexp prec emax (round_nearest_even _ _) e' loc_Exact)
    as [mrs'' e''] eqn:E2.
  cbn [fst] in H2.
  destruct (shr_m mrs'') as [|p|p]; [reflexivity| |lia].
  destruct (e'' <=? emax - prec); reflexivity.
Qed.

Lemma binary_normalize_neg (m e : Z) :
  m < 0 -> sf_nonpos (binary_normalize prec emax m e false) = true.
Proof.
  intros Hm. destruct m as [|p|p]; try lia.
  cbn [binary_normalize]. unfold binary_round.
  destruct (shl_align p e _) as [mz ez].
  apply binary_round_aux_sign. lia.
Qed.

Lemma iter_xO (m d : positive) :
  Zpos (Pos.iter xO m d) = Zpos m * 2 ^ Zpos d.
Proof.
  induction d as [|d IH] using Pos.peano_ind.
  - cbn. lia.
  - rewrite Pos.iter_succ, Pos2Z.inj_succ, Z.pow_succ_r by lia.
    rewrite Pos2Z.inj_xO, IH. lia.
Qed.

Lemma shl_align_value (m : positive) (e ez : Z) :
  ez <= e -> Zpos (fst (shl_align m e ez)) = Zpos m * 2 ^ (e - ez).
Proof.
  intros H. unfold shl_align.
  destruct (ez - e) as [|d|d] eqn:E; cbn [fst].
  - replace (e - ez) with 0 by lia. lia.
  - lia.
  - rewrite iter_xO. f_equal. f_equal. lia.
Qed.

Lemma digits2_upper (m : positive) : Zpos m < 2 ^ Zpos (digits2_pos m).
Proof.
  induction m as [m IH|m IH|]; cbn [digits2_pos];
    rewrite ?Pos2Z.inj_succ, ?Z.pow_succ_r by lia; try lia.
Qed.

Lemma digits2_lower (m : positive) : 2 ^ (Zpos (digits2_pos m) - 1) <= Zpos m.
Proof.
  induction m as [m IH|m IH|]; cbn [digits2_pos];
    rewrite ?Pos2Z.inj_succ; try (cbn; lia);
    replace (Z.succ (Zpos (digits2_pos m)) - 1)
      with (Z.succ (Zpos (digits2_pos m) - 1)) by lia;
    rewrite Z.pow_succ_r by lia; lia.
Qed.

(** A valid binary64 mantissa has at most 53 bits, and exactly 53 above
    the smallest exponent. *)
Lemma bounded_range (m : positive) (e : Z) :
  bounded prec emax m e = true ->
  -1074 <= e /\ Zpos m < 2 ^ 53 /\ (-1074 < e -> 2 ^ 52 <= Zpos m).
Proof.
  unfold bounded, canonical_mantissa, fexp, emin, prec, emax.
  intros H. apply andb_true_iff in H. destruct H as [H _].
  apply Z.eqb_eq in H.
  pose proof (digits2_upper m) as Hu. pose proof (digits2_lower m) as Hl.
  assert (Hd : Zpos (digits2_pos m) <= 53) by lia.
  repeat split.
  - lia.
  - apply Z.lt_le_trans with (1 := Hu). apply Z.pow_le_mono_r; lia.
  - intros He. assert (Zpos (digits2_pos m) = 53) as Hd' by lia.
    rewrite Hd' in Hl. exact Hl.
Qed.

Lemma SFsub_nonpos (x y : spec_float) :
  SpecFloat.valid_binary prec emax x = true ->
  SpecFloat.valid_binary prec emax y = true ->
  SFltb x y = true -> sf_nonpos (SF64sub x y) = true.
Proof.
  intros Vx Vy. unfold SFltb, SF64sub.
  destruct x as [sx|sx| |sx mx ex], y as [sy|sy| |sy my ey];
    cbn [SFcompare SFsub sf_nonpos]; try discriminate;
    try (destruct sx; try discriminate; reflexivity);
    try (destruct sy; try discriminate; reflexivity);
    try (destruct sx, sy; try discriminate; reflexivity).
  cbn [valid_binary] in Vx, Vy.
  apply bounded_range in Vx. apply bounded_range in Vy.
  destruct Vx as (Ex & Ux & Lx), Vy as (Ey & Uy & Ly).
  intros Hc. apply binary_normalize_neg.
  assert (Hx := shl_align_value mx ex (Z.min ex ey) (Z.le_min_l _ _)).
  assert (Hy := shl_align_value my ey (Z.min ex ey) (Z.le_min_r _ _)).
  rewrite Hx, Hy. clear Hx Hy.
  destruct sx, sy; cbn [cond_Zopp]; try discriminate.
  - (* both negative *)
    destruct (Z.compare_spec ex ey) as [E|E|E]; try discriminate.
    + subst ey. rewrite Z.min_id, Z.sub_diag. cbn [Z.pow].
      rewrite Pos.compare_cont_spec in Hc. cbn in Hc.
      destruct (Pos.compare_spec mx my); try discriminate; lia.
    + rewrite Z.min_r by lia. rewrite Z.sub_diag. cbn [Z.pow].
      assert (2 ^ 1 <= 2 ^ (ex - ey)) by (apply Z.pow_le_mono_r; lia).
      specialize (Lx ltac:(lia)). nia.
  - (* negative minus positive *)
    assert (0 < 2 ^ (ex - Z.min ex ey)) by (apply Z.pow_pos_nonneg; lia).
    assert (0 < 2 ^ (ey - Z.min ex ey)) by (apply Z.pow_pos_nonneg; lia).
    nia.
  - (* both positive *)
    destruct (Z.compare_spec ex ey) as [E|E|E]; try discriminate.
    + subst ey. rewrite Z.min_id, Z.sub_diag. cbn [Z.pow].
      rewrite Pos.compare_cont_spec in Hc. cbn in Hc.
      destruct (Pos.compare_spec mx my); try discriminate; lia.
    + rewrite Z.min_l by lia. rewrite Z.sub_diag. cbn [Z.pow].
      assert (2 ^ 1 <= 2 ^ (ey - ex)) by (apply Z.pow_le_mono_r; lia).
      specialize (Ly ltac:(lia)). nia.
Qed.

(** In binary64, a number below another one is below it by less than
    half a second: their rounded difference is not above zero. *)
Lemma negative_gap_lt_half (a b : float) :
  (a <? b)%float = true -> (a - b <? 0.5)%float = true.
Proof.
  rewrite !ltb_spec, sub_spec. intros H.
  apply sf_nonpos_lt_half, SFsub_nonpos; auto using Prim2SF_valid.
Qed.

End FloatFacts.

(** ** Segmentation: [_group_transcript_items] *)

Module GroupingFacts.

Lemma fold_skip (segs : list segment) (cur : option segment) (its : list item) :
  fold_left group_step its (segs, cur)
  = fold_left group_step (filter is_pronunciation its) (segs, cur).
Proof.
  revert segs cur.
  induction its as [|it its IH]; intros segs cur; [reflexivity|].
  cbn [filter fold_left].
  destruct (is_pronunciation it) eqn:E.
  - cbn [fold_left]. destruct (group_step (segs, cur) it) as [s c]. apply IH.
  - unfold group_step at 2. rewrite E. cbn [negb]. apply IH.
Qed.

Lemma loop_walk (toks : list item) :
  Forall (fun t => is_pronunciation t = true) toks ->
  forall (segs : list segment) (acc : segment),
    (let '(segments, current_segment) :=
       fold_left group_step toks (segs, Some acc) in
     match current_segment with
     | Some cur => segments ++ [cur]
     | None => segments
     end) = segs ++ walk_from acc toks.
Proof.
  induction 1 as [|t toks Ht _ IH]; intros segs acc; [reflexivity|].
  cbn [fold_left walk_from]. unfold group_step at 2.
  rewrite Ht. cbn [negb].
  destruct (within_gap acc t).
  - apply IH.
  - rewrite IH, <- app_assoc. reflexivity.
Qed.

Lemma filter_all_pronunciation (its : list item) :
  Forall (fun t => is_pronunciation t = true) (filter is_pronunciation its).
Proof.
  apply Forall_forall. intros t Ht. apply filter_In in Ht. tauto.
Qed.

Lemma group_is_walk (items : list item) :
  _group_transcript_items items = walk_items items.
Proof.
  unfold _group_transcript_items, walk_items.
  rewrite fold_skip.
  pose proof (filter_all_pronunciation items) as HF.
  destruct (filter is_pronunciation items) as [|t toks]; [reflexivity|].
  inversion HF as [|? ? Ht Htoks]; subst.
  cbn [fold_left]. unfold group_step at 2. rewrite Ht. cbn [negb].
  apply (loop_walk toks Htoks [] (new_segment t)).
Qed.

Lemma walk_members_fst (toks : list item) :
  forall (acc : segment) (members : list item),
    map fst (walk_members acc members toks) = walk_from acc toks.
Proof.
  induction toks as [|t toks IH]; intros acc members; [reflexivity|].
  cbn [walk_members walk_from]. destruct (within_gap acc t).
  - apply IH.
  - cbn [map fst]. f_equal. apply IH.
Qed.

Lemma walk_members_concat (toks : list item) :
  forall (acc : segment) (members : list item),
    List.concat (map snd (walk_members acc members toks)) = members ++ toks.
Proof.
  induction toks as [|t toks IH]; intros acc members.
  - cbn. rewrite app_nil_r. reflexivity.
  - cbn [walk_members]. destruct (within_gap acc t).
    + rewrite IH, <- app_assoc. reflexivity.
    + cbn [map snd List.concat]. rewrite IH. reflexivity.
Qed.

Lemma walk_members_last (toks : list item) :
  forall (acc : segment) (members : list item),
    ends_with_last (acc, members) ->
    Forall ends_with_last (walk_members acc members toks).
Proof.
  induction toks as [|t toks IH]; intros acc members Hacc.
  - repeat constructor. exact Hacc.
  - cbn [walk_members]. destruct (within_gap acc t).
    + apply IH. exists members, t. split; reflexivity.
    + constructor; [exact Hacc|].
      apply IH. exists [], t. split; reflexivity.
Qed.

Lemma speech_content_is_pronunciation (it : item) :
  spec_speech_content it = is_pronunciation it.
Proof.
  unfold spec_speech_content, is_pronunciation.
  destruct (string_dec (type_ it) "pronunciation") as [E|E].
  - symmetry. apply String.eqb_eq. exact E.
  - symmetry. apply String.eqb_neq. exact E.
Qed.

Lemma spec_walk_is_walk (toks : list item) :
  forall acc : segment, spec_walk acc toks = walk_from acc toks.
Proof.
  induction toks as [|t toks IH]; intros acc; [reflexivity|].
  cbn [spec_walk walk_from].
  change (spec_extends acc t) with (within_gap acc t).
  destruct (within_gap acc t).
  - apply IH.
  - rewrite IH. reflexivity.
Qed.

Lemma group_refines_spec (items : list item) :
  _group_transcript_items items = spec_segment items.
Proof.
  rewrite group_is_walk. unfold walk_items, spec_segment.
  rewrite (filter_ext _ _ speech_content_is_pronunciation).
  destruct (filter is_pronunciation items) as [|t toks]; [reflexivity|].
  symmetry. apply spec_walk_is_walk.
Qed.

Lemma not_pronunciation_skipped (it : item) (st : group_state) :
  type_ it <> "pronunciation" -> group_step st it = st.
Proof.
  intros H. unfold group_step, is_pronunciation. destruct st as [segs cur].
  rewrite (proj2 (String.eqb_neq _ _) H). reflexivity.
Qed.

Lemma negative_gap_within (cur : segment) (it : item) :
  (start_time it <? seg_end_time cur)%float = true ->
  within_gap cur it = true.
Proof. apply FloatFacts.negative_gap_lt_half. Qed.

End GroupingFacts.

(** ** The claims about segmentation *)

(** C1. For every list of transcript items, [_group_transcript_items]
  computes the left-to-right walk that the specification words: items
  whose type is not 'pronunciation' are discarded, whatever their times
  are; the first kept item opens the accumulator; a kept item whose start
  minus the accumulator's end is strictly below 0.5 extends it (text, a
  space, the content; end set to the item's end); any other kept item
  emits the accumulator and opens a new one; and the last accumulator is
  emitted at the end.  The three tokens hi, there, bye give the two
  segments of the specification; a punctuation mark between two words is
  dropped and its times split nothing; a gap of exactly 0.5 splits and a
  gap of 0.25 does not; and no item gives no segment. *)
Theorem C1_segmentation_walk :
(forall items : list item,
    _group_transcript_items items = spec_segment items)
/\ (forall (it : item) (segments : list segment) (current : option segment),
      type_ it <> "pronunciation" ->
      group_step (segments, current) it = (segments, current))
/\ (forall (it : item) (segments : list segment),
      type_ it = "pronunciation" ->
      group_step (segments, None) it
      = (segments, Some (seg (start_time it) (end_time it) (content it))))
/\ (forall (it : item) (segments : list segment) (acc : segment),
      type_ it = "pronunciation" ->
      group_step (segments, Some acc) it
      = if (start_time it - seg_end_time acc <? 0.5)%float
        then (segments,
              Some (seg (seg_start_time acc) (end_time it)
                        (seg_text acc ++ " " ++ content it)%string))
        else (segments ++ [acc],
              Some (seg (start_time it) (end_time it) (content it))))
/\ _group_transcript_items
     [token "hi" 0.0 0.3; token "there" 0.35 0.7; token "bye" 2.0 2.3]
   = [seg 0.0 0.7 "hi there"; seg 2.0 2.3 "bye"]
/\ _group_transcript_items
     [token "hi" 0.0 0.3; marker "," 5.0 9.0; token "there" 0.35 0.7;
      marker "." 0.0 0.0]
   = [seg 0.0 0.7 "hi there"]
/\ _group_transcript_items [token "a" 0.0 1.0; token "b" 1.5 2.0]
   = [seg 0.0 1.0 "a"; seg 1.5 2.0 "b"]
/\ _group_transcript_items [token "a" 0.0 1.0; token "b" 1.25 2.0]
   = [seg 0.0 2.0 "a b"]
/\ _group_transcript_items [marker "," 0.0 0.0] = []
/\ _group_transcript_items [] = [].
Proof.
split; [exact GroupingFacts.group_refines_spec|].
split; [intros it segments current H;
        exact (GroupingFacts.not_pronunciation_skipped it _ H)|].
split.
{ intros it segments H. unfold group_step, is_pronunciation.
  rewrite H. reflexivity. }
split.
{ intros it segments acc H. unfold group_step, is_pronunciation.
  rewrite H. cbn [String.eqb negb]. unfold within_gap.
  destruct (start_time it - seg_end_time acc <? 0.5)%float; reflexivity. }
repeat split; vm_compute; reflexivity.
Qed.

(** C10. A kept item that starts before the open accumulator's end passes
  the gap test and extends the accumulator, and the extension sets the
  accumulator's end to that item's end whatever the two ends are.  Hence
  every emitted segment ends where the last item grouped into it ends;
  with items a (0.0 to 2.0) and b (1.0 to 1.5) the one segment ends at
  1.5, below the largest end 2.0 of its items. *)
Theorem C10_negative_gap_extends :
(forall (segs : list segment) (cur : segment) (it : item),
    is_pronunciation it = true ->
    (start_time it <? seg_end_time cur)%float = true ->
    group_step (segs, Some cur) it = (segs, Some (extend_segment cur it))
    /\ seg_end_time (extend_segment cur it) = end_time it)
/\ (forall items : list item,
      map fst (grouped_members items) = _group_transcript_items items
      /\ List.concat (map snd (grouped_members items))
         = filter is_pronunciation items
      /\ Forall ends_with_last (grouped_members items))
/\ _group_transcript_items [token "a" 0.0 2.0; token "b" 1.0 1.5]
   = [seg 0.0 1.5 "a b"]
/\ (1.5 <? 2.0)%float = true.
Proof.
split; [|split; [|split; vm_compute; reflexivity]].
- intros segs cur it Hp Hlt. split; [|reflexivity].
  unfold group_step. rewrite Hp. cbn [negb].
  rewrite (GroupingFacts.negative_gap_within cur it Hlt). reflexivity.
- intros items. rewrite GroupingFacts.group_is_walk.
  unfold grouped_members, walk_items.
  destruct (filter is_pronunciation items) as [|t toks].
  + repeat split. constructor.
  + split; [apply GroupingFacts.walk_members_fst|].
    split; [apply GroupingFacts.walk_members_concat|].
    apply GroupingFacts.walk_members_last.
    exists [], t. split; reflexivity.
Qed.


(** ** Seconds to [SubRipTime] *)

Module ConversionFacts.

Lemma ordinal_of_fields (s us : Z) :
  0 <= s -> 0 <= us < 1000000 ->
  mkSubRipTime (s / 3600) (s mod 3600 / 60) ((s mod 3600) mod 60) (us / 1000)
  = from_ordinal (s * 1000 + us / 1000).
Proof.
  intros Hs Hus. unfold mkSubRipTime, from_ordinal, HOURS_RATIO,
    MINUTES_RATIO, SECONDS_RATIO. f_equal.
  Z.to_euclidean_division_equations. lia.
Qed.

Lemma days_of_microseconds (us : Z) :
  us / 1000000 / 86400 = us / 86400000000.
Proof. rewrite Z.div_div by lia. reflexivity. Qed.

Lemma ms_of_day (us : Z) :
  (us / 1000000) mod 86400 * 1000 + us mod 1000000 / 1000 = wrapped_ms us.
Proof. unfold wrapped_ms. Z.to_euclidean_division_equations. lia. Qed.

(** Within timedelta's range the conversion is the wrap of the
    microseconds to the time of day. *)
Lemma conversion_of_microseconds (t : float) (us : Z) :
  total_microseconds t = Ok us ->
  Z.abs (us / 86400000000) <= 999999999 ->
  _seconds_to_subrip_time t = Ok (from_ordinal (wrapped_ms us)).
Proof.
  intros E R. unfold _seconds_to_subrip_time, timedelta_of_seconds.
  rewrite E. cbn [bind]. unfold microseconds_to_delta.
  rewrite days_of_microseconds.
  destruct (Z.gtb_spec (Z.abs (us / 86400000000)) 999999999) as [G|G];
    [lia|].
  cbn [bind td_seconds td_microseconds].
  rewrite ordinal_of_fields.
  - rewrite ms_of_day. reflexivity.
  - apply Z.mod_pos_bound. lia.
  - apply Z.mod_pos_bound. lia.
Qed.

(** Past 999999999 days, either way, timedelta refuses the value. *)
Lemma conversion_overflows (t : float) (us : Z) :
  total_microseconds t = Ok us ->
  999999999 < Z.abs (us / 86400000000) ->
  _seconds_to_subrip_time t = Raise OverflowError.
Proof.
  intros E R. unfold _seconds_to_subrip_time, timedelta_of_seconds.
  rewrite E. cbn [bind]. unfold microseconds_to_delta.
  rewrite days_of_microseconds.
  destruct (Z.gtb_spec (Z.abs (us / 86400000000)) 999999999) as [G|G];
    [reflexivity|lia].
Qed.

Lemma conversion_raises (t : float) (e : exn) :
  total_microseconds t = Raise e -> _seconds_to_subrip_time t = Raise e.
Proof.
  intros E. unfold _seconds_to_subrip_time, timedelta_of_seconds.
  rewrite E. reflexivity.
Qed.

(** A time that the conversion returns is the time of day of the
    microseconds. *)
Lemma conversion_returns (t : float) (ts : SubRipTime) :
  _seconds_to_subrip_time t = Ok ts ->
  exists us : Z,
    total_microseconds t = Ok us
    /\ Z.abs (us / 86400000000) <= 999999999
    /\ ts = from_ordinal (wrapped_ms us).
Proof.
  intros E. destruct (total_microseconds t) as [us|e] eqn:T.
  - destruct (Z_le_gt_dec (Z.abs (us / 86400000000)) 999999999) as [R|R].
    + rewrite (conversion_of_microseconds t us T R) in E.
      exists us. repeat split; [exact R|congruence].
    + rewrite (conversion_overflows t us T) in E by lia. discriminate E.
  - rewrite (conversion_raises t e T) in E. discriminate E.
Qed.

Lemma wrapped_ms_days (us days : Z) :
  wrapped_ms (us + days * 86400000000) = wrapped_ms us.
Proof. unfold wrapped_ms. rewrite Z.mod_add by lia. reflexivity. Qed.

Lemma wrapped_ms_range (us : Z) : 0 <= wrapped_ms us < 86400000.
Proof. unfold wrapped_ms. Z.to_euclidean_division_equations. lia. Qed.

Lemma fields_in_range (o : Z) :
  0 <= o < 86400000 ->
  0 <= hours (from_ordinal o) < 24
  /\ 0 <= minutes (from_ordinal o) < 60
  /\ 0 <= seconds (from_ordinal o) < 60
  /\ 0 <= milliseconds (from_ordinal o) < 1000.
Proof.
  intros H. unfold hours, minutes, seconds, milliseconds, from_ordinal,
    HOURS_RATIO, MINUTES_RATIO, SECONDS_RATIO. cbn [ordinal].
  Z.to_euclidean_division_equations. lia.
Qed.

Lemma not_a_number (t : float) :
  Prim2SF t = S754_nan -> _seconds_to_subrip_time t = Raise ValueError.
Proof.
  intros H. apply conversion_raises.
  unfold total_microseconds, accum, modf, int_of_float. rewrite H.
  reflexivity.
Qed.

Lemma infinite (t : float) (s : bool) :
  Prim2SF t = S754_infinity s ->
  _seconds_to_subrip_time t = Raise OverflowError.
Proof.
  intros H. apply conversion_raises.
  unfold total_microseconds, accum, modf, int_of_float. rewrite H.
  reflexivity.
Qed.

End ConversionFacts.

(** ** The claims about the conversion of seconds *)

(** C9. [_seconds_to_subrip_time] discards whole days.  For a position
    [t] whose microseconds, as [timedelta] counts them, are [us]: when
    [us] is within 999999999 days of zero, the timestamp is the time of
    day of [us], in whole milliseconds, and its hours are below 24; past
    that, [OverflowError] is raised.  So two positions whose microseconds
    differ by whole days get the same timestamp: 3.0 and 86403.0 both
    give 00:00:03.000, 1.5 and 86401.5 both 00:00:01.500.  On the last
    day that [timedelta] holds, 86399999913600.0 gives midnight and one
    day more raises [OverflowError]. *)
Theorem C9_conversion_drops_whole_days :
  (forall (t : float) (us : Z),
      total_microseconds t = Ok us ->
      (Z.abs (us / 86400000000) <= 999999999 ->
       _seconds_to_subrip_time t = Ok (from_ordinal (wrapped_ms us))
       /\ 0 <= hours (from_ordinal (wrapped_ms us)) < 24)
      /\ (999999999 < Z.abs (us / 86400000000) ->
          _seconds_to_subrip_time t = Raise OverflowError))
  /\ (forall (t t' : float) (us days : Z),
        total_microseconds t = Ok us ->
        total_microseconds t' = Ok (us + days * 86400000000) ->
        Z.abs (us / 86400000000) <= 999999999 ->
        Z.abs (us / 86400000000 + days) <= 999999999 ->
        _seconds_to_subrip_time t' = _seconds_to_subrip_time t)
  /\ total_microseconds 3.0 = Ok 3000000
  /\ total_microseconds (3.0 + 86400.0) = Ok (3000000 + 1 * 86400000000)
  /\ _seconds_to_subrip_time 3.0 = Ok (from_ordinal 3000)
  /\ _seconds_to_subrip_time (3.0 + 86400.0) = Ok (from_ordinal 3000)
  /\ _seconds_to_subrip_time 1.5 = Ok (from_ordinal 1500)
  /\ _seconds_to_subrip_time (1.5 + 86400.0) = Ok (from_ordinal 1500)
  /\ _seconds_to_subrip_time 86399999913600.0 = Ok (from_ordinal 0)
  /\ _seconds_to_subrip_time (86399999913600.0 + 86400.0)
     = Raise OverflowError.
Proof.
  split; [|split; [|repeat split; vm_compute; reflexivity]].
  - intros t us E. split.
    + intros R. split;
        [exact (ConversionFacts.conversion_of_microseconds t us E R)|].
      apply ConversionFacts.fields_in_range,
        ConversionFacts.wrapped_ms_range.
    + exact (ConversionFacts.conversion_overflows t us E).
  - intros t t' us days E E' R R'.
    rewrite (ConversionFacts.conversion_of_microseconds t us E R).
    rewrite (ConversionFacts.conversion_of_microseconds t' _ E').
    + rewrite ConversionFacts.wrapped_ms_days. reflexivity.
    + rewrite Z.div_add by lia. exact R'.
Qed.

(** The theorem at 86401.5 seconds, one day after 1.5: both convert to
    00:00:01.500. *)
Lemma C9_conversion_drops_whole_days_witness :
  _seconds_to_subrip_time 86401.5 = _seconds_to_subrip_time 1.5.
Proof.
  apply (proj1 (proj2 C9_conversion_drops_whole_days)
           1.5%float 86401.5%float 1500000 1);
    vm_compute; first [reflexivity | discriminate].
Defined.

(** Not every non-negative [t] converts like [t + 86400]: the sum is a
    binary64 number of its own, and 3.0009995 converts to 00:00:03.000
    while 3.0009995 + 86400 converts to 00:00:03.001. *)
Lemma C9_rounded_sum_counterexample :
  ~ (forall t : float,
        (0 <=? t)%float = true ->
        _seconds_to_subrip_time (t + 86400.0)
        = _seconds_to_subrip_time t).
Proof.
  intros H. specialize (H 3.0009995%float eq_refl).
  vm_compute in H. discriminate H.
Qed.

(** ** The claims about the core edit operations *)

Module CoreFacts.

Lemma split_by_position_time (subtitle : SubRipItem) (position : float)
    (position_time : SubRipTime) :
  _seconds_to_subrip_time position = Ok position_time ->
  (ordinal (start subtitle) <= ordinal position_time <= ordinal (end_ subtitle) ->
   split_subtitle subtitle position = Raise AttributeError)
  /\ (~ ordinal (start subtitle) <= ordinal position_time
          <= ordinal (end_ subtitle) ->
      split_subtitle subtitle position = Ok (subtitle, None)).
Proof.
  intros E. unfold split_subtitle. rewrite E. cbn [bind].
  destruct (Z.leb_spec (ordinal (start subtitle)) (ordinal position_time))
    as [L1|L1];
    destruct (Z.leb_spec (ordinal position_time) (ordinal (end_ subtitle)))
      as [L2|L2];
    cbn [andb negb]; split; intros H; try reflexivity; lia.
Qed.

Lemma in_insert_sorted (x y : Z) (l : list Z) :
  In y (insert_sorted x l) <-> y = x \/ In y l.
Proof.
  induction l as [|z l IH]; cbn [insert_sorted].
  - cbn. intuition.
  - destruct (x <=? z); cbn [In]; [intuition|].
    rewrite IH. intuition.
Qed.

Lemma in_sorted (y : Z) (l : list Z) : In y (sorted l) <-> In y l.
Proof.
  induction l as [|x l IH]; [reflexivity|].
  cbn [sorted fold_right]. fold (sorted l).
  rewrite in_insert_sorted, IH. cbn [In]. intuition.
Qed.

Lemma filter_nil_iff {A} (p : A -> bool) (l : list A) :
  filter p l = [] <-> forall x, In x l -> p x = false.
Proof.
  induction l as [|a l IH]; cbn [filter].
  - split; [intros _ x []|reflexivity].
  - destruct (p a) eqn:E.
    + split; [discriminate|]. intros H. specialize (H a (or_introl eq_refl)).
      congruence.
    + rewrite IH. split.
      * intros H x [->|Hx]; auto.
      * intros H x Hx. apply H. right. exact Hx.
Qed.

Lemma valid_indices_zero (subtitles : list SubRipItem) (indices : list Z) :
  valid_indices subtitles indices = 0%nat
  <-> forall i, In i indices -> in_range subtitles i = false.
Proof.
  unfold valid_indices. rewrite List.length_zero_iff_nil.
  apply filter_nil_iff.
Qed.

(** The subtitles picked by the comprehension
    [[subtitles[i] for i in indices if 0 <= i < len(subtitles)]]. *)
Lemma picked_nil_iff (subtitles : list SubRipItem) (indices : list Z) :
  flat_map (fun i => if in_range subtitles i
                     then match nth_error subtitles (Z.to_nat i) with
                          | Some sub => [sub]
                          | None => []
                          end
                     else []) indices = []
  <-> forall i, In i indices -> in_range subtitles i = false.
Proof.
  induction indices as [|i indices IH]; cbn [flat_map].
  - split; [intros _ x []|reflexivity].
  - destruct (in_range subtitles i) eqn:E.
    + split.
      * unfold in_range in E. apply andb_true_iff in E. destruct E as [E1 E2].
        apply Z.leb_le in E1. apply Z.ltb_lt in E2.
        destruct (nth_error subtitles (Z.to_nat i)) eqn:N.
        -- discriminate.
        -- apply nth_error_None in N. lia.
      * intros H. specialize (H i (or_introl eq_refl)). congruence.
    + cbn [app]. rewrite IH. split.
      * intros H x [->|Hx]; auto.
      * intros H x Hx. apply H. right. exact Hx.
Qed.

(** [merge_subtitles] gives the no-op result when fewer than two indices
    are supplied or none of them is in range, and otherwise stops at
    [to_merge[0].copy()]. *)
Lemma merge_outcome (subtitles : list SubRipItem) (indices : list Z) :
  ((List.length indices < 2)%nat \/ valid_indices subtitles indices = 0%nat ->
   merge_subtitles subtitles indices = Ok (None, []))
  /\ ((2 <= List.length indices)%nat ->
      (0 < valid_indices subtitles indices)%nat ->
      merge_subtitles subtitles indices = Raise AttributeError).
Proof.
  unfold merge_subtitles.
  destruct (Z.ltb_spec (Z.of_nat (List.length indices)) 2) as [L|L].
  - split; [reflexivity|lia].
  - match goal with |- context [flat_map ?f ?l] =>
      pose proof (picked_nil_iff subtitles l) as P;
      destruct (flat_map f l) as [|first rest] eqn:F
    end.
    + split; [reflexivity|]. intros _ V.
      assert (Z0 : valid_indices subtitles indices = 0%nat); [|lia].
      apply valid_indices_zero. intros i Hi.
      apply (proj1 P eq_refl). apply in_sorted. exact Hi.
    + split; [|reflexivity]. intros [H|H]; [lia|].
      assert (first :: rest = []); [|discriminate].
      apply P. intros i Hi.
      apply (proj1 (valid_indices_zero subtitles indices) H).
      apply in_sorted. exact Hi.
Qed.

End CoreFacts.

(** C4. [split_subtitle] converts the position to a time of day and
    compares that time with the subtitle's start and end.  When it lies
    outside them the subtitle itself is returned with no second part.
    When it lies between them (both ends included) no part is returned:
    the call stops at [subtitle.copy()], which a [SubRipItem] does not
    have, and raises [AttributeError]; a conversion that raises makes the
    split raise that error.  A subtitle from 1000 to 5000 split at 3.0
    seconds raises [AttributeError]; split at 6.0 seconds it is returned
    unchanged; and at 86403.0 seconds, which is past its end and converts
    to 00:00:03.000, the call raises [AttributeError] as well. *)
Theorem C4_split_within_the_subtitle_raises :
  (forall (subtitle : SubRipItem) (pos : float) (position_time : SubRipTime),
      _seconds_to_subrip_time pos = Ok position_time ->
      (ordinal (start subtitle) <= ordinal position_time
         <= ordinal (end_ subtitle) ->
       split_subtitle subtitle pos = Raise AttributeError)
      /\ (~ ordinal (start subtitle) <= ordinal position_time
              <= ordinal (end_ subtitle) ->
          split_subtitle subtitle pos = Ok (subtitle, None)))
  /\ (forall (subtitle : SubRipItem) (pos : float) (e : exn),
        _seconds_to_subrip_time pos = Raise e ->
        split_subtitle subtitle pos = Raise e)
  /\ _seconds_to_subrip_time 3.0 = Ok (from_ordinal 3000)
  /\ split_subtitle (sample_sub 1 1000 5000 "one") 3.0 = Raise AttributeError
  /\ _seconds_to_subrip_time 6.0 = Ok (from_ordinal 6000)
  /\ split_subtitle (sample_sub 1 1000 5000 "one") 6.0
     = Ok (sample_sub 1 1000 5000 "one", None)
  /\ _seconds_to_subrip_time 86403.0 = Ok (from_ordinal 3000)
  /\ split_subtitle (sample_sub 1 1000 5000 "one") 86403.0
     = Raise AttributeError.
Proof.
  split; [|split; [|repeat split; vm_compute; reflexivity]].
  - intros subtitle pos position_time E.
    exact (CoreFacts.split_by_position_time subtitle pos position_time E).
  - intros subtitle pos e E. unfold split_subtitle. rewrite E. reflexivity.
Qed.

(** C5. With three subtitles and the indices 0 and 7, only one index is
    in range, and [merge_subtitles] does not return the no-op result: it
    goes on to [to_merge[0].copy()], which a [SubRipItem] does not have,
    and raises [AttributeError].  The no-op result is returned exactly when
    fewer than two indices are supplied or none is in range; with two or
    more indices of which at least one is in range the call raises. *)
Theorem C5_merge_with_one_index_in_range :
  let subtitles := [sample_sub 1 0 1000 "a"; sample_sub 2 1000 2000 "b";
                    sample_sub 3 2000 3000 "c"] in
  valid_indices subtitles [0; 7] = 1%nat
  /\ merge_subtitles subtitles [0; 7] = Raise AttributeError
  /\ (forall (subs : list SubRipItem) (indices : list Z),
        merge_subtitles subs indices = Ok (None, [])
        <-> (List.length indices < 2)%nat
            \/ valid_indices subs indices = 0%nat)
  /\ (forall (subs : list SubRipItem) (indices : list Z),
        (2 <= List.length indices)%nat ->
        (0 < valid_indices subs indices)%nat ->
        merge_subtitles subs indices = Raise AttributeError).
Proof.
  cbv zeta. split; [reflexivity|]. split; [reflexivity|]. split.
  - intros subs indices.
    destruct (CoreFacts.merge_outcome subs indices) as [N R].
    split; [|exact N]. intros E.
    destruct (Nat.lt_ge_cases (List.length indices) 2) as [L|L];
      [left; exact L|].
    destruct (Nat.eq_0_gt_0_cases (valid_indices subs indices)) as [V|V];
      [right; exact V|].
    rewrite (R L V) in E. discriminate E.
  - intros subs indices.
    exact (proj2 (CoreFacts.merge_outcome subs indices)).
Qed.

(** C6. [load_srt] never raises: it returns what [pysrt.open] returns,
    and the empty list when [pysrt.open] raises. *)
Theorem C6_load_srt_returns_a_list :
  forall (pysrt_open : string -> result (list SubRipItem)) (file_path : string),
    load_srt pysrt_open file_path
    = Ok (match pysrt_open file_path with
          | Ok subs => subs
          | Raise _ => []
          end).
Proof.
  intros pysrt_open file_path. unfold load_srt.
  destruct (pysrt_open file_path); reflexivity.
Qed.

(** A failure of [pysrt.open] does not reach the caller of [load_srt]. *)
Lemma C6_error_swallowed_counterexample :
  ~ (forall (pysrt_open : string -> result (list SubRipItem))
            (file_path : string) (e : exn),
        pysrt_open file_path = Raise e ->
        exists e' : exn, load_srt pysrt_open file_path = Raise e').
Proof.
  intros H.
  destruct (H (fun _ => Raise (OtherError "malformed block")) "broken.srt"
              (OtherError "malformed block") eq_refl) as [e' He'].
  discriminate He'.
Qed.

(** ** Strings, [int] and [format] *)

Module StringFacts.

Lemma forallb_app (p : ascii -> bool) (a b : string) :
  string_forallb p (a ++ b) = string_forallb p a && string_forallb p b.
Proof.
  induction a as [|c a IH]; [reflexivity|].
  cbn [append string_forallb]. rewrite IH, andb_assoc. reflexivity.
Qed.

Lemma forallb_impl (p q : ascii -> bool) (s : string) :
  (forall c, p c = true -> q c = true) ->
  string_forallb p s = true -> string_forallb q s = true.
Proof.
  intros Hpq. induction s as [|c s IH]; [reflexivity|].
  cbn [string_forallb]. rewrite !andb_true_iff. intros [Hc Hs]. auto.
Qed.

Lemma forallb_repeat (p : ascii -> bool) (c : ascii) (n : nat) :
  p c = true -> string_forallb p (string_repeat c n) = true.
Proof.
  intros Hc. induction n as [|n IH]; [reflexivity|].
  cbn [string_repeat string_forallb]. rewrite Hc, IH. reflexivity.
Qed.

Lemma forallb_take (p : ascii -> bool) (n : nat) (s : string) :
  string_forallb p s = true -> string_forallb p (take n s) = true.
Proof.
  revert s. induction n as [|n IH]; intros [|c s]; try reflexivity.
  cbn [take string_forallb]. rewrite !andb_true_iff. intros [Hc Hs]. auto.
Qed.

Lemma replace_char_app (a b : ascii) (s t : string) :
  replace_char a b (s ++ t) = (replace_char a b s ++ replace_char a b t)%string.
Proof.
  induction s as [|c s IH]; [reflexivity|].
  cbn [append replace_char]. rewrite IH. reflexivity.
Qed.

Lemma replace_char_absent (a b : ascii) (s : string) :
  string_forallb (fun c => negb (Ascii.eqb c a)) s = true ->
  replace_char a b s = s.
Proof.
  induction s as [|c s IH]; [reflexivity|].
  cbn [string_forallb replace_char]. rewrite andb_true_iff. intros [Hc Hs].
  rewrite IH by exact Hs. destruct (Ascii.eqb c a); [discriminate|reflexivity].
Qed.

Lemma replace_char_removes (a b : ascii) (s : string) :
  Ascii.eqb b a = false ->
  string_forallb (fun c => negb (Ascii.eqb c a)) (replace_char a b s) = true.
Proof.
  intros Hab. induction s as [|c s IH]; [reflexivity|].
  cbn [replace_char string_forallb]. rewrite IH, andb_true_r.
  destruct (Ascii.eqb c a) eqn:E; [rewrite Hab|rewrite E]; reflexivity.
Qed.

Lemma split_on_absent (sep : ascii) (s : string) :
  string_forallb (fun c => negb (Ascii.eqb c sep)) s = true ->
  split_on sep s = [s].
Proof.
  induction s as [|c s IH]; [reflexivity|].
  cbn [string_forallb split_on]. rewrite andb_true_iff. intros [Hc Hs].
  rewrite IH by exact Hs. destruct (Ascii.eqb c sep); [discriminate|reflexivity].
Qed.

Lemma split_on_app (sep : ascii) (a b : string) :
  string_forallb (fun c => negb (Ascii.eqb c sep)) a = true ->
  split_on sep (a ++ String sep b) = a :: split_on sep b.
Proof.
  induction a as [|c a IH].
  - intros _. cbn [append split_on]. rewrite Ascii.eqb_refl. reflexivity.
  - cbn [string_forallb append split_on]. rewrite andb_true_iff.
    intros [Hc Ha]. rewrite IH by exact Ha.
    destruct (Ascii.eqb c sep); [discriminate|reflexivity].
Qed.

Lemma split_on_length (sep : ascii) (s : string) :
  List.length (split_on sep s) = S (count_char sep s).
Proof.
  induction s as [|c s IH]; [reflexivity|].
  cbn [split_on count_char]. destruct (Ascii.eqb c sep).
  - cbn [List.length]. rewrite IH. reflexivity.
  - destruct (split_on sep s) as [|w ws]; [discriminate IH|exact IH].
Qed.

Lemma count_char_replace (x a b : ascii) (s : string) :
  Ascii.eqb a x = false -> Ascii.eqb b x = false ->
  count_char x (replace_char a b s) = count_char x s.
Proof.
  intros Ha Hb. induction s as [|c s IH]; [reflexivity|].
  cbn [replace_char count_char]. rewrite IH.
  destruct (Ascii.eqb c a) eqn:E.
  - apply Ascii.eqb_eq in E. subst c. rewrite Ha, Hb. reflexivity.
  - reflexivity.
Qed.

Lemma append_assoc (a b c : string) :
  ((a ++ b) ++ c)%string = (a ++ (b ++ c))%string.
Proof. induction a as [|x a IH]; cbn; [|rewrite IH]; reflexivity. Qed.

Lemma length_app (a b : string) :
  String.length (a ++ b) = (String.length a + String.length b)%nat.
Proof. induction a as [|c a IH]; cbn; [|rewrite IH]; reflexivity. Qed.

Lemma length_repeat (c : ascii) (n : nat) :
  String.length (string_repeat c n) = n.
Proof. induction n as [|n IH]; cbn; [|rewrite IH]; reflexivity. Qed.

Lemma length_take (n : nat) (s : string) :
  (n <= String.length s)%nat -> String.length (take n s) = n.
Proof.
  revert s. induction n as [|n IH]; intros [|c s] H; cbn in *; try lia.
  rewrite IH by lia. reflexivity.
Qed.

Lemma length_ljust (w : nat) (c : ascii) (s : string) :
  (w <= String.length (ljust w c s))%nat.
Proof. unfold ljust. rewrite length_app, length_repeat. lia. Qed.

(** What a decimal digit is not. *)
Lemma digit_facts (c : ascii) :
  is_digit c = true ->
  is_int_space c = false
  /\ Ascii.eqb c ":" = false /\ Ascii.eqb c "." = false
  /\ Ascii.eqb c "," = false /\ Ascii.eqb c "+" = false
  /\ Ascii.eqb c "-" = false.
Proof.
  destruct c as [[] [] [] [] [] [] [] []]; intros H;
    try discriminate H; repeat split; reflexivity.
Qed.

Lemma lstrip_nonspace (space : ascii -> bool) (s : string) :
  string_forallb (fun c => negb (space c)) s = true -> lstrip space s = s.
Proof.
  destruct s as [|c s]; [reflexivity|].
  cbn [string_forallb lstrip]. rewrite andb_true_iff. intros [Hc _].
  destruct (space c); [discriminate|reflexivity].
Qed.

Lemma rstrip_nonspace (space : ascii -> bool) (s : string) :
  string_forallb (fun c => negb (space c)) s = true -> rstrip space s = s.
Proof.
  induction s as [|c s IH]; [reflexivity|].
  cbn [string_forallb rstrip]. rewrite andb_true_iff. intros [Hc Hs].
  rewrite IH by exact Hs. destruct s; [|reflexivity].
  destruct (space c); [discriminate|reflexivity].
Qed.

Lemma strip_digits (s : string) :
  string_forallb is_digit s = true ->
  rstrip is_int_space (lstrip is_int_space s) = s.
Proof.
  intros H.
  assert (Hs : string_forallb (fun c => negb (is_int_space c)) s = true).
  { revert H. apply forallb_impl. intros c Hc.
    destruct (digit_facts c Hc) as [-> _]. reflexivity. }
  rewrite lstrip_nonspace by exact Hs. apply rstrip_nonspace, Hs.
Qed.

Lemma parse_digits_total (s : string) :
  string_forallb is_digit s = true ->
  forall acc, exists n, parse_digits acc true s = Some n.
Proof.
  induction s as [|c s IH]; intros H acc; [exists acc; reflexivity|].
  cbn [string_forallb] in H. apply andb_true_iff in H. destruct H as [Hc Hs].
  cbn [parse_digits]. unfold is_digit in Hc.
  destruct (digit_of c) as [d|]; [apply IH, Hs|discriminate].
Qed.

Lemma parse_digits_start (s : string) (acc : Z) :
  string_forallb is_digit s = true -> s <> EmptyString ->
  parse_digits acc false s = parse_digits acc true s.
Proof.
  destruct s as [|c s]; [congruence|]. intros H _.
  cbn [string_forallb] in H. apply andb_true_iff in H. destruct H as [Hc _].
  cbn [parse_digits]. unfold is_digit in Hc.
  destruct (digit_of c); [reflexivity|discriminate].
Qed.

(** [int] reads a non-empty string of digits as the number they write. *)
Lemma py_int_digits (s : string) :
  string_forallb is_digit s = true -> s <> EmptyString ->
  py_int s = Ok (digits_value s).
Proof.
  intros H Hne. unfold py_int, digits_value. rewrite strip_digits by exact H.
  destruct (parse_digits_total s H 0) as [n Hn].
  assert (E : parse_digits 0 false s = Some n)
    by (rewrite parse_digits_start; assumption).
  destruct s as [|c s]; [congruence|].
  cbn [string_forallb] in H. apply andb_true_iff in H. destruct H as [Hc _].
  destruct (digit_facts c Hc) as (_ & _ & _ & _ & Hplus & Hminus).
  assert (c <> "+"%char) by (intros ->; discriminate Hplus).
  assert (c <> "-"%char) by (intros ->; discriminate Hminus).
  rewrite Hn.
  destruct c as [[] [] [] [] [] [] [] []]; try congruence;
    rewrite E; reflexivity.
Qed.

Lemma parse_digits_zeros (k : nat) (s : string) :
  parse_digits 0 true (string_repeat "0" k ++ s) = parse_digits 0 true s.
Proof. induction k as [|k IH]; [reflexivity|exact IH]. Qed.

Lemma string_of_uint_digits (d : Decimal.uint) :
  string_forallb is_digit (NilEmpty.string_of_uint d) = true.
Proof. induction d; cbn [NilEmpty.string_of_uint string_forallb]; auto. Qed.

Lemma parse_digits_acc (d : Decimal.uint) (acc : positive) :
  parse_digits (Zpos acc) true (NilEmpty.string_of_uint d)
  = Some (Zpos (Pos.of_uint_acc d acc)).
Proof.
  revert acc. induction d as [|d IH|d IH|d IH|d IH|d IH|d IH|d IH|d IH|d IH|d IH];
    intros acc; [reflexivity|..];
    cbn [NilEmpty.string_of_uint parse_digits Pos.of_uint_acc];
    change (digit_of _) with (Some 0) || change (digit_of _) with (Some 1)
    || change (digit_of _) with (Some 2) || change (digit_of _) with (Some 3)
    || change (digit_of _) with (Some 4) || change (digit_of _) with (Some 5)
    || change (digit_of _) with (Some 6) || change (digit_of _) with (Some 7)
    || change (digit_of _) with (Some 8) || change (digit_of _) with (Some 9);
    cbv iota beta;
    match goal with
    | |- parse_digits ?z true _ = Some (Zpos (Pos.of_uint_acc _ ?p)) =>
        replace z with (Zpos p) by lia
    end; apply IH.
Qed.

Lemma parse_digits_uint (d : Decimal.uint) :
  parse_digits 0 true (NilEmpty.string_of_uint d)
  = Some (Z.of_N (Pos.of_uint d)).
Proof.
  induction d as [|d IH|d IH|d IH|d IH|d IH|d IH|d IH|d IH|d IH|d IH];
    [reflexivity|exact IH|..];
    cbn [NilEmpty.string_of_uint parse_digits Pos.of_uint];
    change (digit_of _) with (Some 1) || change (digit_of _) with (Some 2)
    || change (digit_of _) with (Some 3) || change (digit_of _) with (Some 4)
    || change (digit_of _) with (Some 5) || change (digit_of _) with (Some 6)
    || change (digit_of _) with (Some 7) || change (digit_of _) with (Some 8)
    || change (digit_of _) with (Some 9);
    cbv iota beta; cbn [Z.mul Z.add Z.of_N]; apply parse_digits_acc.
Qed.

Lemma str_nonneg_uint (n : Z) :
  str_nonneg n = NilEmpty.string_of_uint (N.to_uint (Z.to_N n)).
Proof.
  unfold str_nonneg, NilZero.string_of_uint.
  destruct (N.to_uint (Z.to_N n)) eqn:E; try reflexivity.
  exfalso. destruct (Z.to_N n) as [|p]; [discriminate E|].
  exact (DecimalPos.Unsigned.to_uint_nonnil p E).
Qed.

Lemma str_nonneg_digits (n : Z) :
  string_forallb is_digit (str_nonneg n) = true.
Proof. rewrite str_nonneg_uint. apply string_of_uint_digits. Qed.

Lemma str_nonneg_nonempty (n : Z) : str_nonneg n <> EmptyString.
Proof.
  unfold str_nonneg, NilZero.string_of_uint.
  destruct (N.to_uint (Z.to_N n)); cbn; discriminate.
Qed.

Lemma str_nonneg_value (n : Z) :
  0 <= n -> parse_digits 0 true (str_nonneg n) = Some n.
Proof.
  intros Hn. rewrite str_nonneg_uint, parse_digits_uint.
  change Pos.of_uint with N.of_uint.
  rewrite DecimalN.Unsigned.of_to, Z2N.id by exact Hn. reflexivity.
Qed.

Lemma format_d_nonneg (w : nat) (n : Z) :
  0 <= n -> format_d w n = zfill w (str_nonneg n).
Proof.
  intros Hn. unfold format_d.
  destruct (Z.ltb_spec n 0); [lia|reflexivity].
Qed.

Lemma format_d_digits (w : nat) (n : Z) :
  0 <= n -> string_forallb is_digit (format_d w n) = true.
Proof.
  intros Hn. rewrite format_d_nonneg by exact Hn. unfold zfill.
  rewrite forallb_app, forallb_repeat by reflexivity.
  apply str_nonneg_digits.
Qed.

Lemma format_d_nonempty (w : nat) (n : Z) :
  0 <= n -> format_d w n <> EmptyString.
Proof.
  intros Hn. rewrite format_d_nonneg by exact Hn. unfold zfill.
  pose proof (str_nonneg_nonempty n) as Hne.
  destruct (string_repeat "0" _); cbn; [exact Hne|discriminate].
Qed.

Lemma format_d_value (w : nat) (n : Z) :
  0 <= n -> digits_value (format_d w n) = n.
Proof.
  intros Hn. rewrite format_d_nonneg by exact Hn. unfold zfill, digits_value.
  rewrite parse_digits_zeros, str_nonneg_value by exact Hn. reflexivity.
Qed.

End StringFacts.

(** ** Timestamps: [format_timestamp] and [parse_timestamp] *)

Module TimestampFacts.
Import StringFacts SubtitleEditorWidget.

Lemma all_from_sound (p : Z -> bool) (fuel : nat) :
  forall k, all_from fuel k p = true ->
  forall j, k <= j < k + Z.of_nat fuel -> p j = true.
Proof.
  induction fuel as [|fuel IH]; intros k H j Hj; [lia|].
  cbn [all_from] in H. apply andb_true_iff in H. destruct H as [H1 H2].
  destruct (Z.eq_dec j k) as [->|Hne]; [exact H1|].
  apply (IH (k + 1) H2). lia.
Qed.

(** Three digits are written for every millisecond count below 1000. *)
Lemma milliseconds_three_digits (ms : Z) :
  0 <= ms < 1000 -> take 3 (ljust 3 "0" (format_d 3 ms)) = format_d 3 ms.
Proof.
  intros H. apply String.eqb_eq.
  apply (all_from_sound
           (fun n => String.eqb (take 3 (ljust 3 "0" (format_d 3 n)))
                                (format_d 3 n)) 1000 0);
    [vm_compute; reflexivity|lia].
Qed.

Lemma fields_of_time (h m s ms : Z) :
  0 <= m < 60 -> 0 <= s < 60 -> 0 <= ms < 1000 ->
  hours (mkSubRipTime h m s ms) = h
  /\ minutes (mkSubRipTime h m s ms) = m
  /\ seconds (mkSubRipTime h m s ms) = s
  /\ milliseconds (mkSubRipTime h m s ms) = ms.
Proof.
  intros Hm Hs Hms.
  unfold hours, minutes, seconds, milliseconds, mkSubRipTime,
    HOURS_RATIO, MINUTES_RATIO, SECONDS_RATIO. cbn [ordinal].
  repeat split; Z.to_euclidean_division_equations; lia.
Qed.

Lemma no_colon (s : string) :
  string_forallb is_digit s = true ->
  string_forallb (fun c => negb (Ascii.eqb c ":")) s = true.
Proof.
  apply forallb_impl. intros c Hc.
  destruct (digit_facts c Hc) as (_ & -> & _). reflexivity.
Qed.

Lemma no_point (s : string) :
  string_forallb is_digit s = true ->
  string_forallb (fun c => negb (Ascii.eqb c ".")) s = true.
Proof.
  apply forallb_impl. intros c Hc.
  destruct (digit_facts c Hc) as (_ & _ & -> & _). reflexivity.
Qed.

Lemma no_comma (s : string) :
  string_forallb is_digit s = true ->
  string_forallb (fun c => negb (Ascii.eqb c ",")) s = true.
Proof.
  apply forallb_impl. intros c Hc.
  destruct (digit_facts c Hc) as (_ & _ & _ & -> & _). reflexivity.
Qed.

Lemma three_digits (fraction : string) :
  string_forallb is_digit fraction = true ->
  string_forallb is_digit (take 3 (ljust 3 "0" fraction)) = true
  /\ String.length (take 3 (ljust 3 "0" fraction)) = 3%nat.
Proof.
  intros H. split.
  - apply forallb_take. unfold ljust.
    rewrite forallb_app, H, forallb_repeat; reflexivity.
  - apply length_take, length_ljust.
Qed.

(** Digits, a colon, digits, a colon, digits, then a point or a comma and
    a fraction of digits. *)
Lemma parse_fields (H M S fraction : string) (sepc : ascii) :
  string_forallb is_digit H = true -> H <> EmptyString ->
  string_forallb is_digit M = true -> M <> EmptyString ->
  string_forallb is_digit S = true -> S <> EmptyString ->
  string_forallb is_digit fraction = true ->
  sepc = "."%char \/ sepc = ","%char ->
  parse_timestamp (H ++ String ":" (M ++ String ":" (S ++ String sepc fraction)))
  = Ok (mkSubRipTime (digits_value H) (digits_value M) (digits_value S)
          (digits_value (take 3 (ljust 3 "0" fraction)))).
Proof.
  intros HH HHn HM HMn HS HSn HF Hsep. unfold parse_timestamp.
  assert (R : replace_char "," "."
                (H ++ String ":" (M ++ String ":" (S ++ String sepc fraction)))
              = (H ++ String ":" (M ++ String ":" (S ++ String "." fraction)))%string).
  { rewrite replace_char_app. cbn [replace_char].
    rewrite replace_char_app. cbn [replace_char].
    rewrite replace_char_app. cbn [replace_char].
    rewrite !replace_char_absent by (apply no_comma; assumption).
    destruct Hsep as [-> | ->]; reflexivity. }
  rewrite R.
  rewrite split_on_app by (apply no_colon, HH).
  rewrite split_on_app by (apply no_colon, HM).
  rewrite split_on_absent.
  2:{ rewrite forallb_app. cbn [string_forallb].
      rewrite (no_colon S HS), (no_colon fraction HF). reflexivity. }
  rewrite (py_int_digits H HH HHn), (py_int_digits M HM HMn). cbn [bind].
  rewrite split_on_app by (apply no_point, HS).
  rewrite split_on_absent by (apply no_point, HF). cbn [hd].
  rewrite (py_int_digits S HS HSn). cbn [bind].
  destruct (three_digits fraction HF) as [D L].
  rewrite py_int_digits; [reflexivity|exact D|].
  intros E. rewrite E in L. discriminate L.
Qed.

Lemma parse_formatted (h m s : Z) (fraction : string) (sepc : ascii) :
  0 <= h -> 0 <= m -> 0 <= s ->
  string_forallb is_digit fraction = true ->
  sepc = "."%char \/ sepc = ","%char ->
  parse_timestamp
    (format_d 2 h ++ String ":" (format_d 2 m
       ++ String ":" (format_d 2 s ++ String sepc fraction)))
  = Ok (mkSubRipTime h m s (digits_value (take 3 (ljust 3 "0" fraction)))).
Proof.
  intros Hh Hm Hs HF Hsep.
  rewrite parse_fields;
    auto using format_d_digits, format_d_nonempty.
  rewrite !format_d_value by assumption. reflexivity.
Qed.

Lemma format_of_time (h m s ms : Z) :
  0 <= m < 60 -> 0 <= s < 60 -> 0 <= ms < 1000 ->
  format_timestamp (mkSubRipTime h m s ms)
  = (format_d 2 h ++ String ":" (format_d 2 m
       ++ String ":" (format_d 2 s ++ String "." (format_d 3 ms))))%string.
Proof.
  intros Hm Hs Hms. unfold format_timestamp.
  destruct (fields_of_time h m s ms Hm Hs Hms) as (-> & -> & -> & ->).
  reflexivity.
Qed.

Lemma parse_same_with_points (timestamp_str : string) :
  parse_timestamp (replace_char "," "." timestamp_str)
  = parse_timestamp timestamp_str.
Proof.
  unfold parse_timestamp.
  rewrite (replace_char_absent "," "." (replace_char "," "." timestamp_str))
    by (apply replace_char_removes; reflexivity).
  reflexivity.
Qed.

Lemma parse_needs_two_colons (timestamp_str : string) :
  count_char ":" timestamp_str <> 2%nat ->
  parse_timestamp timestamp_str = Raise ValueError.
Proof.
  intros H. unfold parse_timestamp.
  pose proof (split_on_length ":" (replace_char "," "." timestamp_str)) as L.
  rewrite count_char_replace in L by reflexivity.
  destruct (split_on ":" _) as [|p0 [|p1 [|p2 [|p3 ps]]]]; try reflexivity.
  cbn [List.length] in L. congruence.
Qed.

End TimestampFacts.

(** C7. For every [h >= 0], [0 <= m < 60], [0 <= s < 60] and
    [0 <= ms < 1000], the time [(h, m, s, ms)] is formatted as the
    zero-padded [HH:MM:SS.mmm] and parsing that string gives the time back.
    Parsing reads a comma like a point, pads or cuts the fraction to exactly
    three digits, and raises [ValueError] on every string that does not have
    exactly two colons, that is three colon-delimited fields. *)
Theorem C7_timestamp_round_trip :
  forall h m s ms : Z,
    0 <= h -> 0 <= m < 60 -> 0 <= s < 60 -> 0 <= ms < 1000 ->
    let t := mkSubRipTime h m s ms in
    let hms := (format_d 2 h ++ ":" ++ format_d 2 m ++ ":" ++ format_d 2 s)%string in
    (hours t, minutes t, seconds t, milliseconds t) = (h, m, s, ms)
    /\ SubtitleEditorWidget.format_timestamp t
       = (hms ++ "." ++ format_d 3 ms)%string
    /\ SubtitleEditorWidget.parse_timestamp
         (SubtitleEditorWidget.format_timestamp t) = Ok t
    /\ SubtitleEditorWidget.parse_timestamp (hms ++ "," ++ format_d 3 ms) = Ok t
    /\ (forall timestamp_str : string,
          SubtitleEditorWidget.parse_timestamp
            (replace_char "," "." timestamp_str)
          = SubtitleEditorWidget.parse_timestamp timestamp_str)
    /\ (forall fraction : string,
          string_forallb is_digit fraction = true ->
          String.length (take 3 (ljust 3 "0" fraction)) = 3%nat
          /\ SubtitleEditorWidget.parse_timestamp (hms ++ "." ++ fraction)
             = Ok (mkSubRipTime h m s
                     (digits_value (take 3 (ljust 3 "0" fraction)))))
    /\ SubtitleEditorWidget.parse_timestamp "00:00:01.5"
       = Ok (mkSubRipTime 0 0 1 500)
    /\ SubtitleEditorWidget.parse_timestamp "00:00:01.123456"
       = Ok (mkSubRipTime 0 0 1 123)
    /\ (forall timestamp_str : string,
          count_char ":" timestamp_str <> 2%nat ->
          SubtitleEditorWidget.parse_timestamp timestamp_str
          = Raise ValueError).
Proof.
  intros h m s ms Hh Hm Hs Hms t hms.
  assert (Shape : forall (sepc : ascii) (x : string),
             (hms ++ String sepc "" ++ x)%string
             = (format_d 2 h ++ String ":" (format_d 2 m
                  ++ String ":" (format_d 2 s ++ String sepc x)))%string).
  { intros sepc x. unfold hms.
    rewrite !StringFacts.append_assoc. reflexivity. }
  assert (Hfmt := TimestampFacts.format_of_time h m s ms Hm Hs Hms).
  assert (Hval : digits_value (take 3 (ljust 3 "0" (format_d 3 ms))) = ms).
  { rewrite TimestampFacts.milliseconds_three_digits by exact Hms.
    apply StringFacts.format_d_value. lia. }
  split.
  { destruct (TimestampFacts.fields_of_time h m s ms Hm Hs Hms)
      as (E1 & E2 & E3 & E4).
    fold t in E1, E2, E3, E4. rewrite E1, E2, E3, E4. reflexivity. }
  split; [fold t in Hfmt; rewrite Hfmt, (Shape "."%char); reflexivity|].
  split.
  { fold t in Hfmt. rewrite Hfmt.
    rewrite TimestampFacts.parse_formatted;
      try lia; [rewrite Hval; reflexivity| |left; reflexivity].
    apply StringFacts.format_d_digits. lia. }
  split.
  { rewrite (Shape ","%char).
    rewrite TimestampFacts.parse_formatted;
      try lia; [rewrite Hval; reflexivity| |right; reflexivity].
    apply StringFacts.format_d_digits. lia. }
  split; [exact TimestampFacts.parse_same_with_points|].
  split.
  { intros fraction HF. split; [apply TimestampFacts.three_digits, HF|].
    rewrite (Shape "."%char).
    apply TimestampFacts.parse_formatted; try lia; [exact HF|left; reflexivity]. }
  split; [vm_compute; reflexivity|].
  split; [vm_compute; reflexivity|].
  exact TimestampFacts.parse_needs_two_colons.
Qed.

(** The round trip at 01:02:03.045. *)
Lemma C7_timestamp_round_trip_witness :
  SubtitleEditorWidget.parse_timestamp
    (SubtitleEditorWidget.format_timestamp (mkSubRipTime 1 2 3 45))
  = Ok (mkSubRipTime 1 2 3 45).
Proof.
  exact (proj1 (proj2 (proj2
           (C7_timestamp_round_trip 1 2 3 45 ltac:(lia) ltac:(lia) ltac:(lia)
              ltac:(lia))))).
Defined.

(** ** The editor widget *)

Module EditorFacts.
Import SubtitleEditorWidget.

(** The table refreshed and a row selected, at the end of an operation. *)
Lemma select_after_refresh (w : editor) (subs : list SubRipItem) (i : Z) :
  select_subtitle (populate_table (changed w subs)) i
  = refreshed subs
      (if (0 <=? i) && (i <? Z.of_nat (List.length subs)) then i else -1).
Proof.
  unfold select_subtitle.
  cbn [populate_table changed selection_changed timeline subtitles].
  destruct ((0 <=? i) && (i <? Z.of_nat (List.length subs))); reflexivity.
Qed.

Lemma timeline_refreshed (subs : list SubRipItem) (row : Z) :
  timeline (refreshed subs row) = subs.
Proof. reflexivity. Qed.

(** [delete_subtitle] ends with no row selected: the test of the current
    row comes after the table was refreshed. *)
Lemma delete_subtitle_eq (w : editor) (confirmed : bool) :
  delete_subtitle w confirmed
  = if negb (has_subtitles w) || (current_subtitle_index w <? 0) then Ok w
    else if negb confirmed then Ok w
    else
      subs <- py_delitem (timeline w) (current_subtitle_index w) ;;
      Ok (refreshed (update_indices subs) (-1)).
Proof.
  unfold delete_subtitle.
  destruct (negb (has_subtitles w) || (current_subtitle_index w <? 0));
    [reflexivity|].
  destruct (negb confirmed); [reflexivity|].
  destruct (py_delitem (timeline w) (current_subtitle_index w)) as [subs|e];
    [|reflexivity].
  cbn [bind]. cbv zeta.
  cbn [populate_table selection_changed changed current_subtitle_index].
  destruct (Z.geb_spec (-1) (Z.of_nat (List.length (update_indices subs))))
    as [G|G]; [lia|].
  reflexivity.
Qed.

(** Case analysis along the code of an operation that returned. *)
Ltac along H :=
  repeat match type of H with
    | Ok (select_subtitle (populate_table (changed _ _)) _) = Ok _ =>
        rewrite select_after_refresh in H
    | Ok _ = Ok _ => inversion H; subst; clear H
    | Raise _ = Ok _ => discriminate H
    | bind ?r _ = Ok _ =>
        let E := fresh "E" in destruct r eqn:E; cbn [bind] in H
    | (if ?c then _ else _) = Ok _ =>
        let E := fresh "C" in destruct c eqn:E
    | match ?x with _ => _ end = Ok _ =>
        let E := fresh "M" in destruct x eqn:E
    end.

(** *** Lists *)

Lemma split_at {A} (l : list A) (j : nat) (a : A) :
  nth_error l j = Some a -> firstn j l ++ a :: skipn (S j) l = l.
Proof.
  revert j. induction l as [|x l IH]; intros [|j] H; try discriminate H.
  - inversion H. reflexivity.
  - cbn [firstn skipn app]. f_equal. apply IH. exact H.
Qed.

Lemma py_getitem_nth {A} (l : list A) (i : Z) (a : A) :
  py_getitem l i = Ok a ->
  in_range l (py_index l i) = true
  /\ nth_error l (Z.to_nat (py_index l i)) = Some a.
Proof.
  unfold py_getitem. intros H.
  destruct (in_range l (py_index l i)); [|discriminate H].
  destruct (nth_error l _); inversion H. split; reflexivity.
Qed.

Lemma py_getitem_ok {A} (l : list A) (i : Z) :
  0 <= i < Z.of_nat (List.length l) -> exists a, py_getitem l i = Ok a.
Proof.
  intros Hi. unfold py_getitem, py_index, in_range.
  destruct (Z.ltb_spec i 0); [lia|].
  destruct (Z.leb_spec 0 i); [|lia].
  destruct (Z.ltb_spec i (Z.of_nat (List.length l))); [|lia]. cbn [andb].
  destruct (nth_error l (Z.to_nat i)) eqn:N; [eauto|].
  apply nth_error_None in N. lia.
Qed.

Lemma map_replace_at {A B} (f : A -> B) (l : list A) (j : nat) (a b : A) :
  nth_error l j = Some a -> f b = f a ->
  map f (firstn j l ++ b :: skipn (S j) l) = map f l.
Proof.
  intros N Hf. rewrite map_app. cbn [map].
  rewrite Hf, <- map_cons, <- map_app, (split_at l j a N). reflexivity.
Qed.

Lemma py_setitem_same {A B} (f : A -> B) (l l' : list A) (i : Z) (a b : A) :
  py_getitem l i = Ok a -> py_setitem l i b = Ok l' -> f b = f a ->
  map f l' = map f l.
Proof.
  intros G Hs Hf. apply py_getitem_nth in G. destruct G as [R N].
  unfold py_setitem in Hs. rewrite R in Hs.
  assert (E : l' = firstn (Z.to_nat (py_index l i)) l
                   ++ b :: skipn (S (Z.to_nat (py_index l i))) l)
    by congruence.
  subst l'. exact (map_replace_at f l _ a b N Hf).
Qed.

Lemma py_delitem_map {A B} (f : A -> B) (l l' : list A) (i : Z) :
  py_delitem l i = Ok l' ->
  exists j, map f l' = firstn j (map f l) ++ skipn (S j) (map f l).
Proof.
  unfold py_delitem. intros H.
  destruct (in_range l (py_index l i)); [|discriminate H].
  exists (Z.to_nat (py_index l i)).
  assert (E : l' = firstn (Z.to_nat (py_index l i)) l
                   ++ skipn (S (Z.to_nat (py_index l i))) l)
    by congruence.
  subst l'. rewrite map_app, firstn_map, skipn_map. reflexivity.
Qed.

(** *** Indices *)

Lemma indices_from_renumber (subs : list SubRipItem) :
  forall i, indices_from (i + 1) (renumber i subs) = true.
Proof.
  induction subs as [|sub subs IH]; intros i; [reflexivity|].
  cbn [renumber indices_from set_index index].
  rewrite Z.eqb_refl. apply IH.
Qed.

Lemma update_indices_sequential (subs : list SubRipItem) :
  indices_sequential (update_indices subs) = true.
Proof. exact (indices_from_renumber subs 0). Qed.

Lemma indices_from_map (l l' : list SubRipItem) :
  map index l = map index l' ->
  forall i, indices_from i l = indices_from i l'.
Proof.
  revert l'. induction l as [|a l IH]; intros [|b l'] H i;
    try discriminate H; [reflexivity|].
  cbn [map] in H. inversion H as [[Hab Hl]].
  cbn [indices_from]. rewrite Hab, (IH l' Hl). reflexivity.
Qed.

Lemma indices_from_snoc (l : list SubRipItem) (x : SubRipItem) :
  forall i, indices_from i (l ++ [x])
            = indices_from i l && (index x =? i + Z.of_nat (List.length l)).
Proof.
  induction l as [|a l IH]; intros i.
  - cbn. rewrite Z.add_0_r, andb_true_r. reflexivity.
  - cbn [app indices_from List.length]. rewrite IH, andb_assoc.
    do 2 f_equal. lia.
Qed.

(** *** Order of the starts *)

Lemma ascending_cons (a : Z) (l : list Z) :
  ascending (a :: l) = true
  <-> (forall x, In x l -> a <= x) /\ ascending l = true.
Proof.
  revert a. induction l as [|b l IH]; intros a.
  - cbn. intuition.
  - change (ascending (a :: b :: l)) with ((a <=? b) && ascending (b :: l)).
    rewrite andb_true_iff, Z.leb_le. split.
    + intros [Hab Hb]. split; [|exact Hb].
      intros x [->|Hx]; [exact Hab|].
      apply IH in Hb. destruct Hb as [Hb _]. specialize (Hb x Hx). lia.
    + intros [Hall Hb]. split; [apply Hall; left; reflexivity|exact Hb].
Qed.

Lemma ascending_remove (l : list Z) :
  forall j, ascending l = true ->
            ascending (firstn j l ++ skipn (S j) l) = true.
Proof.
  induction l as [|a l IH]; intros j H.
  - destruct j; reflexivity.
  - apply ascending_cons in H. destruct H as [Hall Hl].
    destruct j as [|j]; [exact Hl|].
    cbn [firstn skipn app]. apply ascending_cons. split; [|apply IH, Hl].
    intros x Hx. apply Hall. apply in_app_or in Hx.
    destruct Hx as [Hx|Hx].
    + rewrite <- (firstn_skipn j l). apply in_or_app. left. exact Hx.
    + rewrite <- (firstn_skipn (S j) l). apply in_or_app. right. exact Hx.
Qed.

Lemma starts_renumber (subs : list SubRipItem) :
  forall i, map (fun sub => ordinal (start sub)) (renumber i subs)
            = map (fun sub => ordinal (start sub)) subs.
Proof.
  induction subs as [|sub subs IH]; intros i; [reflexivity|].
  cbn [renumber map set_index start]. rewrite IH. reflexivity.
Qed.

Lemma ascending_update_indices (subs : list SubRipItem) :
  ascending_start (update_indices subs) = ascending_start subs.
Proof.
  unfold ascending_start, update_indices. rewrite starts_renumber.
  reflexivity.
Qed.

Lemma ascending_delitem (l l' : list SubRipItem) (i : Z) :
  py_delitem l i = Ok l' ->
  ascending_start l = true -> ascending_start l' = true.
Proof.
  intros D H. unfold ascending_start in *.
  destruct (py_delitem_map (fun sub => ordinal (start sub)) l l' i D)
    as [j ->].
  apply ascending_remove, H.
Qed.

Lemma fold_delitem_raise (rows : list Z) (e : exn) :
  fold_left (fun acc row => l <- acc ;; py_delitem l row) rows
    (@Raise (list SubRipItem) e) = Raise e.
Proof. induction rows as [|row rows IH]; [reflexivity|exact IH]. Qed.

Lemma ascending_fold_delitem (rows : list Z) :
  forall l l' : list SubRipItem,
    fold_left (fun acc row => l <- acc ;; py_delitem l row) rows (Ok l)
    = Ok l' ->
    ascending_start l = true -> ascending_start l' = true.
Proof.
  induction rows as [|row rows IH]; intros l l' F H.
  - inversion F. subst. exact H.
  - cbn [fold_left bind] in F.
    destruct (py_delitem l row) as [l1|e] eqn:D.
    + apply (IH l1 l' F). exact (ascending_delitem l l1 row D H).
    + rewrite fold_delitem_raise in F. discriminate F.
Qed.

(** *** The operations *)

Lemma timeline_changed (w : editor) (subs : list SubRipItem) :
  timeline (changed w subs) = subs.
Proof. reflexivity. Qed.

Lemma delete_renumbers (w w' : editor) (confirmed : bool) :
  delete_subtitle w confirmed = Ok w' ->
  w' = w \/ indices_sequential (timeline w') = true.
Proof.
  rewrite delete_subtitle_eq. intros H. along H; auto.
  right. apply update_indices_sequential.
Qed.

Lemma merge_renumbers (w w' : editor) (selected_rows : list Z) :
  SubtitleEditorWidget.merge_subtitles w selected_rows = Ok w' ->
  w' = w \/ indices_sequential (timeline w') = true.
Proof.
  unfold SubtitleEditorWidget.merge_subtitles. intros H. along H; auto.
  right. apply update_indices_sequential.
Qed.

Lemma split_renumbers (w w' : editor) (text : string) (cursor_pos : Z) :
  SubtitleEditorWidget.split_subtitle w text cursor_pos = Ok w' ->
  w' = w \/ indices_sequential (timeline w') = true.
Proof.
  unfold SubtitleEditorWidget.split_subtitle. intros H. along H; auto.
  right. apply update_indices_sequential.
Qed.

Lemma add_after_renumbers (w w' : editor) :
  0 <= current_subtitle_index w ->
  add_subtitle w = Ok w' ->
  w' = w \/ indices_sequential (timeline w') = true.
Proof.
  unfold add_subtitle. intros Hi H.
  destruct (negb (has_subtitles w)); [inversion H; auto|].
  destruct (Z.leb_spec 0 (current_subtitle_index w)); [|lia].
  along H; right; apply update_indices_sequential.
Qed.

Lemma add_keeps_indices (w w' : editor) :
  add_subtitle w = Ok w' ->
  indices_sequential (timeline w) = true ->
  indices_sequential (timeline w') = true.
Proof.
  intros H Hseq.
  destruct (Z.le_gt_cases 0 (current_subtitle_index w)) as [Hi|Hi].
  - destruct (add_after_renumbers w w' Hi H) as [->|]; assumption.
  - unfold add_subtitle in H.
    destruct (negb (has_subtitles w)); [inversion H; subst; exact Hseq|].
    destruct (Z.leb_spec 0 (current_subtitle_index w)); [lia|].
    along H; rewrite timeline_refreshed; unfold indices_sequential;
      rewrite indices_from_snoc; fold (indices_sequential (timeline w));
      rewrite Hseq; cbn [andb mkSubRipItem index]; apply Z.eqb_eq; lia.
Qed.

Lemma edit_timing_keeps_indices (w w' : editor)
    (dialog : option (string * string)) :
  edit_timing w dialog = Ok w' ->
  indices_sequential (timeline w) = true ->
  indices_sequential (timeline w') = true.
Proof.
  unfold edit_timing. intros H Hseq. along H; try exact Hseq.
  rewrite timeline_changed. unfold indices_sequential.
  erewrite indices_from_map; [exact Hseq|].
  eapply py_setitem_same; eauto.
Qed.

Lemma run_keeps_indices (w w' : editor) (a : action) :
  run w a = Ok w' ->
  indices_sequential (timeline w) = true ->
  indices_sequential (timeline w') = true.
Proof.
  destruct a as [|confirmed|rows|text cursor_pos|dialog]; cbn [run];
    intros H Hseq.
  - exact (add_keeps_indices w w' H Hseq).
  - destruct (delete_renumbers w w' confirmed H) as [->|]; assumption.
  - destruct (merge_renumbers w w' rows H) as [->|]; assumption.
  - destruct (split_renumbers w w' text cursor_pos H) as [->|]; assumption.
  - exact (edit_timing_keeps_indices w w' dialog H Hseq).
Qed.

Lemma run_all_keeps_indices (actions : list action) :
  forall w w' : editor,
    run_all w actions = Ok w' ->
    indices_sequential (timeline w) = true ->
    indices_sequential (timeline w') = true.
Proof.
  induction actions as [|a actions IH]; intros w w' H Hseq.
  - inversion H. subst. exact Hseq.
  - cbn [run_all] in H. destruct (run w a) as [w1|e] eqn:R; [|discriminate H].
    cbn [bind] in H. apply (IH w1 w' H).
    exact (run_keeps_indices w w1 a R Hseq).
Qed.

Lemma delete_keeps_order (w w' : editor) (confirmed : bool) :
  delete_subtitle w confirmed = Ok w' ->
  ascending_start (timeline w) = true ->
  ascending_start (timeline w') = true.
Proof.
  rewrite delete_subtitle_eq. intros H Hasc. along H; try exact Hasc.
  rewrite timeline_refreshed, ascending_update_indices.
  eapply ascending_delitem; eauto.
Qed.

Lemma merge_keeps_order (w w' : editor) (selected_rows : list Z) :
  SubtitleEditorWidget.merge_subtitles w selected_rows = Ok w' ->
  ascending_start (timeline w) = true ->
  ascending_start (timeline w') = true.
Proof.
  unfold SubtitleEditorWidget.merge_subtitles. intros H Hasc.
  along H; try exact Hasc.
  rewrite timeline_refreshed, ascending_update_indices.
  eapply ascending_fold_delitem; [eassumption|].
  unfold ascending_start, timeline in *.
  match goal with M : subtitles w = Some _ |- _ => rewrite M in Hasc end.
  match goal with
  | G : py_getitem _ (hd 0 _) = Ok _, P : py_setitem _ _ _ = Ok _ |- _ =>
      rewrite (py_setitem_same (fun sub => ordinal (start sub))
                 _ _ _ _ _ G P eq_refl)
  end.
  exact Hasc.
Qed.

(** *** Where the new subtitle lands *)

Lemma length_renumber (subs : list SubRipItem) :
  forall i : Z, List.length (renumber i subs) = List.length subs.
Proof.
  induction subs as [|sub subs IH]; intros i; [reflexivity|].
  cbn [renumber List.length]. rewrite IH. reflexivity.
Qed.

Lemma py_getitem_direct {A} (l : list A) (j : nat) (a : A) :
  nth_error l j = Some a -> py_getitem l (Z.of_nat j) = Ok a.
Proof.
  intros N. unfold py_getitem, py_index, in_range.
  assert (j < List.length l)%nat by (apply nth_error_Some; congruence).
  destruct (Z.ltb_spec (Z.of_nat j) 0); [lia|].
  destruct (Z.leb_spec 0 (Z.of_nat j)); [|lia].
  destruct (Z.ltb_spec (Z.of_nat j) (Z.of_nat (List.length l))); [|lia].
  cbn [andb]. rewrite Nat2Z.id, N. reflexivity.
Qed.

Lemma nth_error_renumber (subs : list SubRipItem) :
  forall (i : Z) (j : nat) (sub : SubRipItem),
    nth_error subs j = Some sub ->
    nth_error (renumber i subs) j = Some (set_index sub (i + Z.of_nat j + 1)).
Proof.
  induction subs as [|x subs IH]; intros i [|j] sub N; try discriminate N.
  - inversion N. subst. cbn. do 2 f_equal. lia.
  - cbn [renumber nth_error]. rewrite (IH (i + 1) j sub N).
    do 2 f_equal. lia.
Qed.

Lemma nth_error_insert {A} (l : list A) (j : nat) (x : A) :
  (j <= List.length l)%nat ->
  nth_error (firstn j l ++ x :: skipn j l) j = Some x.
Proof.
  intros Hj. rewrite nth_error_app2; rewrite firstn_length_le by exact Hj;
    [|lia].
  rewrite Nat.sub_diag. reflexivity.
Qed.

Lemma py_setitem_length {A} (l l' : list A) (i : Z) (x : A) :
  py_setitem l i x = Ok l' -> List.length l' = List.length l.
Proof.
  unfold py_setitem, in_range. intros H.
  destruct (Z.leb_spec 0 (py_index l i)); [|discriminate H].
  destruct (Z.ltb_spec (py_index l i) (Z.of_nat (List.length l)));
    [|discriminate H].
  cbn [andb] in H.
  assert (E : l' = firstn (Z.to_nat (py_index l i)) l
                   ++ x :: skipn (S (Z.to_nat (py_index l i))) l)
    by congruence.
  subst l'. rewrite length_app. cbn [List.length].
  rewrite firstn_length_le, length_skipn by lia. lia.
Qed.

(** After an insertion at row [idx + 1] and the renumbering, that row
    holds the inserted subtitle. *)
Lemma inserted_row (l : list SubRipItem) (idx : Z) (new_sub : SubRipItem) :
  0 <= idx < Z.of_nat (List.length l) ->
  py_getitem (update_indices (py_insert l (idx + 1) new_sub)) (idx + 1)
  = Ok (set_index new_sub (idx + 2)).
Proof.
  intros Hi. unfold py_insert, update_indices.
  destruct (Z.ltb_spec (idx + 1) 0); [lia|].
  rewrite Z.min_l by lia.
  replace (idx + 1) with (Z.of_nat (Z.to_nat (idx + 1))) at 3 by lia.
  apply py_getitem_direct.
  rewrite (nth_error_renumber _ 0 _ new_sub).
  - do 2 f_equal. lia.
  - apply nth_error_insert. lia.
Qed.

Lemma getitem_bounds {A} (l : list A) (i : Z) (a : A) :
  0 <= i -> py_getitem l i = Ok a -> 0 <= i < Z.of_nat (List.length l).
Proof.
  intros Hi G. apply py_getitem_nth in G. destruct G as [R _].
  unfold in_range, py_index in R.
  destruct (Z.ltb_spec i 0); [lia|].
  apply andb_true_iff in R. destruct R as [_ R]. apply Z.ltb_lt in R. lia.
Qed.

(** The second part made by [split_subtitle] ends where it starts. *)
Lemma split_second_part (w w' : editor) (text : string) (cursor_pos : Z) :
  SubtitleEditorWidget.split_subtitle w text cursor_pos = Ok w' ->
  w' = w
  \/ exists second : SubRipItem,
       py_getitem (timeline w') (current_subtitle_index w + 1) = Ok second
       /\ end_ second = start second.
Proof.
  unfold SubtitleEditorWidget.split_subtitle. intros H. along H; auto.
  right. rewrite timeline_refreshed.
  match goal with C : _ || (current_subtitle_index w <? 0) = false |- _ =>
    apply orb_false_iff in C; destruct C as [_ C]; apply Z.ltb_ge in C;
    rename C into Hidx
  end.
  match goal with
  | G : py_getitem _ (current_subtitle_index w) = Ok _,
    P : py_setitem _ _ _ = Ok ?l' |- _ =>
      pose proof (getitem_bounds _ _ _ Hidx G) as Hb;
      pose proof (py_setitem_length _ _ _ _ P) as Hl
  end.
  eexists. split.
  - apply inserted_row. lia.
  - reflexivity.
Qed.

(** With a subtitle after the current one, [add_subtitle] raises. *)
Lemma add_before_next_raises (w : editor) :
  0 <= current_subtitle_index w
       < Z.of_nat (List.length (timeline w)) - 1 ->
  add_subtitle w = Raise AttributeError.
Proof.
  intros Hi. unfold add_subtitle.
  assert (Hh : has_subtitles w = true).
  { unfold has_subtitles, timeline in *.
    destruct (subtitles w); [apply Z.ltb_lt; lia|cbn in Hi; lia]. }
  rewrite Hh. cbn [negb].
  destruct (Z.leb_spec 0 (current_subtitle_index w)); [|lia].
  destruct (py_getitem_ok (timeline w) (current_subtitle_index w)
              ltac:(lia)) as [cur ->].
  cbn [bind].
  destruct (Z.ltb_spec (current_subtitle_index w)
              (Z.of_nat (List.length (timeline w)) - 1)); [|lia].
  destruct (py_getitem_ok (timeline w) (current_subtitle_index w + 1)
              ltac:(lia)) as [next ->].
  reflexivity.
Qed.

(** Nothing is added while no subtitle is loaded. *)
Lemma add_to_empty (w : editor) :
  timeline w = [] -> add_subtitle w = Ok w.
Proof.
  intros Hn. unfold add_subtitle.
  assert (Hh : has_subtitles w = false).
  { unfold has_subtitles, timeline in *.
    destruct (subtitles w); [subst; reflexivity|reflexivity]. }
  rewrite Hh. reflexivity.
Qed.

(** After the last subtitle, the new one ends at the time 00:00:05.000. *)
Lemma add_after_last (w : editor) (cur : SubRipItem) :
  0 <= current_subtitle_index w ->
  current_subtitle_index w = Z.of_nat (List.length (timeline w)) - 1 ->
  py_getitem (timeline w) (current_subtitle_index w) = Ok cur ->
  add_subtitle w
  = Ok (refreshed
          (update_indices
             (timeline w
              ++ [mkSubRipItem (Z.of_nat (List.length (timeline w)) + 1)
                    (end_ cur) (from_ordinal 5000) ""]))
          0).
Proof.
  intros Hi Hlast G. unfold add_subtitle.
  assert (Hh : has_subtitles w = true).
  { unfold has_subtitles, timeline in *.
    destruct (subtitles w); [apply Z.ltb_lt; lia|cbn in Hlast; lia]. }
  rewrite Hh. cbn [negb].
  destruct (Z.leb_spec 0 (current_subtitle_index w)); [|lia].
  rewrite G. cbn [bind].
  destruct (Z.ltb_spec (current_subtitle_index w)
              (Z.of_nat (List.length (timeline w)) - 1)); [lia|].
  cbn [bind]. rewrite select_after_refresh.
  cbn [populate_table selection_changed current_subtitle_index].
  change (-1 + 1) with 0.
  assert (E : py_insert (timeline w) (current_subtitle_index w + 1)
                (mkSubRipItem (Z.of_nat (List.length (timeline w)) + 1)
                   (end_ cur) (mkSubRipTime 0 0 5 0) "")
              = timeline w
                ++ [mkSubRipItem (Z.of_nat (List.length (timeline w)) + 1)
                      (end_ cur) (from_ordinal 5000) ""]).
  { unfold py_insert.
    destruct (Z.ltb_spec (current_subtitle_index w + 1) 0); [lia|].
    rewrite Z.min_l by lia.
    replace (Z.to_nat (current_subtitle_index w + 1))
      with (List.length (timeline w)) by lia.
    rewrite firstn_all, skipn_all. reflexivity. }
  rewrite E. unfold update_indices at 2.
  rewrite length_renumber, length_app. cbn [List.length].
  destruct (Z.ltb_spec 0 (Z.of_nat (List.length (timeline w) + 1)));
    [reflexivity|lia].
Qed.

End EditorFacts.

(** ** The claims about the editor *)

(** C2. Every operation of the editor keeps the indices at [1 .. N], each
    at its 1-based position, when they were so before, and so does every
    sequence of operations.  Deleting, merging, splitting and adding after
    the current subtitle renumber the whole list themselves; adding at the
    end gives the new subtitle the index [N + 1], and editing the timing
    leaves the indices alone.  No operation sorts the list: deleting and
    merging keep starts that were ascending, the other operations are not
    bound to. *)
Theorem C2_indices_kept_by_every_operation :
  (forall (w w' : SubtitleEditorWidget.editor) (a : SubtitleEditorWidget.action),
      SubtitleEditorWidget.run w a = Ok w' ->
      SubtitleEditorWidget.indices_sequential
        (SubtitleEditorWidget.timeline w) = true ->
      SubtitleEditorWidget.indices_sequential
        (SubtitleEditorWidget.timeline w') = true)
  /\ (forall (actions : list SubtitleEditorWidget.action)
             (w w' : SubtitleEditorWidget.editor),
        SubtitleEditorWidget.run_all w actions = Ok w' ->
        SubtitleEditorWidget.indices_sequential
          (SubtitleEditorWidget.timeline w) = true ->
        SubtitleEditorWidget.indices_sequential
          (SubtitleEditorWidget.timeline w') = true)
  /\ (forall (w w' : SubtitleEditorWidget.editor) (a : SubtitleEditorWidget.action),
        match a with
        | SubtitleEditorWidget.Add =>
            0 <= SubtitleEditorWidget.current_subtitle_index w
        | SubtitleEditorWidget.EditTiming _ => False
        | _ => True
        end ->
        SubtitleEditorWidget.run w a = Ok w' ->
        w' = w
        \/ SubtitleEditorWidget.indices_sequential
             (SubtitleEditorWidget.timeline w') = true)
  /\ (forall (w w' : SubtitleEditorWidget.editor) (a : SubtitleEditorWidget.action),
        match a with
        | SubtitleEditorWidget.Delete _ | SubtitleEditorWidget.Merge _ => True
        | _ => False
        end ->
        SubtitleEditorWidget.run w a = Ok w' ->
        SubtitleEditorWidget.ascending_start
          (SubtitleEditorWidget.timeline w) = true ->
        SubtitleEditorWidget.ascending_start
          (SubtitleEditorWidget.timeline w') = true).
Proof.
  split; [exact EditorFacts.run_keeps_indices|].
  split; [exact EditorFacts.run_all_keeps_indices|].
  split.
  - intros w w' [|confirmed|rows|text cursor_pos|dialog] Ha H; cbn [SubtitleEditorWidget.run] in H.
    + exact (EditorFacts.add_after_renumbers w w' Ha H).
    + exact (EditorFacts.delete_renumbers w w' confirmed H).
    + exact (EditorFacts.merge_renumbers w w' rows H).
    + exact (EditorFacts.split_renumbers w w' text cursor_pos H).
    + destruct Ha.
  - intros w w' [|confirmed|rows|text cursor_pos|dialog] Ha H;
      try destruct Ha; cbn [SubtitleEditorWidget.run] in H.
    + exact (EditorFacts.delete_keeps_order w w' confirmed H).
    + exact (EditorFacts.merge_keeps_order w w' rows H).
Qed.

(** Editing the timing of the first of two subtitles in order, from
    00:00:00.000 to 00:00:05.000, leaves it before a subtitle that starts
    at 00:00:02.000. *)
Lemma C2_edit_timing_breaks_order :
  ~ (forall (w w' : SubtitleEditorWidget.editor) (a : SubtitleEditorWidget.action),
        SubtitleEditorWidget.run w a = Ok w' ->
        SubtitleEditorWidget.timeline_ok w = true ->
        SubtitleEditorWidget.timeline_ok w' = true).
Proof.
  intros H.
  specialize (H (SubtitleEditorWidget.editing
                   [sample_sub 1 0 1000 "a"; sample_sub 2 2000 3000 "b"] 0)
                _
                (SubtitleEditorWidget.EditTiming
                   (Some ("00:00:05.000", "00:00:06.000")))
                eq_refl eq_refl).
  vm_compute in H. discriminate H.
Qed.

(** C3. A subtitle from 1000 to 5000 with the text "ab cd", split with
    the cursor after two characters, gives "ab" from 1000 to 2600 and "cd"
    from 2600 to 2600: the second part does not reach the original end.
    Whenever [split_subtitle] splits, the new second part ends where it
    starts.  The split time is computed in binary64: over a duration of 100
    with the cursor after 29 of 100 characters it is 28.  The table is
    filled again after the split and no row is selected then. *)
Theorem C3_split_second_part_has_no_duration :
  SubtitleEditorWidget.split_subtitle
    (SubtitleEditorWidget.editing [sample_sub 1 1000 5000 "ab cd"] 0)
    "ab cd" 2
  = Ok (SubtitleEditorWidget.refreshed
          [sample_sub 1 1000 2600 "ab"; sample_sub 2 2600 2600 "cd"] (-1))
  /\ (forall (w w' : SubtitleEditorWidget.editor) (text : string)
             (cursor_pos : Z),
        SubtitleEditorWidget.split_subtitle w text cursor_pos = Ok w' ->
        w' = w
        \/ exists second : SubRipItem,
             py_getitem (SubtitleEditorWidget.timeline w')
               (SubtitleEditorWidget.current_subtitle_index w + 1)
             = Ok second
             /\ end_ second = start second)
  /\ SubtitleEditorWidget.split_subtitle
       (SubtitleEditorWidget.editing [sample_sub 1 0 100 "x"] 0)
       (string_repeat "x" 100) 29
     = Ok (SubtitleEditorWidget.refreshed
             [sample_sub 1 0 28 (string_repeat "x" 29);
              sample_sub 2 28 28 (string_repeat "x" 71)] (-1)).
Proof.
  split; [vm_compute; reflexivity|].
  split; [exact EditorFacts.split_second_part|].
  vm_compute. reflexivity.
Qed.

(** C8. After the only subtitle, which ends at 10000, [add_subtitle]
    inserts a subtitle from 10000 to 5000: its end is the time 00:00:05.000,
    not five seconds after its start.  That is so after every last
    subtitle; with a subtitle after the current one [add_subtitle] raises
    [AttributeError], and with no subtitle loaded it adds nothing.  With no
    current subtitle, the new one is appended and lasts five seconds.  The
    table is filled again after the insertion, which clears the selection:
    the first row is selected then, and after an append the new row. *)
Theorem C8_add_subtitle_end_time :
  SubtitleEditorWidget.add_subtitle
    (SubtitleEditorWidget.editing [sample_sub 1 0 10000 "a"] 0)
  = Ok (SubtitleEditorWidget.refreshed
          [sample_sub 1 0 10000 "a"; sample_sub 2 10000 5000 ""] 0)
  /\ (forall (w : SubtitleEditorWidget.editor) (cur : SubRipItem),
        0 <= SubtitleEditorWidget.current_subtitle_index w ->
        SubtitleEditorWidget.current_subtitle_index w
        = Z.of_nat (List.length (SubtitleEditorWidget.timeline w)) - 1 ->
        py_getitem (SubtitleEditorWidget.timeline w)
          (SubtitleEditorWidget.current_subtitle_index w) = Ok cur ->
        SubtitleEditorWidget.add_subtitle w
        = Ok (SubtitleEditorWidget.refreshed
                (SubtitleEditorWidget.update_indices
                   (SubtitleEditorWidget.timeline w
                    ++ [mkSubRipItem
                          (Z.of_nat (List.length
                                       (SubtitleEditorWidget.timeline w)) + 1)
                          (end_ cur) (from_ordinal 5000) ""]))
                0))
  /\ (forall w : SubtitleEditorWidget.editor,
        0 <= SubtitleEditorWidget.current_subtitle_index w
          < Z.of_nat (List.length (SubtitleEditorWidget.timeline w)) - 1 ->
        SubtitleEditorWidget.add_subtitle w = Raise AttributeError)
  /\ (forall w : SubtitleEditorWidget.editor,
        SubtitleEditorWidget.timeline w = [] ->
        SubtitleEditorWidget.add_subtitle w = Ok w)
  /\ SubtitleEditorWidget.add_subtitle
       (SubtitleEditorWidget.editing [sample_sub 1 0 10000 "a"] (-1))
     = Ok (SubtitleEditorWidget.refreshed
             [sample_sub 1 0 10000 "a"; sample_sub 2 10000 15000 ""] 1).
Proof.
  split; [vm_compute; reflexivity|].
  split; [exact EditorFacts.add_after_last|].
  split; [exact EditorFacts.add_before_next_raises|].
  split; [exact EditorFacts.add_to_empty|].
  vm_compute. reflexivity.
Qed.

(** * Further properties

    ** [SubtitleProcessor]: transcript conversion, cropping and re-timing *)

Module ProcessorFacts.

(** *** [aws_result_to_srt] *)

Lemma convert_segments_shape (segments : list segment) :
  forall (i : Z) (items : list SubRipItem),
    convert_segments i segments = Ok items ->
    SubtitleEditorWidget.indices_from (i + 1) items = true
    /\ map text items = map seg_text segments
    /\ Forall2 (fun segment item =>
                  _seconds_to_subrip_time (seg_start_time segment) = Ok (start item)
                  /\ _seconds_to_subrip_time (seg_end_time segment) = Ok (end_ item))
         segments items.
Proof.
  induction segments as [|segment rest IH]; intros i items H.
  - inversion H. subst. repeat split. constructor.
  - cbn [convert_segments] in H.
    destruct (_seconds_to_subrip_time (seg_start_time segment)) as [s|] eqn:Es;
      [|discriminate H].
    destruct (_seconds_to_subrip_time (seg_end_time segment)) as [e|] eqn:Ee;
      [|discriminate H].
    cbn [bind] in H.
    destruct (convert_segments (i + 1) rest) as [items'|] eqn:Er;
      [|discriminate H].
    cbn [bind] in H. inversion H. subst items. clear H.
    destruct (IH (i + 1) items' Er) as (Hi & Ht & Hf).
    cbn [SubtitleEditorWidget.indices_from mkSubRipItem index map text].
    rewrite Z.eqb_refl, Hi, Ht. repeat split.
    constructor; [split; assumption|exact Hf].
Qed.

Lemma convert_segments_ok (segments : list segment) :
  Forall (fun segment =>
            (exists s, _seconds_to_subrip_time (seg_start_time segment) = Ok s)
            /\ exists e, _seconds_to_subrip_time (seg_end_time segment) = Ok e)
    segments ->
  forall i, exists items, convert_segments i segments = Ok items.
Proof.
  induction 1 as [|segment rest [[s Hs] [e He]] _ IH]; intros i.
  - exists []. reflexivity.
  - cbn [convert_segments]. rewrite Hs, He. cbn [bind].
    destruct (IH (i + 1)) as [items ->]. cbn [bind]. eauto.
Qed.

(** *** [sorted] on permutations *)

Lemma insert_sorted_swap (x y : Z) (l : list Z) :
  insert_sorted x (insert_sorted y l) = insert_sorted y (insert_sorted x l).
Proof.
  induction l as [|z l IH]; cbn [insert_sorted].
  - destruct (Z.leb_spec x y), (Z.leb_spec y x); try reflexivity; try lia.
    assert (x = y) by lia. subst. reflexivity.
  - destruct (Z.leb_spec y z), (Z.leb_spec x z); cbn [insert_sorted].
    + destruct (Z.leb_spec x y), (Z.leb_spec y x),
        (Z.leb_spec y z), (Z.leb_spec x z); try reflexivity; try lia.
      assert (x = y) by lia. subst. reflexivity.
    + destruct (Z.leb_spec x y), (Z.leb_spec y z), (Z.leb_spec x z);
        try reflexivity; lia.
    + destruct (Z.leb_spec y x), (Z.leb_spec y z), (Z.leb_spec x z);
        try reflexivity; lia.
    + destruct (Z.leb_spec y z), (Z.leb_spec x z); try lia.
      rewrite IH. reflexivity.
Qed.

Lemma sorted_permutation (l l' : list Z) :
  Permutation l l' -> sorted l = sorted l'.
Proof.
  induction 1 as [|x l l' _ IH|x y l|l l' l'' _ IH1 _ IH2].
  - reflexivity.
  - cbn [sorted fold_right]. fold (sorted l) (sorted l'). rewrite IH.
    reflexivity.
  - cbn [sorted fold_right]. apply insert_sorted_swap.
  - congruence.
Qed.

Lemma convert_segments_raises (segments : list segment) :
  Exists (fun segment =>
            (exists e, _seconds_to_subrip_time (seg_start_time segment) = Raise e)
            \/ exists e, _seconds_to_subrip_time (seg_end_time segment) = Raise e)
    segments ->
  forall i, exists e, convert_segments i segments = Raise e.
Proof.
  induction 1 as [segment rest H|segment rest _ IH]; intros i;
    cbn [convert_segments].
  - destruct H as [[e He]|[e He]].
    + rewrite He. cbn [bind]. eauto.
    + rewrite He.
      destruct (_seconds_to_subrip_time (seg_start_time segment)); cbn [bind]; eauto.
  - destruct (_seconds_to_subrip_time (seg_start_time segment)); cbn [bind]; eauto.
    destruct (_seconds_to_subrip_time (seg_end_time segment)); cbn [bind]; eauto.
    destruct (IH (i + 1)) as [e ->]. cbn [bind]. eauto.
Qed.

End ProcessorFacts.

(** X1. [aws_result_to_srt] numbers its subtitles 1, 2, ... in order.  It
    returns either one subtitle per grouped segment, with the segment's text
    and converted times, or nothing at all: a result without ['results'] or
    without ['items'] gives the empty list, and so does a result in which
    any one segment time fails to convert. *)
Theorem X1_aws_result_to_srt_all_or_nothing :
  forall r : aws_result,
    let segments := _group_transcript_items (get_items r) in
    let out := aws_result_to_srt r in
    SubtitleEditorWidget.indices_sequential out = true
    /\ (out = []
        \/ (map text out = map seg_text segments
            /\ Forall2
                 (fun segment sub =>
                    _seconds_to_subrip_time (seg_start_time segment) = Ok (start sub)
                    /\ _seconds_to_subrip_time (seg_end_time segment) = Ok (end_ sub))
                 segments out))
    /\ (Forall
          (fun segment =>
             (exists s, _seconds_to_subrip_time (seg_start_time segment) = Ok s)
             /\ exists e, _seconds_to_subrip_time (seg_end_time segment) = Ok e)
          segments <->
        List.length out = List.length segments)
    /\ (results r = None
        \/ results r = Some {| transcript_items := None |} ->
        out = []).
Proof.
  intros r segments out. unfold out, aws_result_to_srt. fold segments.
  destruct (convert_segments 0 segments) as [items|e] eqn:E.
  - destruct (ProcessorFacts.convert_segments_shape segments 0 items E)
      as (Hi & Ht & Hf).
    split; [exact Hi|]. split; [right; split; assumption|].
    split.
    + split; [intros _; rewrite <- (length_map text), Ht; apply length_map|].
      intros _. clear - Hf.
      induction Hf as [|segment sub segments items [Hs He] _ IH];
        constructor; eauto.
    + intros Hnone. unfold segments, get_items in E.
      destruct Hnone as [Hn|Hn]; rewrite Hn in E; cbn in E; congruence.
  - split; [reflexivity|]. split; [left; reflexivity|].
    split; [|reflexivity].
    split.
    + intros Hall.
      destruct (ProcessorFacts.convert_segments_ok segments Hall 0)
        as [items Hi]. congruence.
    + intros Hlen. destruct segments; [discriminate E|discriminate Hlen].
Qed.

(** X2. [crop_subtitle] without a position returns the subtitle itself.
    With a position it returns no subtitle: the position is converted
    first, so that a position the conversion refuses raises the
    conversion's error, NaN [ValueError] and an infinity [OverflowError],
    and every other position raises [AttributeError] at [subtitle.copy()],
    which a [SubRipItem] does not have.  [set_subtitle_timing] copies
    before anything else and raises [AttributeError] on every call, with
    or without times. *)
Theorem X2_crop_and_set_timing_stop_at_copy :
  forall (subtitle : SubRipItem) (is_end : bool),
    crop_subtitle subtitle is_end None = Ok subtitle
    /\ (forall pos : float,
          crop_subtitle subtitle is_end (Some pos)
          = match _seconds_to_subrip_time pos with
            | Ok _ => Raise AttributeError
            | Raise e => Raise e
            end)
    /\ (forall (pos : float) (cropped : SubRipItem),
          crop_subtitle subtitle is_end (Some pos) <> Ok cropped)
    /\ (forall start_seconds end_seconds : option float,
          set_subtitle_timing subtitle start_seconds end_seconds
          = Raise AttributeError)
    /\ crop_subtitle subtitle is_end (Some 3.0%float) = Raise AttributeError
    /\ crop_subtitle subtitle is_end (Some nan) = Raise ValueError
    /\ crop_subtitle subtitle is_end (Some infinity) = Raise OverflowError.
Proof.
  intros subtitle is_end.
  assert (C : forall pos : float,
            crop_subtitle subtitle is_end (Some pos)
            = match _seconds_to_subrip_time pos with
              | Ok _ => Raise AttributeError
              | Raise e => Raise e
              end).
  { intros pos. unfold crop_subtitle.
    destruct (_seconds_to_subrip_time pos); reflexivity. }
  split; [reflexivity|]. split; [exact C|]. split.
  { intros pos cropped. rewrite C.
    destruct (_seconds_to_subrip_time pos); discriminate. }
  split; [reflexivity|].
  repeat split; rewrite C; vm_compute; reflexivity.
Qed.

(** X6. Whatever position it is given, the conversion returns nothing but
    a time of day, from 00:00:00.000 to 23:59:59.999, with minutes and
    seconds below 60 and milliseconds below 1000: the time of day of the
    position's microseconds.  Negative positions count back from
    midnight: one second before zero is 23:59:59.000 and half a
    millisecond before zero is 23:59:59.999.  NaN raises [ValueError] and
    an infinity [OverflowError]. *)
Theorem X6_conversion_gives_a_time_of_day :
  (forall (t : float) (ts : SubRipTime),
      _seconds_to_subrip_time t = Ok ts ->
      0 <= ordinal ts < 86400000
      /\ 0 <= hours ts < 24 /\ 0 <= minutes ts < 60
      /\ 0 <= seconds ts < 60 /\ 0 <= milliseconds ts < 1000
      /\ exists us : Z,
           total_microseconds t = Ok us
           /\ ts = from_ordinal (wrapped_ms us))
  /\ (forall t : float,
        Prim2SF t = S754_nan ->
        _seconds_to_subrip_time t = Raise ValueError)
  /\ (forall (t : float) (s : bool),
        Prim2SF t = S754_infinity s ->
        _seconds_to_subrip_time t = Raise OverflowError)
  /\ _seconds_to_subrip_time (-1.0) = Ok (mkSubRipTime 23 59 59 0)
  /\ _seconds_to_subrip_time (-0.0005) = Ok (mkSubRipTime 23 59 59 999)
  /\ _seconds_to_subrip_time (-86400.5) = Ok (mkSubRipTime 23 59 59 500)
  /\ _seconds_to_subrip_time 86399.9994 = Ok (mkSubRipTime 23 59 59 999)
  /\ _seconds_to_subrip_time nan = Raise ValueError
  /\ _seconds_to_subrip_time infinity = Raise OverflowError
  /\ _seconds_to_subrip_time neg_infinity = Raise OverflowError.
Proof.
  split; [|split; [exact ConversionFacts.not_a_number|
                   split; [exact ConversionFacts.infinite|
                           repeat split; vm_compute; reflexivity]]].
  intros t ts E.
  destruct (ConversionFacts.conversion_returns t ts E) as (us & T & _ & ->).
  pose proof (ConversionFacts.wrapped_ms_range us) as R.
  destruct (ConversionFacts.fields_in_range _ R) as (Hh & Hm & Hs & Hms).
  split; [exact R|]. split; [exact Hh|]. split; [exact Hm|].
  split; [exact Hs|]. split; [exact Hms|].
  exists us. split; [exact T|reflexivity].
Qed.

(** The theorem at one second before zero. *)
Lemma X6_conversion_gives_a_time_of_day_witness :
  0 <= ordinal (mkSubRipTime 23 59 59 0) < 86400000.
Proof.
  exact (proj1 (proj1 X6_conversion_gives_a_time_of_day (-1.0)%float
                  (mkSubRipTime 23 59 59 0) eq_refl)).
Defined.

(** ** [SubtitleEditorWidget]: renumbering, deletion and re-timing *)

Module WidgetFacts.
Import SubtitleEditorWidget EditorFacts.

Lemma renumber_map {B} (f : SubRipItem -> B) :
  (forall sub i, f (set_index sub i) = f sub) ->
  forall subs i, map f (renumber i subs) = map f subs.
Proof.
  intros Hf. induction subs as [|sub subs IH]; intros i; [reflexivity|].
  cbn [renumber map]. rewrite Hf, IH. reflexivity.
Qed.

Lemma renumber_fixed (subs : list SubRipItem) :
  forall i, indices_from (i + 1) subs = true -> renumber i subs = subs.
Proof.
  induction subs as [|sub subs IH]; intros i H; [reflexivity|].
  cbn [indices_from] in H. apply andb_prop in H as [Hi Hrest].
  apply Z.eqb_eq in Hi. cbn [renumber]. rewrite (IH _ Hrest).
  f_equal. destruct sub. cbn in Hi. subst. reflexivity.
Qed.

Lemma update_indices_idempotent (subs : list SubRipItem) :
  update_indices (update_indices subs) = update_indices subs.
Proof.
  unfold update_indices. apply renumber_fixed, indices_from_renumber.
Qed.

Lemma py_index_nonneg {A} (l : list A) (i : Z) : 0 <= i -> py_index l i = i.
Proof.
  intros H. unfold py_index. destruct (Z.ltb_spec i 0); [lia|reflexivity].
Qed.

Lemma py_setitem_nth {A} (l l' : list A) (i : Z) (x : A) :
  py_setitem l i x = Ok l' ->
  nth_error l' (Z.to_nat (py_index l i)) = Some x
  /\ forall j, j <> Z.to_nat (py_index l i) ->
               nth_error l' j = nth_error l j.
Proof.
  unfold py_setitem, in_range. set (k := py_index l i).
  destruct (Z.leb_spec 0 k) as [K0|]; [|discriminate].
  destruct (Z.ltb_spec k (Z.of_nat (List.length l))) as [K1|]; [|discriminate].
  cbn [andb]. intros E.
  assert (E' : l' = firstn (Z.to_nat k) l ++ x :: skipn (S (Z.to_nat k)) l)
    by congruence.
  subst l'. clear E.
  assert (Hk : (Z.to_nat k < List.length l)%nat) by lia.
  assert (Hf : List.length (firstn (Z.to_nat k) l) = Z.to_nat k)
    by (rewrite length_firstn; lia).
  split.
  - rewrite nth_error_app2 by lia. rewrite Hf, Nat.sub_diag. reflexivity.
  - intros j Hj. destruct (Nat.lt_ge_cases j (Z.to_nat k)) as [L|G].
    + rewrite nth_error_app1 by lia. rewrite nth_error_firstn.
      destruct (Nat.ltb_spec j (Z.to_nat k)); [reflexivity|lia].
    + rewrite nth_error_app2 by lia. rewrite Hf.
      destruct (j - Z.to_nat k)%nat as [|d] eqn:D; [lia|].
      change (nth_error (x :: skipn (S (Z.to_nat k)) l) (S d))
        with (nth_error (skipn (S (Z.to_nat k)) l) d).
      rewrite nth_error_skipn. f_equal. lia.
Qed.

Lemma py_setitem_current {A} (l : list A) (i : Z) (a : A) :
  py_getitem l i = Ok a -> py_setitem l i a = Ok l.
Proof.
  intros G. apply py_getitem_nth in G as [R N].
  unfold py_setitem. rewrite R. f_equal. apply split_at. exact N.
Qed.

Lemma py_setitem_ok {A} (l : list A) (i : Z) (a x : A) :
  py_getitem l i = Ok a -> exists l', py_setitem l i x = Ok l'.
Proof.
  intros G. apply py_getitem_nth in G as [R N].
  unfold py_setitem. rewrite R. eauto.
Qed.

Lemma has_subtitles_timeline (w : editor) :
  has_subtitles w = negb (Nat.eqb (List.length (timeline w)) 0).
Proof.
  unfold has_subtitles, timeline. destruct (subtitles w) as [subs|];
    [|reflexivity].
  destruct subs; reflexivity.
Qed.

Lemma no_subtitles (w : editor) : timeline w = [] -> has_subtitles w = false.
Proof. intros H. rewrite has_subtitles_timeline, H. reflexivity. Qed.

Lemma getitem_nil {A} (i : Z) : py_getitem (@nil A) i = Raise IndexError.
Proof.
  unfold py_getitem, in_range, py_index. cbn [List.length Z.of_nat].
  destruct (i <? 0); destruct (Z.leb_spec 0 (i + 0));
    destruct (Z.ltb_spec (i + 0) 0); destruct (Z.leb_spec 0 i);
    destruct (Z.ltb_spec i 0); cbn; try reflexivity; lia.
Qed.

(** Nothing happens in a widget without subtitles. *)
Lemma run_on_empty (w w' : editor) (a : action) :
  timeline w = [] -> run w a = Ok w' -> w' = w.
Proof.
  intros T H. pose proof (no_subtitles w T) as N.
  destruct a as [|confirmed|rows|text cursor_pos|dialog]; cbn [run] in H.
  - unfold add_subtitle in H. rewrite N in H. cbn in H. congruence.
  - unfold delete_subtitle in H. rewrite N in H. cbn in H. congruence.
  - unfold SubtitleEditorWidget.merge_subtitles in H.
    destruct (Z.of_nat (List.length rows) <? 2); [congruence|].
    destruct (negb (consecutive (sorted rows))); [congruence|].
    unfold timeline in T. destruct (subtitles w) as [subs|]; [|discriminate].
    subst subs. rewrite getitem_nil in H. discriminate H.
  - unfold SubtitleEditorWidget.split_subtitle in H. rewrite N in H.
    cbn in H. congruence.
  - unfold edit_timing in H. rewrite N in H. cbn in H. congruence.
Qed.

Lemma run_all_on_empty (actions : list action) :
  forall w w' : editor,
    timeline w = [] -> run_all w actions = Ok w' -> w' = w.
Proof.
  induction actions as [|a actions IH]; intros w w' T H; cbn [run_all] in H.
  - congruence.
  - destruct (run w a) as [w1|] eqn:R; [|discriminate H]. cbn [bind] in H.
    pose proof (run_on_empty _ _ _ T R). subst w1. apply IH; assumption.
Qed.

(** A time that is not negative is the time of its own fields. *)
Lemma time_of_fields (t : SubRipTime) :
  0 <= ordinal t ->
  t = mkSubRipTime (hours t) (minutes t) (seconds t) (milliseconds t)
  /\ 0 <= hours t /\ 0 <= minutes t < 60 /\ 0 <= seconds t < 60
  /\ 0 <= milliseconds t < 1000.
Proof.
  destruct t as [o]. cbn [ordinal]. intros H.
  unfold mkSubRipTime, hours, minutes, seconds, milliseconds, HOURS_RATIO,
    MINUTES_RATIO, SECONDS_RATIO. cbn [ordinal].
  split; [f_equal|]; Z.to_euclidean_division_equations; lia.
Qed.

Lemma parse_format (t : SubRipTime) :
  0 <= ordinal t -> parse_timestamp (format_timestamp t) = Ok t.
Proof.
  intros H. destruct (time_of_fields t H) as (E & Hh & Hm & Hs & Hms).
  rewrite E at 1.
  rewrite TimestampFacts.format_of_time by assumption.
  rewrite TimestampFacts.parse_formatted;
    [|lia|lia|lia|apply StringFacts.format_d_digits; lia|left; reflexivity].
  rewrite TimestampFacts.milliseconds_three_digits by assumption.
  rewrite StringFacts.format_d_value by lia.
  rewrite <- E. reflexivity.
Qed.

End WidgetFacts.

(** X7. [update_indices] changes nothing but the indices: the list keeps
    its length, and every start, end, text and position; the indices
    become 1, 2, ...; a second call changes nothing; and the call changes
    nothing exactly when the indices were 1, 2, ... already. *)
Theorem X7_update_indices_only_renumbers :
  forall subs : list SubRipItem,
    let subs' := SubtitleEditorWidget.update_indices subs in
    List.length subs' = List.length subs
    /\ map start subs' = map start subs
    /\ map end_ subs' = map end_ subs
    /\ map text subs' = map text subs
    /\ map position subs' = map position subs
    /\ map index subs'
       = map (fun i => Z.of_nat i + 1) (seq 0 (List.length subs))
    /\ SubtitleEditorWidget.update_indices subs' = subs'
    /\ (SubtitleEditorWidget.indices_sequential subs = true
        <-> subs' = subs).
Proof.
  intros subs subs'. unfold subs', SubtitleEditorWidget.update_indices.
  split; [apply EditorFacts.length_renumber|].
  split; [apply WidgetFacts.renumber_map; reflexivity|].
  split; [apply WidgetFacts.renumber_map; reflexivity|].
  split; [apply WidgetFacts.renumber_map; reflexivity|].
  split; [apply WidgetFacts.renumber_map; reflexivity|].
  split.
  { assert (G : forall l i,
               map index (SubtitleEditorWidget.renumber i l)
               = map (fun k => i + Z.of_nat k + 1) (seq 0 (List.length l))).
    { induction l as [|sub l IH]; intros i; [reflexivity|].
      cbn [SubtitleEditorWidget.renumber map List.length seq index set_index].
      f_equal; [cbn; lia|].
      rewrite IH, <- seq_shift, map_map. apply map_ext. intros k. lia. }
    rewrite G. apply map_ext. intros k. lia. }
  split; [apply WidgetFacts.update_indices_idempotent|].
  split.
  - exact (WidgetFacts.renumber_fixed subs 0).
  - intros E. rewrite <- E.
    apply EditorFacts.update_indices_sequential.
Qed.

(** X8. With subtitles loaded and a current row, [delete_subtitle] does
    nothing unless the question is answered with yes; it raises
    [IndexError] when the current row is past the end; otherwise it removes
    exactly the current row and renumbers, the list is one shorter and the
    widget is marked as modified.  No row is current afterwards: the table
    is filled again before the current row is looked at, and that clears
    the selection, so that the lines that would keep the row, or move it up
    from the end of the list, find [-1] and select nothing. *)
Theorem X8_delete_removes_the_current_row :
  forall (w : SubtitleEditorWidget.editor) (confirmed : bool),
    SubtitleEditorWidget.has_subtitles w = true ->
    0 <= SubtitleEditorWidget.current_subtitle_index w ->
    let subs := SubtitleEditorWidget.timeline w in
    let idx := SubtitleEditorWidget.current_subtitle_index w in
    let n := Z.of_nat (List.length subs) in
    (confirmed = false ->
     SubtitleEditorWidget.delete_subtitle w confirmed = Ok w)
    /\ (confirmed = true -> n <= idx ->
        SubtitleEditorWidget.delete_subtitle w confirmed = Raise IndexError)
    /\ (confirmed = true -> idx < n ->
        SubtitleEditorWidget.delete_subtitle w confirmed
        = Ok {| SubtitleEditorWidget.subtitles :=
                  Some (SubtitleEditorWidget.update_indices
                          (firstn (Z.to_nat idx) subs
                           ++ skipn (S (Z.to_nat idx)) subs));
                SubtitleEditorWidget.current_subtitle_index := -1;
                SubtitleEditorWidget.modified := true |}
        /\ List.length (firstn (Z.to_nat idx) subs
                        ++ skipn (S (Z.to_nat idx)) subs)
           = (List.length subs - 1)%nat).
Proof.
  intros w confirmed Hs Hi subs idx n.
  rewrite EditorFacts.delete_subtitle_eq. rewrite Hs.
  fold idx. destruct (Z.ltb_spec idx 0) as [L|_]; [unfold idx in L; lia|].
  cbn [negb orb]. fold subs.
  split; [intros ->; reflexivity|].
  unfold py_delitem. rewrite (WidgetFacts.py_index_nonneg subs idx Hi).
  unfold in_range. fold n.
  destruct (Z.leb_spec 0 idx) as [_|L]; [|unfold idx in L; lia].
  split; intros -> Hn; cbn [negb andb].
  - destruct (Z.ltb_spec idx n); [lia|reflexivity].
  - destruct (Z.ltb_spec idx n); [|lia]. cbn [bind].
    split; [reflexivity|].
    rewrite length_app, length_firstn, length_skipn. unfold n in *. lia.
Qed.

(** The theorem on two subtitles with the last one current. *)
Lemma X8_delete_removes_the_current_row_witness :
  SubtitleEditorWidget.delete_subtitle
    (SubtitleEditorWidget.editing
       [sample_sub 1 0 1000 "a"; sample_sub 2 1000 2000 "b"] 1) true
  = Ok {| SubtitleEditorWidget.subtitles := Some [sample_sub 1 0 1000 "a"];
          SubtitleEditorWidget.current_subtitle_index := -1;
          SubtitleEditorWidget.modified := true |}.
Proof.
  exact (proj1 (proj2 (proj2
           (X8_delete_removes_the_current_row
              (SubtitleEditorWidget.editing
                 [sample_sub 1 0 1000 "a"; sample_sub 2 1000 2000 "b"] 1)
              true eq_refl ltac:(cbn; lia))) eq_refl ltac:(cbn; lia))).
Defined.

(** X11. Without subtitles no sequence of editor operations that completes
    changes the widget: adding, deleting, splitting and re-timing return at
    once, and merging cannot complete. *)
Theorem X11_nothing_is_added_without_subtitles :
  forall (actions : list SubtitleEditorWidget.action)
         (w w' : SubtitleEditorWidget.editor),
    SubtitleEditorWidget.timeline w = [] ->
    SubtitleEditorWidget.run_all w actions = Ok w' ->
    w' = w.
Proof. exact WidgetFacts.run_all_on_empty. Qed.

(** The theorem on a widget with an empty list, for add, split and add. *)
Lemma X11_nothing_is_added_without_subtitles_witness :
  SubtitleEditorWidget.editing [] (-1) = SubtitleEditorWidget.editing [] (-1).
Proof.
  exact (X11_nothing_is_added_without_subtitles
           [SubtitleEditorWidget.Add; SubtitleEditorWidget.Split "ab" 1;
            SubtitleEditorWidget.Add]
           (SubtitleEditorWidget.editing [] (-1))
           (SubtitleEditorWidget.editing [] (-1)) eq_refl eq_refl).
Defined.

(** X12. Accepting the timing dialog with the two times it shows, those of
    a current subtitle whose times are not negative, leaves every subtitle
    as it was; the widget is marked as modified all the same. *)
Theorem X12_edit_timing_with_the_shown_times :
  forall (w : SubtitleEditorWidget.editor) (current_sub : SubRipItem),
    SubtitleEditorWidget.has_subtitles w = true ->
    0 <= SubtitleEditorWidget.current_subtitle_index w ->
    py_getitem (SubtitleEditorWidget.timeline w)
      (SubtitleEditorWidget.current_subtitle_index w) = Ok current_sub ->
    0 <= ordinal (start current_sub) ->
    0 <= ordinal (end_ current_sub) ->
    SubtitleEditorWidget.edit_timing w
      (Some (SubtitleEditorWidget.format_timestamp (start current_sub),
             SubtitleEditorWidget.format_timestamp (end_ current_sub)))
    = Ok (SubtitleEditorWidget.changed w (SubtitleEditorWidget.timeline w)).
Proof.
  intros w cur Hs Hi G Hstart Hend.
  unfold SubtitleEditorWidget.edit_timing. rewrite Hs.
  destruct (Z.ltb_spec (SubtitleEditorWidget.current_subtitle_index w) 0);
    [lia|].
  cbn [negb orb]. rewrite G. cbn [bind].
  rewrite !WidgetFacts.parse_format by assumption. cbn [bind].
  replace (set_end (set_start cur (start cur)) (end_ cur)) with cur
    by (destruct cur; reflexivity).
  rewrite (WidgetFacts.py_setitem_current _ _ _ G). reflexivity.
Qed.

(** The theorem on one subtitle from 1000 to 5000. *)
Lemma X12_edit_timing_with_the_shown_times_witness :
  SubtitleEditorWidget.edit_timing
    (SubtitleEditorWidget.editing [sample_sub 1 1000 5000 "a"] 0)
    (Some ("00:00:01.000", "00:00:05.000"))
  = Ok (SubtitleEditorWidget.changed
          (SubtitleEditorWidget.editing [sample_sub 1 1000 5000 "a"] 0)
          [sample_sub 1 1000 5000 "a"]).
Proof.
  exact (X12_edit_timing_with_the_shown_times
           (SubtitleEditorWidget.editing [sample_sub 1 1000 5000 "a"] 0)
           (sample_sub 1 1000 5000 "a") eq_refl ltac:(cbn; lia) eq_refl
           ltac:(cbn; lia) ltac:(cbn; lia)).
Defined.

Module FrameFacts.
Import SubtitleEditorWidget EditorFacts.

(** Replacing a row by one that agrees with it under [f] keeps [map f]. *)
Lemma setitem_frame (w : editor) (subs' : list SubRipItem)
    (cur new : SubRipItem) :
  0 <= current_subtitle_index w ->
  py_getitem (timeline w) (current_subtitle_index w) = Ok cur ->
  py_setitem (timeline w) (current_subtitle_index w) new = Ok subs' ->
  List.length subs' = List.length (timeline w)
  /\ nth_error subs' (Z.to_nat (current_subtitle_index w)) = Some new
  /\ (forall j, j <> Z.to_nat (current_subtitle_index w) ->
                nth_error subs' j = nth_error (timeline w) j).
Proof.
  intros Hi G P.
  split; [exact (py_setitem_length _ _ _ _ P)|].
  pose proof (WidgetFacts.py_setitem_nth _ _ _ _ P) as [N F].
  rewrite (WidgetFacts.py_index_nonneg _ _ Hi) in N, F.
  split; assumption.
Qed.

Lemma find_from (subs : list SubRipItem) (position_seconds : float) :
  forall (i found : Z),
    find_subtitle_at i subs position_seconds = Ok found ->
    (found = -1
     /\ Forall (fun sub => covers sub position_seconds = Ok false) subs)
    \/ (i <= found < i + Z.of_nat (List.length subs)
        /\ exists sub,
             nth_error subs (Z.to_nat (found - i)) = Some sub
             /\ covers sub position_seconds = Ok true
             /\ Forall (fun sub' => covers sub' position_seconds = Ok false)
                  (firstn (Z.to_nat (found - i)) subs)).
Proof.
  induction subs as [|sub subs IH]; intros i found H;
    cbn [find_subtitle_at] in H.
  - left. split; [congruence|constructor].
  - destruct (covers sub position_seconds) as [[|]|] eqn:C;
      cbn [bind] in H; [| |discriminate H].
    + right. inversion H; subst found; clear H.
      cbn [List.length]. split; [lia|].
      exists sub. rewrite Z.sub_diag. cbn [Z.to_nat nth_error firstn].
      repeat split; [exact C|constructor].
    + destruct (IH _ _ H) as [[E F]|[R (sub' & N & C' & F)]].
      * left. split; [exact E|]. constructor; assumption.
      * right. cbn [List.length]. split; [lia|].
        exists sub'.
        replace (Z.to_nat (found - i)) with (S (Z.to_nat (found - (i + 1))))
          by lia.
        cbn [nth_error firstn]. repeat split; try assumption.
        constructor; assumption.
Qed.

End FrameFacts.

(** X13. A call of [edit_timing] that completes keeps the current row, the
    number of subtitles, every index, text and position, and every subtitle
    other than the current one; when the dialog is rejected, or either of
    the two strings fails to parse, the widget is left as it was, the start
    included even when it parsed. *)
Theorem X13_edit_timing_frame :
  forall (w w' : SubtitleEditorWidget.editor)
         (dialog : option (string * string)),
    SubtitleEditorWidget.edit_timing w dialog = Ok w' ->
    SubtitleEditorWidget.current_subtitle_index w'
    = SubtitleEditorWidget.current_subtitle_index w
    /\ List.length (SubtitleEditorWidget.timeline w')
       = List.length (SubtitleEditorWidget.timeline w)
    /\ map index (SubtitleEditorWidget.timeline w')
       = map index (SubtitleEditorWidget.timeline w)
    /\ map text (SubtitleEditorWidget.timeline w')
       = map text (SubtitleEditorWidget.timeline w)
    /\ map position (SubtitleEditorWidget.timeline w')
       = map position (SubtitleEditorWidget.timeline w)
    /\ (forall j,
          j <> Z.to_nat (SubtitleEditorWidget.current_subtitle_index w) ->
          nth_error (SubtitleEditorWidget.timeline w') j
          = nth_error (SubtitleEditorWidget.timeline w) j)
    /\ (dialog = None -> w' = w)
    /\ (forall s e,
          dialog = Some (s, e) ->
          (exists err, SubtitleEditorWidget.parse_timestamp s = Raise err)
          \/ (exists err, SubtitleEditorWidget.parse_timestamp e = Raise err) ->
          w' = w).
Proof.
  intros w w' dialog H.
  assert (Same : w' = w ->
    SubtitleEditorWidget.current_subtitle_index w'
    = SubtitleEditorWidget.current_subtitle_index w
    /\ List.length (SubtitleEditorWidget.timeline w')
       = List.length (SubtitleEditorWidget.timeline w)
    /\ map index (SubtitleEditorWidget.timeline w')
       = map index (SubtitleEditorWidget.timeline w)
    /\ map text (SubtitleEditorWidget.timeline w')
       = map text (SubtitleEditorWidget.timeline w)
    /\ map position (SubtitleEditorWidget.timeline w')
       = map position (SubtitleEditorWidget.timeline w)
    /\ (forall j,
          j <> Z.to_nat (SubtitleEditorWidget.current_subtitle_index w) ->
          nth_error (SubtitleEditorWidget.timeline w') j
          = nth_error (SubtitleEditorWidget.timeline w) j)
    /\ (dialog = None -> w' = w)
    /\ (forall s e,
          dialog = Some (s, e) ->
          (exists err, SubtitleEditorWidget.parse_timestamp s = Raise err)
          \/ (exists err, SubtitleEditorWidget.parse_timestamp e = Raise err) ->
          w' = w)).
  { intros ->. repeat split; auto. }
  unfold SubtitleEditorWidget.edit_timing in H.
  destruct (negb (SubtitleEditorWidget.has_subtitles w)
            || (SubtitleEditorWidget.current_subtitle_index w <? 0)) eqn:Guard;
    [apply Same; congruence|].
  apply orb_false_elim in Guard as [_ Hi]. apply Z.ltb_ge in Hi.
  destruct (py_getitem (SubtitleEditorWidget.timeline w)
              (SubtitleEditorWidget.current_subtitle_index w))
    as [cur|] eqn:G; cbn [bind] in H; [|discriminate H].
  destruct dialog as [[s e]|]; [|apply Same; congruence].
  destruct (SubtitleEditorWidget.parse_timestamp s) as [st|] eqn:Ps;
    cbn [bind] in H; [|apply Same; congruence].
  destruct (SubtitleEditorWidget.parse_timestamp e) as [et|] eqn:Pe;
    cbn [bind] in H; [|apply Same; congruence].
  destruct (py_setitem (SubtitleEditorWidget.timeline w)
              (SubtitleEditorWidget.current_subtitle_index w)
              (set_end (set_start cur st) et)) as [subs'|] eqn:P;
    cbn [bind] in H; [|discriminate H].
  inversion H; subst w'; clear H Same.
  rewrite EditorFacts.timeline_changed.
  destruct (FrameFacts.setitem_frame w subs' cur _ Hi G P) as (L & _ & F).
  split; [reflexivity|]. split; [exact L|].
  split; [exact (EditorFacts.py_setitem_same index _ _ _ _ _ G P eq_refl)|].
  split; [exact (EditorFacts.py_setitem_same text _ _ _ _ _ G P eq_refl)|].
  split; [exact (EditorFacts.py_setitem_same position _ _ _ _ _ G P eq_refl)|].
  split; [exact F|].
  split; [discriminate|].
  intros s' e' E [[err R]|[err R]]; inversion E; subst; congruence.
Qed.

(** The theorem on a dialog whose end does not parse. *)
Lemma X13_edit_timing_frame_witness :
  List.length
    (SubtitleEditorWidget.timeline
       (SubtitleEditorWidget.editing [sample_sub 1 1000 5000 "a"] 0))
  = List.length
      (SubtitleEditorWidget.timeline
         (SubtitleEditorWidget.editing [sample_sub 1 1000 5000 "a"] 0)).
Proof.
  exact (proj1 (proj2
           (X13_edit_timing_frame
              (SubtitleEditorWidget.editing [sample_sub 1 1000 5000 "a"] 0)
              (SubtitleEditorWidget.editing [sample_sub 1 1000 5000 "a"] 0)
              (Some ("00:00:02.000", "soon")) eq_refl))).
Defined.

(** X16. A call of [text_edited] that completes keeps the current row, the
    number of subtitles, every index, start, end and position, hence the
    numbering and the order of the timeline, and every subtitle other than
    the current one; with subtitles loaded and a current row, that row gets
    the new text and the widget is marked as modified. *)
Theorem X16_text_edited_frame :
  forall (w w' : SubtitleEditorWidget.editor) (new_text : string),
    SubtitleEditorWidget.text_edited w new_text = Ok w' ->
    SubtitleEditorWidget.current_subtitle_index w'
    = SubtitleEditorWidget.current_subtitle_index w
    /\ List.length (SubtitleEditorWidget.timeline w')
       = List.length (SubtitleEditorWidget.timeline w)
    /\ map index (SubtitleEditorWidget.timeline w')
       = map index (SubtitleEditorWidget.timeline w)
    /\ map start (SubtitleEditorWidget.timeline w')
       = map start (SubtitleEditorWidget.timeline w)
    /\ map end_ (SubtitleEditorWidget.timeline w')
       = map end_ (SubtitleEditorWidget.timeline w)
    /\ map position (SubtitleEditorWidget.timeline w')
       = map position (SubtitleEditorWidget.timeline w)
    /\ SubtitleEditorWidget.timeline_ok w'
       = SubtitleEditorWidget.timeline_ok w
    /\ (forall j,
          j <> Z.to_nat (SubtitleEditorWidget.current_subtitle_index w) ->
          nth_error (SubtitleEditorWidget.timeline w') j
          = nth_error (SubtitleEditorWidget.timeline w) j)
    /\ (SubtitleEditorWidget.has_subtitles w = true ->
        0 <= SubtitleEditorWidget.current_subtitle_index w ->
        nth_error (map text (SubtitleEditorWidget.timeline w'))
          (Z.to_nat (SubtitleEditorWidget.current_subtitle_index w))
        = Some new_text
        /\ SubtitleEditorWidget.modified w' = true).
Proof.
  intros w w' new_text H.
  unfold SubtitleEditorWidget.text_edited in H.
  destruct (SubtitleEditorWidget.has_subtitles w) eqn:Hs; cbn [negb orb] in H.
  2:{ inversion H; subst w'. repeat split; auto; discriminate. }
  destruct (Z.ltb_spec (SubtitleEditorWidget.current_subtitle_index w) 0)
    as [L|Hi].
  { inversion H; subst w'. repeat split; auto; lia. }
  destruct (py_getitem (SubtitleEditorWidget.timeline w)
              (SubtitleEditorWidget.current_subtitle_index w))
    as [cur|] eqn:G; cbn [bind] in H; [|discriminate H].
  destruct (py_setitem (SubtitleEditorWidget.timeline w)
              (SubtitleEditorWidget.current_subtitle_index w)
              (set_text cur new_text)) as [subs'|] eqn:P;
    cbn [bind] in H; [|discriminate H].
  inversion H; subst w'; clear H.
  unfold SubtitleEditorWidget.timeline_ok,
    SubtitleEditorWidget.indices_sequential,
    SubtitleEditorWidget.ascending_start.
  rewrite EditorFacts.timeline_changed.
  destruct (FrameFacts.setitem_frame w subs' cur _ Hi G P) as (L & N & F).
  pose proof (EditorFacts.py_setitem_same index _ _ _ _ _ G P eq_refl) as Mi.
  pose proof (EditorFacts.py_setitem_same start _ _ _ _ _ G P eq_refl) as Ms.
  split; [reflexivity|]. split; [exact L|].
  split; [exact Mi|]. split; [exact Ms|].
  split; [exact (EditorFacts.py_setitem_same end_ _ _ _ _ _ G P eq_refl)|].
  split; [exact (EditorFacts.py_setitem_same position _ _ _ _ _ G P eq_refl)|].
  split.
  { rewrite (EditorFacts.indices_from_map _ _ Mi 1).
    replace (map (fun sub => ordinal (start sub)) subs')
      with (map ordinal (map start subs')) by apply map_map.
    rewrite Ms, map_map. reflexivity. }
  split; [exact F|].
  intros _ _. split; [|reflexivity].
  rewrite nth_error_map, N. reflexivity.
Qed.

(** The theorem on one subtitle whose text becomes "b". *)
Lemma X16_text_edited_frame_witness :
  SubtitleEditorWidget.timeline_ok
    (SubtitleEditorWidget.changed
       (SubtitleEditorWidget.editing [sample_sub 1 1000 5000 "a"] 0)
       [sample_sub 1 1000 5000 "b"])
  = SubtitleEditorWidget.timeline_ok
      (SubtitleEditorWidget.editing [sample_sub 1 1000 5000 "a"] 0).
Proof.
  exact (proj1 (proj2 (proj2 (proj2 (proj2 (proj2 (proj2
           (X16_text_edited_frame
              (SubtitleEditorWidget.editing [sample_sub 1 1000 5000 "a"] 0)
              (SubtitleEditorWidget.changed
                 (SubtitleEditorWidget.editing
                    [sample_sub 1 1000 5000 "a"] 0)
                 [sample_sub 1 1000 5000 "b"])
              "b" eq_refl)))))))).
Defined.

(** X14. When [highlight_subtitle_at_position] selects a row, that row
    exists, is not the current one, covers the position, and is the first
    to do so: no earlier subtitle covers the position. *)
Theorem X14_highlight_selects_the_first_match :
  forall (w : SubtitleEditorWidget.editor) (position_seconds : float)
         (row : Z),
    SubtitleEditorWidget.highlight_subtitle_at_position w position_seconds
    = Ok (Some row) ->
    0 <= row < Z.of_nat (List.length (SubtitleEditorWidget.timeline w))
    /\ row <> SubtitleEditorWidget.current_subtitle_index w
    /\ (exists sub,
          nth_error (SubtitleEditorWidget.timeline w) (Z.to_nat row)
          = Some sub
          /\ SubtitleEditorWidget.covers sub position_seconds = Ok true)
    /\ Forall (fun sub =>
                 SubtitleEditorWidget.covers sub position_seconds = Ok false)
         (firstn (Z.to_nat row) (SubtitleEditorWidget.timeline w)).
Proof.
  intros w position_seconds row H.
  unfold SubtitleEditorWidget.highlight_subtitle_at_position in H.
  destruct (negb (SubtitleEditorWidget.has_subtitles w)); [discriminate H|].
  destruct (SubtitleEditorWidget.find_subtitle_at 0
              (SubtitleEditorWidget.timeline w) position_seconds)
    as [found|] eqn:F; cbn [bind] in H; [|discriminate H].
  destruct (Z.leb_spec 0 found) as [P|]; [|discriminate H].
  destruct (Z.eqb_spec found (SubtitleEditorWidget.current_subtitle_index w))
    as [|Ne]; [discriminate H|].
  cbn [negb andb] in H. inversion H; subst row; clear H.
  destruct (FrameFacts.find_from _ _ _ _ F) as [[E _]|[R (sub & N & C & A)]];
    [lia|].
  rewrite Z.sub_0_r in N, A.
  split; [lia|]. split; [exact Ne|]. split; [eauto|exact A].
Qed.

(** The theorem on two overlapping subtitles at 1.5 seconds. *)
Lemma X14_highlight_selects_the_first_match_witness :
  0 <> SubtitleEditorWidget.current_subtitle_index
         (SubtitleEditorWidget.editing
            [sample_sub 1 1000 3000 "a"; sample_sub 2 1000 2000 "b"] 1).
Proof.
  exact (proj1 (proj2
           (X14_highlight_selects_the_first_match
              (SubtitleEditorWidget.editing
                 [sample_sub 1 1000 3000 "a"; sample_sub 2 1000 2000 "b"] 1)
              1.5%float 0 eq_refl))).
Defined.

Module MergeFacts.
Import SubtitleEditorWidget EditorFacts.

Lemma row_range_cons (r : Z) (n : nat) :
  row_range r (S n) = r :: row_range (r + 1) n.
Proof.
  unfold row_range. cbn [seq map]. f_equal; [lia|].
  rewrite <- seq_shift, map_map. apply map_ext. intros i. lia.
Qed.

Lemma row_range_snoc (r : Z) (n : nat) :
  row_range r (S n) = row_range r n ++ [r + Z.of_nat n].
Proof. unfold row_range. rewrite seq_S, map_app. reflexivity. Qed.

Lemma row_range_length (r : Z) (n : nat) : List.length (row_range r n) = n.
Proof. unfold row_range. rewrite length_map, length_seq. reflexivity. Qed.

Lemma sorted_row_range (n : nat) :
  forall r, sorted (row_range r n) = row_range r n.
Proof.
  induction n as [|n IH]; intros r; [reflexivity|].
  rewrite row_range_cons. unfold sorted. cbn [fold_right].
  fold (sorted (row_range (r + 1) n)). rewrite IH.
  destruct n as [|n]; [reflexivity|].
  rewrite row_range_cons. cbn [insert_sorted].
  destruct (Z.leb_spec r (r + 1)); [reflexivity|lia].
Qed.

Lemma consecutive_row_range (n : nat) :
  forall r, consecutive (row_range r n) = true.
Proof.
  induction n as [|n IH]; intros r; [reflexivity|].
  rewrite row_range_cons. specialize (IH (r + 1)).
  destruct n as [|n]; [reflexivity|].
  rewrite row_range_cons in *. cbn [consecutive].
  rewrite Z.eqb_refl. exact IH.
Qed.

Lemma consecutive_is_range (rows : list Z) :
  consecutive rows = true ->
  rows = row_range (hd 0 rows) (List.length rows).
Proof.
  induction rows as [|a rows IH]; intros H; [reflexivity|].
  cbn [hd List.length]. rewrite row_range_cons.
  destruct rows as [|b rows]; [reflexivity|].
  cbn [consecutive] in H. apply andb_prop in H as [E C].
  apply Z.eqb_eq in E. f_equal. rewrite (IH C) at 1.
  cbn [hd]. rewrite E. reflexivity.
Qed.

Lemma insert_sorted_permutation (x : Z) (l : list Z) :
  Permutation (x :: l) (insert_sorted x l).
Proof.
  induction l as [|y l IH]; [reflexivity|].
  cbn [insert_sorted]. destruct (x <=? y); [reflexivity|].
  rewrite perm_swap. apply perm_skip. exact IH.
Qed.

Lemma sorted_is_permutation (l : list Z) : Permutation l (sorted l).
Proof.
  induction l as [|x l IH]; [reflexivity|].
  unfold sorted. cbn [fold_right]. fold (sorted l).
  rewrite <- insert_sorted_permutation. apply perm_skip. exact IH.
Qed.

Lemma getitem_middle {A} (l1 l2 : list A) (x : A) :
  py_getitem (l1 ++ x :: l2) (Z.of_nat (List.length l1)) = Ok x.
Proof.
  apply py_getitem_direct. rewrite nth_error_app2 by lia.
  rewrite Nat.sub_diag. reflexivity.
Qed.

Lemma middle_in_range {A} (l1 l2 : list A) (x : A) :
  py_index (l1 ++ x :: l2) (Z.of_nat (List.length l1))
  = Z.of_nat (List.length l1)
  /\ in_range (l1 ++ x :: l2) (Z.of_nat (List.length l1)) = true.
Proof.
  split; [apply WidgetFacts.py_index_nonneg; lia|].
  unfold in_range. rewrite length_app. cbn [List.length].
  destruct (Z.leb_spec 0 (Z.of_nat (List.length l1))); [|lia].
  destruct (Z.ltb_spec (Z.of_nat (List.length l1))
              (Z.of_nat (List.length l1 + S (List.length l2))));
    [reflexivity|lia].
Qed.

Lemma setitem_middle {A} (l1 l2 : list A) (x y : A) :
  py_setitem (l1 ++ x :: l2) (Z.of_nat (List.length l1)) y
  = Ok (l1 ++ y :: l2).
Proof.
  unfold py_setitem. destruct (middle_in_range l1 l2 x) as [-> ->].
  rewrite Nat2Z.id. f_equal.
  rewrite firstn_app, firstn_all, Nat.sub_diag. cbn [firstn].
  rewrite app_nil_r. f_equal.
  replace (S (List.length l1)) with (List.length (l1 ++ [x]))
    by (rewrite length_app; cbn [List.length]; lia).
  change (x :: l2) with ([x] ++ l2). rewrite app_assoc.
  rewrite skipn_app, skipn_all, Nat.sub_diag. reflexivity.
Qed.

Lemma delitem_middle {A} (l1 l2 : list A) (x : A) :
  py_delitem (l1 ++ x :: l2) (Z.of_nat (List.length l1)) = Ok (l1 ++ l2).
Proof.
  unfold py_delitem. destruct (middle_in_range l1 l2 x) as [-> ->].
  rewrite Nat2Z.id. f_equal.
  rewrite firstn_app, firstn_all, Nat.sub_diag. cbn [firstn].
  rewrite app_nil_r. f_equal.
  replace (S (List.length l1)) with (List.length (l1 ++ [x]))
    by (rewrite length_app; cbn [List.length]; lia).
  change (x :: l2) with ([x] ++ l2). rewrite app_assoc.
  rewrite skipn_app, skipn_all, Nat.sub_diag. reflexivity.
Qed.

(** The texts of a run of rows, read row by row. *)
Lemma texts_of_run (run : list SubRipItem) :
  forall before after : list SubRipItem,
    mapM (fun row => sub <- py_getitem (before ++ run ++ after) row ;;
                     Ok (text sub))
      (row_range (Z.of_nat (List.length before)) (List.length run))
    = Ok (map text run).
Proof.
  induction run as [|x run IH]; intros before after; [reflexivity|].
  cbn [List.length]. rewrite row_range_cons. cbn [mapM map].
  change ((x :: run) ++ after) with (x :: run ++ after).
  rewrite getitem_middle. cbn [bind].
  specialize (IH (before ++ [x]) after).
  rewrite <- app_assoc in IH. cbn [app] in IH.
  rewrite length_app in IH. cbn [List.length] in IH.
  replace (Z.of_nat (List.length before + 1))
    with (Z.of_nat (List.length before) + 1) in IH by lia.
  rewrite IH. reflexivity.
Qed.

(** Deleting the rows of a run, last row first. *)
Lemma delete_run (rest : list SubRipItem) :
  forall (before after : list SubRipItem) (m : SubRipItem),
    fold_left (fun acc row => l <- acc ;; py_delitem l row)
      (rev (row_range (Z.of_nat (List.length before) + 1)
              (List.length rest)))
      (Ok (before ++ m :: rest ++ after))
    = Ok (before ++ m :: after).
Proof.
  induction rest as [|x rest IH] using rev_ind; intros before after m;
    [reflexivity|].
  rewrite length_app. cbn [List.length]. rewrite Nat.add_1_r.
  rewrite row_range_snoc, rev_app_distr. cbn [rev app fold_left bind].
  rewrite <- app_assoc. cbn [app].
  replace (before ++ m :: rest ++ x :: after)
    with ((before ++ m :: rest) ++ x :: after)
    by (rewrite <- app_assoc; reflexivity).
  replace (Z.of_nat (List.length before) + 1 + Z.of_nat (List.length rest))
    with (Z.of_nat (List.length (before ++ m :: rest)))
    by (rewrite length_app; cbn [List.length]; lia).
  rewrite delitem_middle. rewrite <- app_assoc. cbn [app]. apply IH.
Qed.

Lemma last_of_range (r : Z) (n : nat) (d : Z) :
  last (row_range r (S n)) d = r + Z.of_nat n.
Proof. rewrite row_range_snoc. apply last_last. Qed.

Lemma getitem_last_of_run (before rest after : list SubRipItem)
    (first : SubRipItem) :
  py_getitem (before ++ first :: rest ++ after)
    (Z.of_nat (List.length before) + Z.of_nat (List.length rest))
  = Ok (last rest first).
Proof.
  destruct rest as [|y rest] using rev_ind.
  - cbn [List.length app last]. rewrite Z.add_0_r. apply getitem_middle.
  - clear IHrest. rewrite last_last, length_app. cbn [List.length].
    rewrite <- app_assoc. cbn [app].
    replace (before ++ first :: rest ++ y :: after)
      with ((before ++ first :: rest) ++ y :: after)
      by (rewrite <- app_assoc; reflexivity).
    replace (Z.of_nat (List.length before)
             + Z.of_nat (List.length rest + 1))
      with (Z.of_nat (List.length (before ++ first :: rest)))
      by (rewrite length_app; cbn [List.length]; lia).
    apply getitem_middle.
Qed.

(** The merge of the rows of a run, given in ascending order. *)
Lemma merge_run (w : editor) (before rest after : list SubRipItem)
    (first : SubRipItem) (selected_rows : list Z) :
  subtitles w = Some (before ++ first :: rest ++ after) ->
  rest <> [] ->
  sorted selected_rows
  = row_range (Z.of_nat (List.length before)) (S (List.length rest)) ->
  List.length selected_rows = S (List.length rest) ->
  SubtitleEditorWidget.merge_subtitles w selected_rows
  = Ok (refreshed
          (update_indices
             (before
              ++ mkSubRipItem (index first) (start first)
                   (end_ (last rest first))
                   (join newline (map text (first :: rest)))
              :: after))
          (Z.of_nat (List.length before))).
Proof.
  intros Hsubs Hrest Hsorted Hlen.
  unfold SubtitleEditorWidget.merge_subtitles.
  destruct (Z.ltb_spec (Z.of_nat (List.length selected_rows)) 2) as [L|_].
  { destruct rest; [congruence|]. cbn [List.length] in Hlen. lia. }
  rewrite Hsorted, consecutive_row_range. cbn [negb]. rewrite Hsubs.
  rewrite last_of_range, row_range_cons. cbn [hd tl].
  rewrite getitem_middle. cbn [bind].
  rewrite getitem_last_of_run. cbn [bind].
  rewrite <- row_range_cons.
  pose proof (texts_of_run (first :: rest) before after) as T.
  cbn [List.length] in T.
  change ((first :: rest) ++ after) with (first :: rest ++ after) in T.
  rewrite T. cbn [bind].
  rewrite setitem_middle. cbn [bind].
  rewrite delete_run. cbn [bind]. rewrite select_after_refresh.
  unfold update_indices at 2. rewrite length_renumber, length_app.
  cbn [List.length].
  destruct (Z.leb_spec 0 (Z.of_nat (List.length before))); [|lia].
  destruct (Z.ltb_spec (Z.of_nat (List.length before))
              (Z.of_nat (List.length before + S (List.length after))));
    [reflexivity|lia].
Qed.

End MergeFacts.

(** X9. When the selected rows are, in any order, a run of two or more
    consecutive rows of the table, the editor's [merge_subtitles] replaces
    the subtitles of the run by one and renumbers: the merged subtitle has
    the start of the first, the end of the last and the texts joined by
    newlines, in row order; the subtitles before and after the run are
    kept, the merged subtitle's row is selected, and the widget is marked
    as modified. *)
Theorem X9_merge_replaces_a_run_by_one :
  forall (w : SubtitleEditorWidget.editor)
         (before rest after : list SubRipItem) (first : SubRipItem)
         (selected_rows : list Z),
    SubtitleEditorWidget.subtitles w
    = Some (before ++ first :: rest ++ after) ->
    rest <> [] ->
    Permutation selected_rows
      (row_range (Z.of_nat (List.length before)) (S (List.length rest))) ->
    SubtitleEditorWidget.merge_subtitles w selected_rows
    = Ok (SubtitleEditorWidget.refreshed
            (SubtitleEditorWidget.update_indices
               (before
                ++ mkSubRipItem (index first) (start first)
                     (end_ (last rest first))
                     (join SubtitleEditorWidget.newline
                        (map text (first :: rest)))
                :: after))
            (Z.of_nat (List.length before))).
Proof.
  intros w before rest after first selected_rows Hsubs Hrest P.
  apply MergeFacts.merge_run; try assumption.
  - rewrite (ProcessorFacts.sorted_permutation _ _ P).
    apply MergeFacts.sorted_row_range.
  - rewrite (Permutation_length P). apply MergeFacts.row_range_length.
Qed.

(** The theorem on three subtitles with rows 2 and 1 selected. *)
Lemma X9_merge_replaces_a_run_by_one_witness :
  SubtitleEditorWidget.merge_subtitles
    (SubtitleEditorWidget.editing
       [sample_sub 1 0 1000 "a"; sample_sub 2 1000 2000 "b";
        sample_sub 3 2000 3000 "c"] 0)
    [2; 1]
  = Ok (SubtitleEditorWidget.refreshed
          [sample_sub 1 0 1000 "a";
           sample_sub 2 1000 3000
             ("b" ++ SubtitleEditorWidget.newline ++ "c")]
          1).
Proof.
  exact (X9_merge_replaces_a_run_by_one
           (SubtitleEditorWidget.editing
              [sample_sub 1 0 1000 "a"; sample_sub 2 1000 2000 "b";
               sample_sub 3 2000 3000 "c"] 0)
           [sample_sub 1 0 1000 "a"] [sample_sub 3 2000 3000 "c"] []
           (sample_sub 2 1000 2000 "b") [2; 1] eq_refl
           ltac:(discriminate) (perm_swap 1 2 [])).
Defined.

(** X10. The editor's [merge_subtitles] leaves the widget as it is unless
    the selected rows are, in some order, a run of two or more consecutive
    row numbers. *)
Theorem X10_merge_needs_a_run_of_rows :
  forall (w : SubtitleEditorWidget.editor) (selected_rows : list Z),
    SubtitleEditorWidget.merge_subtitles w selected_rows = Ok w
    \/ exists (r : Z) (n : nat),
         Permutation selected_rows (row_range r (S (S n))).
Proof.
  intros w selected_rows.
  unfold SubtitleEditorWidget.merge_subtitles.
  destruct (Z.ltb_spec (Z.of_nat (List.length selected_rows)) 2) as [L|G];
    [left; reflexivity|].
  destruct (SubtitleEditorWidget.consecutive (sorted selected_rows)) eqn:C;
    [|left; reflexivity].
  right. exists (hd 0 (sorted selected_rows)),
    (List.length selected_rows - 2)%nat.
  pose proof (MergeFacts.sorted_is_permutation selected_rows) as P.
  replace (S (S (List.length selected_rows - 2)))
    with (List.length (sorted selected_rows))
    by (rewrite <- (Permutation_length P); lia).
  rewrite <- (MergeFacts.consecutive_is_range _ C). exact P.
Qed.

Module PreviewFacts.
Import SubtitleEditorWidget.

Lemma count_char_app (c : ascii) (a b : string) :
  count_char c (a ++ b) = (count_char c a + count_char c b)%nat.
Proof.
  induction a as [|x a IH]; [reflexivity|].
  cbn [append count_char]. destruct (Ascii.eqb x c); rewrite IH; reflexivity.
Qed.

Lemma count_zero_absent (c : ascii) (s : string) :
  count_char c s = 0%nat ->
  string_forallb (fun x => negb (Ascii.eqb x c)) s = true.
Proof.
  induction s as [|x s IH]; [reflexivity|].
  cbn [count_char string_forallb]. destruct (Ascii.eqb x c);
    [discriminate|]. exact IH.
Qed.

(** A string with the character splits at its first occurrence. *)
Lemma first_occurrence (c : ascii) (s : string) :
  count_char c s <> 0%nat ->
  exists first rest : string,
    s = (first ++ String c rest)%string /\ count_char c first = 0%nat.
Proof.
  induction s as [|x s IH]; [intros H; exfalso; apply H; reflexivity|].
  cbn [count_char]. destruct (Ascii.eqb_spec x c) as [->|Ne]; intros H.
  - exists EmptyString, s. split; reflexivity.
  - destruct (IH H) as (first & rest & -> & Z).
    exists (String x first), rest. split; [reflexivity|].
    cbn [count_char]. destruct (Ascii.eqb_spec x c); [contradiction|exact Z].
Qed.

Lemma preview_one_line (text : string) :
  count_char (ascii_of_nat 10) text = 0%nat -> preview_text text = text.
Proof.
  intros H. unfold preview_text.
  rewrite (StringFacts.split_on_absent _ _ (count_zero_absent _ _ H)).
  reflexivity.
Qed.

Lemma preview_more_lines (first rest : string) :
  count_char (ascii_of_nat 10) first = 0%nat ->
  preview_text (first ++ String (ascii_of_nat 10) rest)
  = (first ++ "...")%string.
Proof.
  intros H. unfold preview_text.
  rewrite (StringFacts.split_on_app _ _ rest (count_zero_absent _ _ H)).
  cbn [List.length hd]. rewrite StringFacts.split_on_length. reflexivity.
Qed.

End PreviewFacts.

Module WindowFacts.

Lemma lower_app (a b : string) :
  lower (a ++ b) = (lower a ++ lower b)%string.
Proof.
  induction a as [|x a IH]; [reflexivity|].
  cbn [append lower]. rewrite IH. reflexivity.
Qed.

Lemma drop_app (a b : string) : drop (String.length a) (a ++ b) = b.
Proof.
  induction a as [|x a IH]; [destruct b; reflexivity|].
  cbn [String.length append drop]. exact IH.
Qed.

Lemma endswith_app (a b : string) : endswith (a ++ b) b = true.
Proof.
  unfold endswith. rewrite StringFacts.length_app.
  replace (String.length a + String.length b - String.length b)%nat
    with (String.length a) by lia.
  rewrite drop_app, String.eqb_refl.
  destruct (Nat.leb_spec (String.length b)
              (String.length a + String.length b)); [reflexivity|lia].
Qed.

Lemma with_extension (file_path : string) :
  endswith (lower (file_path ++ ".srt")) ".srt" = true.
Proof. rewrite lower_app. apply (endswith_app (lower file_path) ".srt"). Qed.

Lemma app_nonempty (a b : string) :
  String.eqb a "" = false -> String.eqb (a ++ b) "" = false.
Proof. destruct a; [discriminate|reflexivity]. Qed.

End WindowFacts.

(** X15. The text shown in the table never contains a newline: it is the
    text itself when that has none, and otherwise what stands before the
    first newline, followed by three points. *)
Theorem X15_preview_is_the_first_line :
  forall text : string,
    count_char (ascii_of_nat 10) (SubtitleEditorWidget.preview_text text)
    = 0%nat
    /\ (count_char (ascii_of_nat 10) text = 0%nat ->
        SubtitleEditorWidget.preview_text text = text)
    /\ (forall first rest : string,
          count_char (ascii_of_nat 10) first = 0%nat ->
          text = (first ++ String (ascii_of_nat 10) rest)%string ->
          SubtitleEditorWidget.preview_text text = (first ++ "...")%string).
Proof.
  intros text.
  split; [|split; [apply PreviewFacts.preview_one_line|
                   intros first rest Hf ->;
                   apply PreviewFacts.preview_more_lines; exact Hf]].
  destruct (Nat.eq_dec (count_char (ascii_of_nat 10) text) 0) as [Z|NZ].
  - rewrite PreviewFacts.preview_one_line; assumption.
  - destruct (PreviewFacts.first_occurrence _ _ NZ) as (first & rest & -> & Z).
    rewrite (PreviewFacts.preview_more_lines _ _ Z).
    rewrite PreviewFacts.count_char_app, Z. reflexivity.
Qed.

(** X17. [load_subtitles] never raises.  It leaves the window as it was
    when the dialog was cancelled, when [pysrt.open] raises and when the
    file holds no subtitle, so that the two cannot be told apart and the
    subtitles loaded before are kept; otherwise the editor gets the
    subtitles of the file, with no current row and not modified, and the
    path is remembered. *)
Theorem X17_load_subtitles_keeps_or_replaces :
  forall (pysrt_open : string -> result (list SubRipItem))
         (mw : MainWindow.window) (file_path : string),
    exists mw' : MainWindow.window,
      MainWindow.load_subtitles pysrt_open mw file_path = Ok mw'
      /\ (file_path = ""
          \/ pysrt_open file_path = Ok []
          \/ (exists e, pysrt_open file_path = Raise e) ->
          mw' = mw)
      /\ (forall subs,
            file_path <> "" -> pysrt_open file_path = Ok subs ->
            subs <> [] ->
            MainWindow.subtitle_editor mw'
            = SubtitleEditorWidget.editing subs (-1)
            /\ MainWindow.current_subtitle_path mw' = Some file_path
            /\ SubtitleEditorWidget.has_subtitles
                 (MainWindow.subtitle_editor mw') = true).
Proof.
  intros pysrt_open mw file_path. unfold MainWindow.load_subtitles, load_srt.
  destruct (String.eqb_spec file_path "") as [E|Ne].
  { exists mw. split; [reflexivity|]. split; [reflexivity|].
    intros subs N. contradiction. }
  destruct (pysrt_open file_path) as [[|sub subs]|e]; cbn [bind].
  - exists mw. split; [reflexivity|]. split; [reflexivity|].
    intros subs _ E N. exfalso. apply N. congruence.
  - eexists. split; [reflexivity|]. split.
    + intros [E|[E|[e E]]]; [contradiction|discriminate E|discriminate E].
    + intros subs' _ E _. inversion E; subst subs'.
      repeat split.
  - exists mw. split; [reflexivity|]. split; [reflexivity|].
    intros subs _ E. discriminate E.
Qed.

(** X18. [save_subtitles] saves nothing without subtitles or when the
    dialog was cancelled.  Otherwise it hands the subtitles of the editor
    to [save_srt] under a path that ends in .srt, in whatever case of
    letters: the chosen path when that ends so, and else the chosen path
    with .srt appended; saving under the path so obtained appends nothing
    more.  The path is remembered only when saving succeeded. *)
Theorem X18_save_path_ends_in_srt :
  forall (pysrt_save : list SubRipItem -> string -> result unit)
         (mw : MainWindow.window) (file_path : string),
    let r := MainWindow.save_subtitles pysrt_save mw file_path in
    (SubtitleEditorWidget.has_subtitles (MainWindow.subtitle_editor mw)
     = false \/ file_path = "" -> r = (mw, None))
    /\ (forall subs p,
          snd r = Some (subs, p) ->
          endswith (lower p) ".srt" = true
          /\ (p = file_path \/ p = (file_path ++ ".srt")%string)
          /\ (endswith (lower file_path) ".srt" = true -> p = file_path)
          /\ subs
             = SubtitleEditorWidget.timeline (MainWindow.subtitle_editor mw)
          /\ subs <> []
          /\ snd (MainWindow.save_subtitles pysrt_save mw p)
             = Some (subs, p)
          /\ (fst r = mw
              \/ (pysrt_save subs p = Ok tt
                  /\ fst r
                     = {| MainWindow.subtitle_editor :=
                            MainWindow.subtitle_editor mw;
                          MainWindow.current_subtitle_path := Some p |}))).
Proof.
  intros pysrt_save mw file_path r. unfold r, MainWindow.save_subtitles.
  destruct (SubtitleEditorWidget.has_subtitles (MainWindow.subtitle_editor mw))
    eqn:Hs; cbn [negb].
  2:{ split; [reflexivity|]. intros subs p E. discriminate E. }
  destruct (String.eqb_spec file_path "") as [E|Ne].
  { split; [reflexivity|]. intros subs p E'. discriminate E'. }
  split; [intros [F|F]; [discriminate F|contradiction]|].
  assert (Hne : SubtitleEditorWidget.timeline (MainWindow.subtitle_editor mw)
                <> []).
  { intros T. rewrite (WidgetFacts.no_subtitles _ T) in Hs. discriminate Hs. }
  assert (Hp : String.eqb file_path "" = false)
    by (apply String.eqb_neq; exact Ne).
  set (p' := if negb (endswith (lower file_path) ".srt")
             then (file_path ++ ".srt")%string else file_path).
  assert (Hend : endswith (lower p') ".srt" = true).
  { unfold p'. destruct (endswith (lower file_path) ".srt") eqn:En;
      cbn [negb]; [exact En|apply WindowFacts.with_extension]. }
  assert (Hp' : String.eqb p' "" = false).
  { unfold p'. destruct (negb (endswith (lower file_path) ".srt"));
      [apply WindowFacts.app_nonempty|]; exact Hp. }
  intros subs p E.
  assert (Es : subs
               = SubtitleEditorWidget.timeline (MainWindow.subtitle_editor mw)
               /\ p = p').
  { destruct (save_srt pysrt_save _ p'); cbn [snd] in E;
      inversion E; split; reflexivity. }
  destruct Es as [-> ->]. clear E.
  split; [exact Hend|].
  split; [unfold p'; destruct (negb (endswith (lower file_path) ".srt"));
          [right|left]; reflexivity|].
  split; [intros En; unfold p'; rewrite En; reflexivity|].
  split; [reflexivity|]. split; [exact Hne|].
  split.
  { rewrite Hp', Hend. cbn [negb].
    destruct (save_srt pysrt_save _ p'); reflexivity. }
  unfold save_srt.
  destruct (pysrt_save
              (SubtitleEditorWidget.timeline (MainWindow.subtitle_editor mw))
              p') as [[]|e]; cbn [fst]; [right; split; reflexivity|left;
                                                                  reflexivity].
Qed.

Module WordFacts.

(** What the loop appends to a text for the tokens that extend it. *)
Lemma fold_prefix (toks : list item) :
  forall a b : string,
    fold_left (fun s t => (s ++ " " ++ content t)%string) toks
      (a ++ " " ++ b)%string
    = (a ++ " "
       ++ fold_left (fun s t => (s ++ " " ++ content t)%string) toks b)%string.
Proof.
  induction toks as [|t toks IH]; intros a b; [reflexivity|].
  cbn [fold_left]. rewrite <- IH. f_equal.
  rewrite !StringFacts.append_assoc. reflexivity.
Qed.

Lemma walk_from_nonempty (toks : list item) :
  forall acc, walk_from acc toks <> [].
Proof.
  induction toks as [|t toks IH]; intros acc; cbn [walk_from];
    [discriminate|].
  destruct (within_gap acc t); [apply IH|discriminate].
Qed.

Lemma join_cons (sep x : string) (l : list string) :
  l <> [] -> join sep (x :: l) = (x ++ sep ++ join sep l)%string.
Proof. destruct l; [contradiction|reflexivity]. Qed.

Lemma walk_words (toks : list item) :
  forall acc : segment,
    join " " (map seg_text (walk_from acc toks))
    = fold_left (fun s t => (s ++ " " ++ content t)%string) toks
        (seg_text acc).
Proof.
  induction toks as [|t toks IH]; intros acc; [reflexivity|].
  cbn [walk_from fold_left]. destruct (within_gap acc t).
  - rewrite IH. reflexivity.
  - cbn [map]. rewrite join_cons.
    + rewrite IH. cbn [new_segment seg_text]. symmetry. apply fold_prefix.
    + intros E. apply map_eq_nil in E.
      exact (walk_from_nonempty _ _ E).
Qed.

Lemma contents_words (toks : list item) :
  forall t : item,
    join " " (map content (t :: toks))
    = fold_left (fun s t => (s ++ " " ++ content t)%string) toks (content t).
Proof.
  induction toks as [|t' toks IH]; intros t; [reflexivity|].
  cbn [map]. rewrite join_cons by discriminate.
  cbn [map] in IH. rewrite IH. cbn [fold_left]. symmetry. apply fold_prefix.
Qed.

Lemma walk_length (toks : list item) :
  forall acc : segment,
    (List.length (walk_from acc toks) <= S (List.length toks))%nat.
Proof.
  induction toks as [|t toks IH]; intros acc; cbn [walk_from List.length];
    [lia|].
  destruct (within_gap acc t); cbn [List.length].
  - specialize (IH (extend_segment acc t)). lia.
  - specialize (IH (new_segment t)). lia.
Qed.

Lemma walk_first_start (toks : list item) :
  forall acc : segment,
    exists rest, walk_from acc toks
                 = {| seg_start_time := seg_start_time acc;
                      seg_end_time := seg_end_time (hd acc (walk_from acc toks));
                      seg_text := seg_text (hd acc (walk_from acc toks)) |}
                   :: rest.
Proof.
  induction toks as [|t toks IH]; intros acc; cbn [walk_from].
  - exists []. destruct acc. reflexivity.
  - destruct (within_gap acc t).
    + destruct (IH (extend_segment acc t)) as [rest E].
      exists rest. rewrite E at 1. cbn [hd extend_segment seg_start_time].
      rewrite E. reflexivity.
    + eexists. destruct acc. reflexivity.
Qed.

End WordFacts.

(** X19. [_group_transcript_items] loses no word and changes no order: the
    texts of the segments, joined by spaces, are the contents of the speech
    items, joined by spaces.  There are no more segments than speech items,
    there is a segment exactly when there is a speech item, and items of
    any other type change nothing. *)
Theorem X19_grouping_keeps_every_word :
  forall items : list item,
    let segments := _group_transcript_items items in
    let speech := filter is_pronunciation items in
    join " " (map seg_text segments) = join " " (map content speech)
    /\ (List.length segments <= List.length speech)%nat
    /\ (segments = [] <-> speech = [])
    /\ _group_transcript_items speech = segments
    /\ (forall first rest,
          speech = first :: rest ->
          exists segment others,
            segments = segment :: others
            /\ seg_start_time segment = start_time first).
Proof.
  intros items segments speech. unfold segments.
  rewrite !GroupingFacts.group_is_walk. unfold walk_items.
  assert (F : filter is_pronunciation speech = speech).
  { unfold speech. clear. induction items as [|it items IH]; [reflexivity|].
    cbn [filter]. destruct (is_pronunciation it) eqn:E; [|exact IH].
    cbn [filter]. rewrite E, IH. reflexivity. }
  rewrite F. fold speech.
  destruct speech as [|t toks].
  - repeat split; intros; try reflexivity; discriminate.
  - split; [rewrite WordFacts.walk_words, WordFacts.contents_words;
            reflexivity|].
    split; [apply WordFacts.walk_length|].
    split; [split; intros E; [|discriminate E];
            exfalso; exact (WordFacts.walk_from_nonempty _ _ E)|].
    split; [reflexivity|].
    intros first rest E. inversion E; subst first rest.
    destruct (WordFacts.walk_first_start toks (new_segment t)) as [others W].
    eexists. exists others. split; [exact W|reflexivity].
Qed.
